(** * HCDP: the healthcare dynamic-programming solvers

    A shallow embedding of the three solver programs of the repository

    - [src/models/Healthcare_DP.py]          (sigmoid regeneration, module [Healthcare_DP]),
    - [src/models/HealthcareDP_NewDegen.py]  (deficit-scaled regeneration, module [NewDegen]),
    - [src/models/HealthcareDP_Stoch.py]     (stochastic health shocks, module [Stoch]),

    and the properties of them that the specification states.

    Numbers.  Python [int]s are [Z].  Python [float]s are modelled by exact
    rationals [Q]: sums, products and comparisons are the exact ones, so
    floating-point rounding is not part of the model; a property that
    holds in exact arithmetic only says so.  The value of
    [math.exp] is a parameter of the sigmoid strategy formulas; its
    [OverflowError] is part of [HealthRegained] ([math_exp]).

    State.  The solver object's mutable dictionaries [self.cache] and
    [self.EnumCache] are threaded explicitly (record [Caches]).  The
    recursion of [Solve] is by fuel ([Solve_rec]); [Solve] supplies
    [enough_fuel], which is shown to suffice. *)

From Stdlib Require Import ZArith QArith Qround Qfield Lia Lqa.
From stdpp Require Import base option list gmap.

Set Warnings "-register-all".
Local Open Scope Z_scope.

(** ** Python values *)

(** [x < y] on numbers. *)
Definition Qltb (x y : Q) : bool := negb (Qle_bool y x).

(** [int(x)] of a float: truncation towards zero. *)
Definition py_int (x : Q) : Z := Z.quot (Qnum x) (Z.pos (Qden x)).

(** [round(x)]: to the nearest integer, a tie to the even one. *)
Definition py_round (x : Q) : Z :=
  let f := Qfloor x in
  match ((x - inject_Z f) ?= (1 # 2))%Q with
  | Lt => f
  | Gt => f + 1
  | Eq => if Z.even f then f else f + 1
  end.

(** [round(x, 1)]: to one decimal place. *)
Definition py_round1 (x : Q) : Q := (inject_Z (py_round (x * 10)) / 10)%Q.

(** [range(a, b)] and [range(a, b, k)] for a positive step. *)
Definition py_range (a b : Z) : list Z :=
  map (fun i => a + Z.of_nat i) (seq 0 (Z.to_nat (b - a))).

Definition py_range_step (a b k : Z) : list Z :=
  map (fun i => a + k * Z.of_nat i) (seq 0 (Z.to_nat ((b - a + k - 1) / k))).

(** The exceptions the modelled code can raise. *)
Inductive PyErr :=
| TypeError | AttributeError | IndexError | ZeroDivisionError | OverflowError.

Inductive Res (A : Type) :=
| Ok (a : A)
| Raise (e : PyErr).
Arguments Ok {A} a.
Arguments Raise {A} e.

Definition res_bind {A B} (x : Res A) (f : A -> Res B) : Res B :=
  match x with
  | Ok a => f a
  | Raise e => Raise e
  end.

(** The value of a call that returns. *)
Definition res_get {A} (default : A) (x : Res A) : A :=
  match x with
  | Ok a => a
  | Raise _ => default
  end.

(** [math.exp(x)].  The result is a float up to [sys.float_info.max];
    above its logarithm, 709.782712893384, [math.exp] raises
    [OverflowError].  [exp] gives the value where there is one. *)
Definition exp_overflow : Q := 709782712893384 # 1000000000000.

Definition math_exp (exp : Q -> Q) (x : Q) : Res Q :=
  if Qltb exp_overflow x then Raise OverflowError else Ok (exp x).

(** [l[i]] for a non-negative index. *)
Definition py_nth {A} (l : list A) (i : nat) : Res A :=
  match l !! i with
  | Some a => Ok a
  | None => Raise IndexError
  end.

(** [l[:-k]] *)
Definition py_drop_last {A} (k : nat) (l : list A) : list A :=
  take (length l - k) l.

(** [DPState = namedtuple('DPState', 'period, health, cash')] *)
Record DPState := mkDPState { period : Z; health : Z; cash : Z }.

(** [Investment = namedtuple('Investment',
     'healthExpenditure, lifeExpenditure, cashRemaining')] *)
Record Investment := mkInvestment {
  healthExpenditure : Z;
  lifeExpenditure : Z;
  cashRemaining : Z
}.

#[global] Instance DPState_eq_dec : EqDecision DPState.
Proof. solve_decision. Defined.

#[global] Instance DPState_countable : Countable DPState.
Proof.
  refine (inj_countable' (fun s => (period s, health s, cash s))
            (fun t => mkDPState t.1.1 t.1.2 t.2) _).
  intros []; reflexivity.
Defined.

(** The values a variable of the untyped code may hold where the shape
    matters: an integer, a float, a [DPState] (a tuple of three integers
    with named fields) or a plain tuple. *)
Inductive PyVal :=
| PInt (z : Z)
| PNum (q : Q)
| PState (s : DPState)
| PTuple (l : list PyVal).

(** [v[i]] *)
Definition py_item (v : PyVal) (i : nat) : Res PyVal :=
  match v with
  | PInt _ | PNum _ => Raise TypeError
  | PState s => py_nth [PInt (period s); PInt (health s); PInt (cash s)] i
  | PTuple l => py_nth l i
  end.

(** [v.period], [v.health] and [v.cash] exist on a [DPState] only. *)
Definition py_state (v : PyVal) : Res DPState :=
  match v with
  | PState s => Ok s
  | _ => Raise AttributeError
  end.

(** Equality of [(state, enjoyment)] tuples, as [==] and [in] test it. *)
Definition pair_eqb (x y : DPState * Q) : bool :=
  bool_decide (x.1 = y.1) && Qeq_bool x.2 y.2.

(** The two dictionaries of a solver object.  [EnumCache] is keyed by
    [str(cash)]; [str] is injective on integers, so the key is the
    integer itself. *)
Record Caches (R : Type) := mkCaches {
  cache : gmap DPState R;
  EnumCache : gmap Z (list Investment)
}.
Arguments mkCaches {R} _ _.
Arguments cache {R} _.
Arguments EnumCache {R} _.

Definition no_caches {R} : Caches R := mkCaches ∅ ∅.

(** A degree-12 Taylor polynomial of the exponential: the rational
    stand-in for [math.exp] where a closed evaluation needs one.
    [exp_series n k term acc x] adds the [n] terms after [term], the
    next one being [term * x / k]. *)
Fixpoint exp_series (n : nat) (k term acc x : Q) : Q :=
  match n with
  | O => acc
  | Datatypes.S n' =>
      let term' := Qred (term * x / k) in
      exp_series n' (k + 1)%Q term' (Qred (acc + term')) x
  end.

Definition exp_approx (x : Q) : Q := exp_series 12 1 1 1 x.

(** ** The candidate loop of [Solve]

    All three programs run the same loop over the [(state, enjoyment)]
    candidates:
<<
    for (state, enjoyment) in stateEnjoyments:
        future = self.Solve(state)[i]
        totalValue = enjoyment + future
        if totalValue > highestReturn[1]:
            highestReturn = (state, totalValue, round(enjoyment, 1))
>>
    [future] is the recursive call followed by the indexing, [total] reads
    [highestReturn[1]] and [mk] builds the new triple. *)
Section CandidateLoop.
Context {St B : Type}.
Variable future : DPState -> St -> option (Q * St).
Variable total : B -> Q.
Variable mk : DPState -> Q -> Q -> B.

Definition better (best : B) (state : DPState) (enjoyment fut : Q) : B :=
  let totalValue := (enjoyment + fut)%Q in
  if Qltb (total best) totalValue
  then mk state totalValue (py_round1 enjoyment)
  else best.

Fixpoint candidate_loop (l : list (DPState * Q)) (highestReturn : B) (σ : St)
  : option (B * St) :=
  match l with
  | [] => Some (highestReturn, σ)
  | (state, enjoyment) :: l' =>
      match future state σ with
      | None => None
      | Some (fut, σ') =>
          candidate_loop l' (better highestReturn state enjoyment fut) σ'
      end
  end.

End CandidateLoop.

(** [allStateEnjoyments]: the candidates without repetition, first
    occurrences in order. *)
Definition dedup_append (acc : list (DPState * Q)) (x : DPState * Q)
  : list (DPState * Q) :=
  if existsb (pair_eqb x) acc then acc else acc ++ [x].

(** ** The methods that Healthcare_DP.py and HealthcareDP_Stoch.py share

    [Invest], [StateEnum] and [InvestmentEnum] are the same text in both
    files, and so is [Transition] on a [DPState].  A strategy object is
    used through its one method, so it is held as that function. *)
Record Strategies := {
  regenStrat : Z -> Z;
  enjoymentStrat : Z -> Z -> Q;
  degenStrat : Z -> Z -> Z;
  harvestStrat : Z -> Z
}.

Definition Transition (self : Strategies) (state : DPState) : DPState :=
  let nextPeriod := period state + 1 in
  mkDPState nextPeriod
    (degenStrat self (health state) nextPeriod)
    (cash state + harvestStrat self (health state)).

Definition Invest (self : Strategies) (state : DPState) (investment : Investment)
  : DPState * Q :=
  let endHealth :=
    Z.min 100 (health state + regenStrat self (healthExpenditure investment)) in
  (mkDPState (period state) endHealth (cashRemaining investment),
   enjoymentStrat self (lifeExpenditure investment) endHealth).

(** The outer loop of [InvestmentEnum], [prev] being the gain of the
    last expenditure that was kept. *)
Fixpoint enum_scan (self : Strategies) (cash : Z) (hes : list Z) (prev : Z)
  : list Investment :=
  match hes with
  | [] => []
  | healthExpenditure :: hes' =>
      let hr := regenStrat self healthExpenditure in
      if hr =? prev
      then enum_scan self cash hes' prev
      else map (fun lifeExpenditure =>
                  mkInvestment healthExpenditure lifeExpenditure
                    (cash - healthExpenditure - lifeExpenditure))
               (py_range (Z.max (cash - healthExpenditure - 20) 0)
                         (cash + 1 - healthExpenditure))
           ++ enum_scan self cash hes' hr
  end.

Definition potentialStates (self : Strategies) (cash : Z) : list Investment :=
  enum_scan self cash (py_range 0 (cash + 1)) (-1).

Definition InvestmentEnum {R} (self : Strategies) (cash : Z) (σ : Caches R)
  : list Investment * Caches R :=
  match EnumCache σ !! cash with
  | Some l => (l, σ)
  | None =>
      let l := potentialStates self cash in
      (l, mkCaches (cache σ) (<[cash := l]> (EnumCache σ)))
  end.

Definition allStateEnjoyments (self : Strategies) (state : DPState)
  (investments : list Investment) : list (DPState * Q) :=
  fold_left (fun acc investment => dedup_append acc (Invest self state investment))
    investments [].

Definition StateEnum {R} (self : Strategies) (state : DPState) (σ : Caches R)
  : list (DPState * Q) * Caches R :=
  let '(investments, σ') := InvestmentEnum self (cash state) σ in
  (allStateEnjoyments self state investments, σ').

(** [newState.period > self.numRounds or newState.health <= 0] *)
Definition terminal (numRounds : Z) (newState : DPState) : bool :=
  (numRounds <? period newState) || (health newState <=? 0).

(** The recursion of [Solve] descends one period per call and stops
    above [numRounds]. *)
Definition rounds_left (numRounds : Z) (state : DPState) : nat :=
  Z.to_nat (numRounds - period state).

Definition enough_fuel (numRounds : Z) (state : DPState) : nat :=
  Datatypes.S (rounds_left numRounds state).

(** ** src/models/Healthcare_DP.py *)
Module Healthcare_DP.

Module RegenerationStrategy.
Record t := { gamma : Q; sigma : Q; r : Q }.

(** The first exponential is evaluated before the second; either can
    raise [OverflowError]. *)
Definition HealthRegained (exp : Q -> Q) (self : t) (investment : Z) : Res Z :=
  res_bind (math_exp exp ((-1) * sigma self * inject_Z investment)%Q) (fun e1 =>
  res_bind (math_exp exp ((-1) * sigma self * (inject_Z investment - r self))%Q)
    (fun e2 =>
  Ok (py_int (gamma self * ((1 - e1) / (1 + e2)))%Q))).
End RegenerationStrategy.

Module LifeEnjoymentStrategy.
Record t := { alpha : Q; beta : Q; mu : Q; c : Q }.

Definition LifeEnjoyment (exp : Q -> Q) (self : t) (investment currentHealth : Z) : Q :=
  (c self * (beta self * (inject_Z currentHealth / 100) + mu self) *
   (1 - exp ((-1) * alpha self * inject_Z investment)))%Q.
End LifeEnjoymentStrategy.

Module DegenerationStrategy.
Record t := { intercept : Q; slope : Q; horizon : Z }.

Definition HealthDegeneration (self : t) (currentHealth currentRound : Z) : Z :=
  if currentRound <=? horizon self
  then Z.max (currentHealth -
              py_round (intercept self + slope self * inject_Z currentRound)) 0
  else Z.max (currentHealth -
              py_round (intercept self + 2 * slope self * inject_Z currentRound)) 0.
End DegenerationStrategy.

Module HarvestStrategy.
Record t := { maxHarvest : Q }.

Definition HarvestAmount (self : t) (currentHealth : Z) : Z :=
  py_round (maxHarvest self * inject_Z currentHealth / 100).
End HarvestStrategy.

(** What [Solve] returns: the initial [(0, 0)] or a triple
    [(state, totalValue, round(enjoyment, 1))]. *)
Inductive SolveResult :=
| Initial
| Triple (state : DPState) (totalValue immediate : Q).

(** [result[0]] and [result[1]] *)
Definition item0 (res : SolveResult) : PyVal :=
  match res with
  | Initial => PInt 0
  | Triple state _ _ => PState state
  end.

Definition item1 (res : SolveResult) : Q :=
  match res with
  | Initial => 0
  | Triple _ totalValue _ => totalValue
  end.

Module HealthCareDP.

Record t := {
  start : DPState;
  numRounds : Z;
  strategies :> Strategies
}.

Fixpoint Solve_rec (fuel : nat) (self : t) (currentState : DPState)
  (σ : Caches SolveResult) : option (SolveResult * Caches SolveResult) :=
  match fuel with
  | O => None
  | Datatypes.S fuel' =>
      let newState := Transition self currentState in
      if terminal (numRounds self) newState then Some (Triple newState 0 0, σ)
      else
        match cache σ !! newState with
        | Some res => Some (res, σ)
        | None =>
            let '(stateEnjoyments, σ1) := StateEnum self newState σ in
            match
              candidate_loop
                (fun state σ =>
                   match Solve_rec fuel' self state σ with
                   | Some (res, σ') => Some (item1 res, σ')
                   | None => None
                   end)
                item1 Triple stateEnjoyments Initial σ1
            with
            | None => None
            | Some (highestReturn, σ2) =>
                Some (highestReturn,
                      mkCaches (<[newState := highestReturn]> (cache σ2))
                               (EnumCache σ2))
            end
        end
  end.

Definition Solve (self : t) (currentState : DPState) (σ : Caches SolveResult)
  : option (SolveResult * Caches SolveResult) :=
  Solve_rec (enough_fuel (numRounds self) currentState) self currentState σ.

(** [FindStrat]: [cur] holds a [DPState], or the integer [0] once
    [Solve] has returned [(0, 0)]; [Transition] then fails on
    [state.period]. *)
Fixpoint FindStrat_loop (n : nat) (self : t) (cur : PyVal)
  (strategy : list PyVal) (σ : Caches SolveResult)
  : option (Res (list PyVal) * Caches SolveResult) :=
  match n with
  | O => Some (Ok strategy, σ)
  | Datatypes.S n' =>
      match py_state cur with
      | Raise e => Some (Raise e, σ)
      | Ok state =>
          match Solve self state σ with
          | None => None
          | Some (res, σ') =>
              let cur' := item0 res in
              FindStrat_loop n' self cur' (strategy ++ [cur']) σ'
          end
      end
  end.

Definition FindStrat (self : t) (state : DPState) (σ : Caches SolveResult)
  : option (Res (list PyVal) * Caches SolveResult) :=
  FindStrat_loop (Z.to_nat (numRounds self)) self (PState state) [] σ.

(** [AnalyzeStrat].  [strategy] is the list of [[state, remaining]]
    records.  One entry of [output], and the row written for it. *)
Record OutputRow := {
  row0 : SolveResult;
  row1 : DPState;
  row2 : Q;
  row3 : Q;
  row4 : Q;
  row5 : DPState * Q;
  row6 : Q
}.

Record CsvRow := {
  Period : Z;
  OptimalHealth : Z;
  OptimalCashOnHand : Z;
  RemainingMax : Z;
  OptimalEarningsThisPeriod : Q;
  RealizedHealth : Z;
  RealizedCashOnHand : Z;
  CurrentLE : Q;
  EarnedThisPeriod : Q;
  RemainingAvailable : Z;
  Loss : Q;
  AccumulatedLoss : Q
}.

(** [for i in strategy[:-1]: alternate.append(self.Solve(i[0]))] *)
Fixpoint solve_all (self : t) (l : list (DPState * Q)) (σ : Caches SolveResult)
  : option (list SolveResult * Caches SolveResult) :=
  match l with
  | [] => Some ([], σ)
  | i :: l' =>
      match Solve self i.1 σ with
      | None => None
      | Some (res, σ1) =>
          match solve_all self l' σ1 with
          | None => None
          | Some (rs, σ2) => Some (res :: rs, σ2)
          end
      end
  end.

(** A loop that appends one value per index and stops at the first
    exception. *)
Fixpoint for_range {A} (body : nat -> list A -> Res A) (idx : list nat)
  (acc : list A) : Res (list A) :=
  match idx with
  | [] => Ok acc
  | i :: idx' =>
      match body i acc with
      | Ok a => for_range body idx' (acc ++ [a])
      | Raise e => Raise e
      end
  end.

(** [alternate[i+1][1] + (strategy[i+1][1] - strategy[i+2][1])] *)
Definition remaining_after (alternate : list SolveResult)
  (strategy : list (DPState * Q)) (i : nat) : Res Q :=
  res_bind (py_nth alternate (i + 1)) (fun a1 =>
  res_bind (py_nth strategy (i + 1)) (fun s1 =>
  res_bind (py_nth strategy (i + 2)) (fun s2 =>
  Ok (item1 a1 + (s1.2 - s2.2))%Q))).

Definition loss_at (alternate : list SolveResult)
  (strategy : list (DPState * Q)) (i : nat) : Res Q :=
  res_bind (remaining_after alternate strategy i) (fun rem =>
  res_bind (py_nth alternate i) (fun a =>
  res_bind (py_nth alternate 0) (fun a0 =>
  if Qeq_bool (item1 a0) 0 then Raise ZeroDivisionError
  else Ok ((rem - item1 a) / item1 a0)%Q))).

(** [np.cumsum(losses[:i+1])[i]] *)
Definition cumsum_at (losses : list Q) (i : nat) : Res Q :=
  let l := take (i + 1) losses in
  match l !! i with
  | Some _ => Ok (fold_left Qplus l 0%Q)
  | None => Raise IndexError
  end.

Definition output_at (alternate : list SolveResult)
  (strategy : list (DPState * Q)) (losses : list Q) (i : nat) : Res OutputRow :=
  res_bind (py_nth alternate i) (fun a =>
  res_bind (py_nth strategy (i + 1)) (fun s1 =>
  res_bind (remaining_after alternate strategy i) (fun rem =>
  res_bind (py_nth losses i) (fun l =>
  res_bind (cumsum_at losses i) (fun cl =>
  res_bind (py_nth strategy i) (fun s0 =>
  Ok {| row0 := a; row1 := s1.1; row2 := rem; row3 := l; row4 := cl;
        row5 := s0; row6 := (s0.2 - s1.2)%Q |})))))).

(** The dictionary written for a row: [row[0][0][0]] is the period of
    the optimal state, and fails when [row[0]] is [(0, 0)]. *)
Definition csv_row (row : OutputRow) : Res CsvRow :=
  match row0 row with
  | Initial => Raise TypeError
  | Triple state totalValue immediate =>
      Ok {| Period := period state;
            OptimalHealth := health state;
            OptimalCashOnHand := cash state;
            RemainingMax := py_int totalValue;
            OptimalEarningsThisPeriod := immediate;
            RealizedHealth := health (row5 row).1;
            RealizedCashOnHand := cash (row5 row).1;
            CurrentLE := (row5 row).2;
            EarnedThisPeriod := row6 row;
            RemainingAvailable := py_int (row2 row);
            Loss := row3 row;
            AccumulatedLoss := row4 row |}
  end.

Definition analysis (alternate : list SolveResult)
  (strategy : list (DPState * Q)) : Res (list CsvRow) :=
  res_bind (for_range (fun i _ => loss_at alternate strategy i)
              (seq 0 (length (py_drop_last 2 strategy))) []) (fun losses =>
  res_bind (for_range (fun i _ => output_at alternate strategy losses i)
              (seq 0 (length alternate - 1)) []) (fun output =>
  for_range (fun i _ => res_bind (py_nth output i) csv_row)
    (seq 0 (length output)) [])).

(** The rows [AnalyzeStrat] appends to the output file, or the exception
    it stops with. *)
Definition AnalyzeStrat (self : t) (strategy : list (DPState * Q))
  (σ : Caches SolveResult) : option (Res (list CsvRow) * Caches SolveResult) :=
  match solve_all self (py_drop_last 1 strategy) σ with
  | None => None
  | Some (alternate, σ') => Some (analysis alternate strategy, σ')
  end.

End HealthCareDP.

(** [round_down]: [num - (num % divisor)] on integers.  Python's [%]
    takes the sign of the divisor, as [Z.modulo] does. *)
Definition round_down (num divisor : Z) : Res Z :=
  if divisor =? 0 then Raise ZeroDivisionError
  else Ok (num - num mod divisor).

(** [data[a:b]] for indices within [0, ...]. *)
Definition py_slice {A} (l : list A) (a b : Z) : list A :=
  take (Z.to_nat (b - a)) (drop (Z.to_nat a) l).

(** [readInFile], on the list that [json.load] has read. *)
Definition readInFile {A} (data : list A) (size : Z) : list (list A) :=
  if size =? 9
  then map (fun j => py_slice data j (j + 9))
           (py_range_step 0 (Z.of_nat (length data)) 9)
  else map (fun j => py_slice data j (j + 18))
           (py_range_step 0 (Z.of_nat (length data)) 18).

(** A row [k] of the player data: [[ID, life, [[period, health, cash],
    enjoyment]]], as DataCleaner.py writes it.  [k[2]] is a list object
    that [BatchRun] updates in place. *)
Record PlayerRow := mkPlayerRow {
  k0 : Z;
  k1 : Z;
  k2 : DPState * Q
}.

(** [max(x, 0)]: 0 when [0 > x], else [x]. *)
Definition py_max0 (x : Q) : Q := if Qltb x 0 then 0%Q else x.

(** [l[-k]] *)
Definition py_nth_last {A} (l : list A) (k : nat) : Res A :=
  if (length l <? k)%nat then Raise IndexError else py_nth l (length l - k).

(** [for j in range(len(pad)): pad[j][1] = max(pad[-2][1] - pad[j][1], 0)]:
    [pad[-2]] is read from the list as the earlier rounds of the loop
    have left it. *)
Fixpoint pad_loop (js : list nat) (pad : list (DPState * Q))
  : Res (list (DPState * Q)) :=
  match js with
  | [] => Ok pad
  | j :: js' =>
      res_bind (py_nth_last pad 2) (fun last =>
      res_bind (py_nth pad j) (fun cur =>
      pad_loop js' (<[j := (cur.1, py_max0 (last.2 - cur.2))]> pad)))
  end.

(** The trajectory that [BatchRun] builds for one game [i], and the
    game's rows afterwards: the first [len(i)] entries of [pad] are the
    objects [k[2]] of the rows themselves. *)
Definition BatchRun_pad (startState : DPState) (i : list PlayerRow)
  : Res (list (DPState * Q) * list PlayerRow) :=
  res_bind (py_nth_last i 1) (fun lastRow =>
  let total := (k2 lastRow).2 in
  let pad := map k2 i ++ [(mkDPState 19 0 0, 0%Q)] in
  res_bind (pad_loop (seq 0 (length pad)) pad) (fun pad =>
  Ok ((startState, total) :: pad,
      zip_with (fun k v => mkPlayerRow (k0 k) (k1 k) v) i pad))).

(** One round of [for i in data]: the identifiers passed to
    [AnalyzeStrat] and the rows it writes. *)
Definition BatchRun_game (HCDP : HealthCareDP.t) (startState : DPState)
  (i : list PlayerRow) (σ : Caches SolveResult)
  : option (Res (Z * Z * list HealthCareDP.CsvRow) * list PlayerRow
            * Caches SolveResult) :=
  match BatchRun_pad startState i with
  | Raise e => Some (Raise e, i, σ)
  | Ok (pad, i') =>
      match py_nth i' 0 with
      | Raise e => Some (Raise e, i', σ)
      | Ok first =>
          match HealthCareDP.AnalyzeStrat HCDP pad σ with
          | None => None
          | Some (Raise e, σ') => Some (Raise e, i', σ')
          | Some (Ok rows, σ') => Some (Ok (k0 first, k1 first, rows), i', σ')
          end
      end
  end.

(** [main], once the solver object is built:
<<
    for val in [startState] + HCDP.FindStrat(startState):
        o = HCDP.Solve(val)
        output.append(o)
>>
    [Solve] reads [val.period] in [Transition]. *)
Fixpoint solve_vals (HCDP : HealthCareDP.t) (vals : list PyVal)
  (σ : Caches SolveResult) : option (Res (list SolveResult) * Caches SolveResult) :=
  match vals with
  | [] => Some (Ok [], σ)
  | val :: vals' =>
      match py_state val with
      | Raise e => Some (Raise e, σ)
      | Ok state =>
          match HealthCareDP.Solve HCDP state σ with
          | None => None
          | Some (o, σ1) =>
              match solve_vals HCDP vals' σ1 with
              | None => None
              | Some (Ok output, σ2) => Some (Ok (o :: output), σ2)
              | Some (Raise e, σ2) => Some (Raise e, σ2)
              end
          end
      end
  end.

Definition main_output (HCDP : HealthCareDP.t) (startState : DPState)
  (σ : Caches SolveResult) : option (Res (list SolveResult) * Caches SolveResult) :=
  match HealthCareDP.FindStrat HCDP startState σ with
  | None => None
  | Some (Raise e, σ1) => Some (Raise e, σ1)
  | Some (Ok strategy, σ1) => solve_vals HCDP (PState startState :: strategy) σ1
  end.

(** The rows of the output file:
<<
    for row in output:
        if row[0].period < 19:
            writer.writerow({'Round': row[0].period, ...})
>> *)
Record MainRow := {
  Round : Z;
  Health : Z;
  CashonHand : Z;
  LERemaining : Q;
  LEEarned : Q
}.

Fixpoint main_rows (output : list SolveResult) : Res (list MainRow) :=
  match output with
  | [] => Ok []
  | row :: output' =>
      match row with
      | Initial => Raise AttributeError
      | Triple state totalValue immediate =>
          res_bind (main_rows output') (fun rows =>
          Ok (if period state <? 19
              then {| Round := period state; Health := health state;
                      CashonHand := cash state; LERemaining := totalValue;
                      LEEarned := immediate |} :: rows
              else rows))
      end
  end.

End Healthcare_DP.

(** ** src/models/HealthcareDP_NewDegen.py *)
Module NewDegen.

(** A float division, which raises on a zero divisor. *)
Definition py_div (x y : Q) : Res Q :=
  if Qeq_bool y 0 then Raise ZeroDivisionError else Ok (x / y)%Q.

Module RegenerationStrategy.
Record t := { d : Q; k : Q }.

Definition HealthRegained (self : t) (investment health : Z) : Res Z :=
  if investment <=? 0 then Ok 0
  else
    res_bind (py_div (inject_Z investment - d self * (1 - inject_Z health / 100))
                     (inject_Z investment + k self)) (fun ratio =>
    Ok (Z.max (py_int (inject_Z (100 - health) * ratio)) 0)).
End RegenerationStrategy.

Module LifeEnjoymentStrategy.
Record t := { j : Q }.

Definition LifeEnjoyment (self : t) (investment currentHealth : Z) : Res Q :=
  if investment <=? 0 then Ok 0%Q
  else
    res_bind (py_div (inject_Z investment) (inject_Z investment + j self))
      (fun ratio => Ok (inject_Z currentHealth * ratio)%Q).
End LifeEnjoymentStrategy.

Module DegenerationStrategy.
Record t := { degen : Z }.

Definition HealthDegeneration (self : t) (currentHealth currentRound : Z) : Z :=
  if (currentRound =? 3) || (currentRound =? 9)
  then Z.max (currentHealth - (degen self + 50)) 0
  else Z.max (currentHealth - degen self) 0.
End DegenerationStrategy.

Module HarvestStrategy.
Record t := { maxHarvest : Q }.

Definition HarvestAmount (self : t) (currentHealth : Z) : Z :=
  py_round (maxHarvest self * inject_Z currentHealth / 100).
End HarvestStrategy.

(** [Solve]'s result here is always a triple: the loop starts from
    [(DPState(0, 0, 0), 0, 0)]. *)
Record SolveResult := Triple {
  item0 : DPState;
  item1 : Q;
  item2 : Q
}.

Module HealthCareDP.

(** The regeneration method takes the current health as well. *)
Record t := {
  start : DPState;
  numRounds : Z;
  regenStrat : Z -> Z -> Z;
  enjoymentStrat : Z -> Z -> Q;
  degenStrat : Z -> Z -> Z;
  harvestStrat : Z -> Z
}.

Definition Transition (self : t) (state : DPState) : DPState :=
  let nextPeriod := period state + 1 in
  mkDPState nextPeriod
    (degenStrat self (health state) nextPeriod)
    (cash state + harvestStrat self (health state)).

Definition Invest (self : t) (state : DPState) (investment : Investment)
  : DPState * Q :=
  let endHealth :=
    Z.min 100 (health state +
               regenStrat self (healthExpenditure investment) (health state)) in
  let newState := mkDPState (period state) endHealth (cashRemaining investment) in
  let enjoyment := enjoymentStrat self (lifeExpenditure investment) endHealth in
  (newState, enjoyment).

Definition potentialStates (cash : Z) : list Investment :=
  flat_map (fun healthExpenditure =>
    map (fun bankedCash =>
           let lifeExpenditure := cash - healthExpenditure - bankedCash in
           mkInvestment healthExpenditure lifeExpenditure bankedCash)
        (py_range_step 0 (Z.min 111 (cash - healthExpenditure + 1)) 10))
    (py_range 0 (cash + 1)).

Definition InvestmentEnum {R} (cash health : Z) (σ : Caches R)
  : list Investment * Caches R :=
  match EnumCache σ !! cash with
  | Some l => (l, σ)
  | None =>
      let l := potentialStates cash in
      (l, mkCaches (cache σ) (<[cash := l]> (EnumCache σ)))
  end.

Definition allStateEnjoyments (self : t) (state : DPState)
  (investments : list Investment) : list (DPState * Q) :=
  fold_left (fun acc investment => dedup_append acc (Invest self state investment))
    investments [].

Definition StateEnum {R} (self : t) (state : DPState) (σ : Caches R)
  : list (DPState * Q) * Caches R :=
  let '(investments, σ') := InvestmentEnum (cash state) (health state) σ in
  (allStateEnjoyments self state investments, σ').

Fixpoint Solve_rec (fuel : nat) (self : t) (currentState : DPState)
  (σ : Caches SolveResult) : option (SolveResult * Caches SolveResult) :=
  match fuel with
  | O => None
  | Datatypes.S fuel' =>
      let newState := Transition self currentState in
      if terminal (numRounds self) newState then Some (Triple newState 0 0, σ)
      else
        match cache σ !! newState with
        | Some res => Some (res, σ)
        | None =>
            let '(stateEnjoyments, σ1) := StateEnum self newState σ in
            match
              candidate_loop
                (fun state σ =>
                   match Solve_rec fuel' self state σ with
                   | Some (res, σ') => Some (item1 res, σ')
                   | None => None
                   end)
                item1 Triple stateEnjoyments
                (Triple (mkDPState 0 0 0) 0 0) σ1
            with
            | None => None
            | Some (highestReturn, σ2) =>
                Some (highestReturn,
                      mkCaches (<[newState := highestReturn]> (cache σ2))
                               (EnumCache σ2))
            end
        end
  end.

Definition Solve (self : t) (currentState : DPState) (σ : Caches SolveResult)
  : option (SolveResult * Caches SolveResult) :=
  Solve_rec (enough_fuel (numRounds self) currentState) self currentState σ.

(** [FindStrat]: here [Solve(cur)[0]] is always a [DPState], the
    placeholder [DPState(0, 0, 0)] included. *)
Fixpoint FindStrat_loop (n : nat) (self : t) (cur : DPState)
  (strategy : list DPState) (σ : Caches SolveResult)
  : option (list DPState * Caches SolveResult) :=
  match n with
  | O => Some (strategy, σ)
  | Datatypes.S n' =>
      match Solve self cur σ with
      | None => None
      | Some (res, σ') =>
          let cur' := item0 res in
          FindStrat_loop n' self cur' (strategy ++ [cur']) σ'
      end
  end.

Definition FindStrat (self : t) (state : DPState) (σ : Caches SolveResult)
  : option (list DPState * Caches SolveResult) :=
  FindStrat_loop (Z.to_nat (numRounds self)) self state [] σ.

End HealthCareDP.
End NewDegen.

(** ** src/models/HealthcareDP_Stoch.py

    The strategy classes are imported from the package [strategies],
    which is not part of the sources: the four methods are parameters
    (the fields of [Strategies]). *)
Module Stoch.

(** One branch's winner: the initial [DPState(0, 0, -1)] or a triple. *)
Inductive Branch :=
| Unset (s : DPState)
| Best (state : DPState) (totalValue immediate : Q).

(** [highestReturn[1]]; on a [DPState] this is its health. *)
Definition branch1 (b : Branch) : Q :=
  match b with
  | Unset s => inject_Z (health s)
  | Best _ totalValue _ => totalValue
  end.

Definition branch_val (b : Branch) : PyVal :=
  match b with
  | Unset s => PState s
  | Best state totalValue immediate =>
      PTuple [PState state; PNum totalValue; PNum immediate]
  end.

(** What [Solve] returns: [(newState, 0, 0)] on a finished game, else
    [(highestReturn, hitStateHighestReturn, expected_value)]. *)
Inductive SolveResult :=
| Over (newState : DPState)
| Both (highestReturn hitStateHighestReturn : Branch) (expected_value : Q).

(** The result as a tuple, and [result[2]]. *)
Definition result_val (res : SolveResult) : PyVal :=
  match res with
  | Over newState => PTuple [PState newState; PInt 0; PInt 0]
  | Both highestReturn hitStateHighestReturn expected_value =>
      PTuple [branch_val highestReturn; branch_val hitStateHighestReturn;
              PNum expected_value]
  end.

Definition item2 (res : SolveResult) : Q :=
  match res with
  | Over _ => 0
  | Both _ _ expected_value => expected_value
  end.

Module HealthCareDP.

Record t := {
  start : DPState;
  numRounds : Z;
  strategies :> Strategies;
  stochHitChance : Q;
  stochHitSize : Z
}.

Definition hitState (self : t) (newState : DPState) : DPState :=
  mkDPState (period newState) (Z.max (health newState - stochHitSize self) 0)
    (cash newState).

(** [(1 - self.stochHitChance) * highestReturn[1]
     + self.stochHitChance * hitStateHighestReturn[1]], the products and
    the sum being exact: the float the code computes can differ from it
    in the last place. *)
Definition expected (self : t) (highestReturn hitStateHighestReturn : Branch) : Q :=
  ((1 - stochHitChance self) * branch1 highestReturn +
   stochHitChance self * branch1 hitStateHighestReturn)%Q.

Fixpoint Solve_rec (fuel : nat) (self : t) (currentState : DPState)
  (σ : Caches SolveResult) : option (SolveResult * Caches SolveResult) :=
  match fuel with
  | O => None
  | Datatypes.S fuel' =>
      let newState := Transition self currentState in
      let hitState := hitState self newState in
      if terminal (numRounds self) newState then Some (Over newState, σ)
      else
        match cache σ !! newState with
        | Some res => Some (res, σ)
        | None =>
            let '(stateEnjoyments, σ1) := StateEnum self newState σ in
            let '(hitStateEnjoyments, σ2) := StateEnum self hitState σ1 in
            let future := fun state σ =>
              match Solve_rec fuel' self state σ with
              | Some (res, σ') => Some (item2 res, σ')
              | None => None
              end in
            match
              candidate_loop future branch1 Best stateEnjoyments
                (Unset (mkDPState 0 0 (-1))) σ2
            with
            | None => None
            | Some (highestReturn, σ3) =>
                match
                  candidate_loop future branch1 Best hitStateEnjoyments
                    (Unset (mkDPState 0 0 (-1))) σ3
                with
                | None => None
                | Some (hitStateHighestReturn, σ4) =>
                    let expected_value :=
                      expected self highestReturn hitStateHighestReturn in
                    let res :=
                      Both highestReturn hitStateHighestReturn expected_value in
                    Some (res, mkCaches (<[newState := res]> (cache σ4))
                                        (EnumCache σ4))
                end
            end
        end
  end.

Definition Solve (self : t) (currentState : DPState) (σ : Caches SolveResult)
  : option (SolveResult * Caches SolveResult) :=
  Solve_rec (enough_fuel (numRounds self) currentState) self currentState σ.

(** [Solve] on whatever [FindStrat] holds in [cur].  [Transition] first
    tries [state[0].period]: on a [DPState] that is an attribute of an
    integer and the handler reads [state.period] instead; on an integer
    [state[0]] is a [TypeError], which no handler catches. *)
Definition Solve_dyn (self : t) (cur : PyVal) (σ : Caches SolveResult)
  : option (Res SolveResult * Caches SolveResult) :=
  match cur with
  | PState state =>
      match Solve self state σ with
      | Some (res, σ') => Some (Ok res, σ')
      | None => None
      end
  | PInt _ | PNum _ => Some (Raise TypeError, σ)
  | PTuple [] => Some (Raise IndexError, σ)
  | PTuple (PState state :: _) =>
      match Solve self state σ with
      | Some (res, σ') => Some (Ok res, σ')
      | None => None
      end
  | PTuple (_ :: _) => Some (Raise AttributeError, σ)
  end.

(** One round of [FindStrat]'s loop:
<<
    try:    cur = self.Solve(cur)[0][0]
    except: cur = self.Solve(cur)
    strategy.append(cur[0][0])
>> *)
Definition FindStrat_step (self : t) (cur : PyVal) (σ : Caches SolveResult)
  : option (Res (PyVal * PyVal) * Caches SolveResult) :=
  match Solve_dyn self cur σ with
  | None => None
  | Some (first, σ1) =>
      let tried :=
        res_bind first (fun res => res_bind (py_item (result_val res) 0)
                                     (fun v => py_item v 0)) in
      let assigned :=
        match tried with
        | Ok v => Some (Ok v, σ1)
        | Raise _ =>
            match Solve_dyn self cur σ1 with
            | None => None
            | Some (second, σ2) => Some (res_bind second (fun res => Ok (result_val res)), σ2)
            end
        end in
      match assigned with
      | None => None
      | Some (Raise e, σ') => Some (Raise e, σ')
      | Some (Ok cur', σ') =>
          Some (res_bind (py_item cur' 0) (fun v =>
                res_bind (py_item v 0) (fun item => Ok (cur', item))), σ')
      end
  end.

Fixpoint FindStrat_loop (n : nat) (self : t) (cur : PyVal)
  (strategy : list PyVal) (σ : Caches SolveResult)
  : option (Res (list PyVal) * Caches SolveResult) :=
  match n with
  | O => Some (Ok strategy, σ)
  | Datatypes.S n' =>
      match FindStrat_step self cur σ with
      | None => None
      | Some (Raise e, σ') => Some (Raise e, σ')
      | Some (Ok (cur', item), σ') =>
          FindStrat_loop n' self cur' (strategy ++ [item]) σ'
      end
  end.

Definition FindStrat (self : t) (state : DPState) (σ : Caches SolveResult)
  : option (Res (list PyVal) * Caches SolveResult) :=
  FindStrat_loop (Z.to_nat (numRounds self)) self (PState state) [] σ.

(** [AnalyzeStrat].  Arithmetic and [float(...)] accept a number and
    raise [TypeError] on a tuple or a [DPState]; [int(...)] likewise. *)
Definition py_num (v : PyVal) : Res Q :=
  match v with
  | PInt z => Ok (inject_Z z)
  | PNum q => Ok q
  | PState _ | PTuple _ => Raise TypeError
  end.

Definition py_int_val (v : PyVal) : Res Z :=
  match v with
  | PInt z => Ok z
  | PNum q => Ok (py_int q)
  | PState _ | PTuple _ => Raise TypeError
  end.

Record OutputRow := {
  row0 : SolveResult;
  row1 : DPState;
  row2 : Q;
  row3 : Q;
  row4 : Q;
  row5 : DPState * Q;
  row6 : Q
}.

Record CsvRow := {
  Period : Z;
  OptimalHealth : Z;
  OptimalCashOnHand : Z;
  RemainingMax : Z;
  OptimalEarningsThisPeriod : PyVal;
  RealizedHealth : Z;
  RealizedCashOnHand : Z;
  CurrentLE : Q;
  EarnedThisPeriod : Q;
  RemainingAvailable : Z;
  Loss : Q;
  AccumulatedLoss : Q
}.

(** [for i in strategy[:-1]: alternate.append(self.Solve(i[0]))] *)
Fixpoint solve_all (self : t) (l : list (DPState * Q)) (σ : Caches SolveResult)
  : option (list SolveResult * Caches SolveResult) :=
  match l with
  | [] => Some ([], σ)
  | i :: l' =>
      match Solve self i.1 σ with
      | None => None
      | Some (res, σ1) =>
          match solve_all self l' σ1 with
          | None => None
          | Some (rs, σ2) => Some (res :: rs, σ2)
          end
      end
  end.

(** [alternate[i+1][1] + (strategy[i+1][1] - strategy[i+2][1])]: here
    [alternate[i+1][1]] is the second component of [Solve]'s result,
    the winner of the hit state or the 0 of a finished game. *)
Definition remaining_after (alternate : list SolveResult)
  (strategy : list (DPState * Q)) (i : nat) : Res Q :=
  res_bind (py_nth alternate (i + 1)) (fun a1 =>
  res_bind (py_item (result_val a1) 1) (fun v1 =>
  res_bind (py_nth strategy (i + 1)) (fun s1 =>
  res_bind (py_nth strategy (i + 2)) (fun s2 =>
  res_bind (py_num v1) (fun x => Ok (x + (s1.2 - s2.2))%Q))))).

Definition loss_at (alternate : list SolveResult)
  (strategy : list (DPState * Q)) (i : nat) : Res Q :=
  res_bind (remaining_after alternate strategy i) (fun rem =>
  res_bind (py_nth alternate i) (fun a =>
  res_bind (py_item (result_val a) 1) (fun v =>
  res_bind (py_num v) (fun x =>
  res_bind (py_nth alternate 0) (fun a0 =>
  res_bind (py_item (result_val a0) 1) (fun v0 =>
  res_bind (py_num v0) (fun f =>
  if Qeq_bool f 0 then Raise ZeroDivisionError
  else Ok ((rem - x) / f)%Q))))))).

Definition output_at (alternate : list SolveResult)
  (strategy : list (DPState * Q)) (losses : list Q) (i : nat) : Res OutputRow :=
  res_bind (py_nth alternate i) (fun a =>
  res_bind (py_nth strategy (i + 1)) (fun s1 =>
  res_bind (remaining_after alternate strategy i) (fun rem =>
  res_bind (py_nth losses i) (fun l =>
  res_bind (Healthcare_DP.HealthCareDP.cumsum_at losses i) (fun cl =>
  res_bind (py_nth strategy i) (fun s0 =>
  Ok {| row0 := a; row1 := s1.1; row2 := rem; row3 := l; row4 := cl;
        row5 := s0; row6 := (s0.2 - s1.2)%Q |})))))).

(** The dictionary written for a row: [row[0][0][0].period], ...,
    [int(row[0][1])], [row[0][2]], ... in the order of the keys. *)
Definition csv_row (row : OutputRow) : Res CsvRow :=
  let r0 := result_val (row0 row) in
  res_bind (py_item r0 0) (fun r00 =>
  res_bind (py_item r00 0) (fun r000 =>
  res_bind (py_state r000) (fun optimal =>
  res_bind (py_item r0 1) (fun r01 =>
  res_bind (py_int_val r01) (fun remainingMax =>
  res_bind (py_item r0 2) (fun r02 =>
  Ok {| Period := period optimal;
        OptimalHealth := health optimal;
        OptimalCashOnHand := cash optimal;
        RemainingMax := remainingMax;
        OptimalEarningsThisPeriod := r02;
        RealizedHealth := health (row5 row).1;
        RealizedCashOnHand := cash (row5 row).1;
        CurrentLE := (row5 row).2;
        EarnedThisPeriod := row6 row;
        RemainingAvailable := py_int (row2 row);
        Loss := row3 row;
        AccumulatedLoss := row4 row |})))))).

Definition analysis (alternate : list SolveResult)
  (strategy : list (DPState * Q)) : Res (list CsvRow) :=
  res_bind (Healthcare_DP.HealthCareDP.for_range
              (fun i _ => loss_at alternate strategy i)
              (seq 0 (length (py_drop_last 2 strategy))) []) (fun losses =>
  res_bind (Healthcare_DP.HealthCareDP.for_range
              (fun i _ => output_at alternate strategy losses i)
              (seq 0 (length alternate - 1)) []) (fun output =>
  Healthcare_DP.HealthCareDP.for_range
    (fun i _ => res_bind (py_nth output i) csv_row)
    (seq 0 (length output)) [])).

(** The rows [AnalyzeStrat] appends to the output file, or the exception
    it stops with. *)
Definition AnalyzeStrat (self : t) (strategy : list (DPState * Q))
  (σ : Caches SolveResult) : option (Res (list CsvRow) * Caches SolveResult) :=
  match solve_all self (py_drop_last 1 strategy) σ with
  | None => None
  | Some (alternate, σ') => Some (analysis alternate strategy, σ')
  end.

End HealthCareDP.
End Stoch.

(** * Properties *)

(** ** Numbers and ranges *)

Lemma Qltb_lt (x y : Q) : Qltb x y = true <-> (x < y)%Q.
Proof.
  unfold Qltb. rewrite negb_true_iff. split.
  - intros H. apply Qnot_le_lt. intros Hle.
    apply Qle_bool_iff in Hle. congruence.
  - intros H. destruct (Qle_bool y x) eqn:E; [|reflexivity].
    apply Qle_bool_iff in E. exfalso. apply (Qlt_not_le _ _ H E).
Qed.

Lemma Qltb_ge (x y : Q) : Qltb x y = false <-> (y <= x)%Q.
Proof.
  unfold Qltb. rewrite negb_false_iff. apply Qle_bool_iff.
Qed.

Lemma elem_of_py_range (a b z : Z) : z ∈ py_range a b <-> a <= z < b.
Proof.
  unfold py_range. rewrite list_elem_of_fmap. split.
  - intros (i & -> & Hi). apply elem_of_seq in Hi. lia.
  - intros H. exists (Z.to_nat (z - a)). split; [lia|].
    apply elem_of_seq. lia.
Qed.

Lemma elem_of_py_range_step (a b k z : Z) :
  0 < k ->
  z ∈ py_range_step a b k <-> exists i, 0 <= i /\ z = a + k * i /\ z < b.
Proof.
  intros Hk. unfold py_range_step. rewrite list_elem_of_fmap. split.
  - intros (i & -> & Hi). apply elem_of_seq in Hi.
    exists (Z.of_nat i). split; [lia|]. split; [reflexivity|].
    destruct Hi as [_ Hi]. simpl in Hi.
    assert (Hq : Z.of_nat i < (b - a + k - 1) / k) by lia.
    assert (Hm := Z.mul_div_le (b - a + k - 1) k Hk). nia.
  - intros (i & Hi & -> & Hlt). exists (Z.to_nat i). split; [lia|].
    apply elem_of_seq. split; [lia|]. simpl.
    assert (Hq : i + 1 <= (b - a + k - 1) / k).
    { apply Z.div_le_lower_bound; lia. }
    lia.
Qed.

(** ** The candidate loop *)

(** The loop without the state: [fut] is what the recursive call gives
    for a candidate's state. *)
Section Pick.
Context {B : Type}.
Variable fut : DPState -> Q.
Variable total : B -> Q.
Variable mk : DPState -> Q -> Q -> B.

(** [totalValue = enjoyment + future] *)
Definition total_of (c : DPState * Q) : Q := (c.2 + fut c.1)%Q.

Fixpoint pick (l : list (DPState * Q)) (best : B) : B :=
  match l with
  | [] => best
  | c :: l' => pick l' (better total mk best c.1 c.2 (fut c.1))
  end.

Hypothesis total_mk : forall state totalValue immediate,
  total (mk state totalValue immediate) = totalValue.

(** Either nothing beat the initial value, or the winner is the first
    candidate of greatest total. *)
Lemma pick_spec (l : list (DPState * Q)) (best : B) :
  (pick l best = best /\ Forall (fun c => total_of c <= total best)%Q l) \/
  (exists l1 c l2, l = l1 ++ c :: l2 /\
     pick l best = mk c.1 (total_of c) (py_round1 c.2) /\
     (total best < total_of c)%Q /\
     Forall (fun c' => total_of c' < total_of c)%Q l1 /\
     Forall (fun c' => total_of c' <= total_of c)%Q l2).
Proof using total_mk.
  revert best. induction l as [|c0 l IH]; intros best; simpl.
  - left. split; [reflexivity | constructor].
  - unfold better. fold (total_of c0).
    destruct (Qltb (total best) (total_of c0)) eqn:E.
    + apply Qltb_lt in E.
      destruct (IH (mk c0.1 (total_of c0) (py_round1 c0.2)))
        as [[Hp Hall] | (l1 & c & l2 & -> & Hp & Hlt & H1 & H2)].
      * right. exists [], c0, l. rewrite total_mk in Hall.
        repeat split; [exact Hp | exact E | constructor | exact Hall].
      * right. exists (c0 :: l1), c, l2. rewrite total_mk in Hlt.
        repeat split; [exact Hp | | | exact H2].
        -- eapply Qlt_trans; eassumption.
        -- constructor; assumption.
    + apply Qltb_ge in E.
      destruct (IH best) as [[Hp Hall] | (l1 & c & l2 & -> & Hp & Hlt & H1 & H2)].
      * left. split; [exact Hp | constructor; assumption].
      * right. exists (c0 :: l1), c, l2.
        repeat split; [exact Hp | exact Hlt | | exact H2].
        constructor; [|exact H1]. eapply Qle_lt_trans; eassumption.
Qed.

(** The winner's total bounds the initial total and every candidate's. *)
Lemma pick_total_init (l : list (DPState * Q)) (best : B) :
  (total best <= total (pick l best))%Q.
Proof using total_mk.
  destruct (pick_spec l best) as [[-> _] | (l1 & c & l2 & _ & -> & Hlt & _)].
  - apply Qle_refl.
  - rewrite total_mk. apply Qlt_le_weak, Hlt.
Qed.

Lemma pick_total_ge (l : list (DPState * Q)) (best : B) (c : DPState * Q) :
  c ∈ l -> (total_of c <= total (pick l best))%Q.
Proof using total_mk.
  intros Hc.
  destruct (pick_spec l best) as [[-> Hall] | (l1 & c1 & l2 & -> & -> & Hlt & H1 & H2)].
  - rewrite Forall_forall in Hall. apply Hall, Hc.
  - rewrite total_mk. rewrite Forall_forall in H1, H2.
    apply elem_of_app in Hc as [Hc | Hc].
    + apply Qlt_le_weak, H1, Hc.
    + apply elem_of_cons in Hc as [-> | Hc]; [apply Qle_refl | apply H2, Hc].
Qed.

(** The winner's total is the initial one or a candidate's. *)
Lemma pick_total_cases (l : list (DPState * Q)) (best : B) :
  total (pick l best) = total best \/
  exists c, c ∈ l /\ total (pick l best) = total_of c.
Proof using total_mk.
  destruct (pick_spec l best) as [[-> _] | (l1 & c & l2 & -> & -> & _)].
  - left. reflexivity.
  - right. exists c. split; [|apply total_mk].
    apply elem_of_app. right. apply elem_of_cons. left. reflexivity.
Qed.

End Pick.

(** The loop depends on the future values of its candidates only. *)
Lemma pick_ext {B} (f g : DPState -> Q) (total : B -> Q) mk
  (l : list (DPState * Q)) (best : B) :
  (forall c, c ∈ l -> f c.1 = g c.1) ->
  pick f total mk l best = pick g total mk l best.
Proof.
  revert best. induction l as [|c l IH]; intros best H; simpl; [reflexivity|].
  rewrite (H c) by (apply elem_of_cons; left; reflexivity).
  apply IH. intros c' Hc'. apply H. apply elem_of_cons. right. exact Hc'.
Qed.

(** The stateful loop computes [pick] when every recursive call
    returns its pure value and keeps the invariant [ok] of the state. *)
Lemma candidate_loop_pick {St B} (ok : St -> Prop)
  (future : DPState -> St -> option (Q * St)) (fut : DPState -> Q)
  (total : B -> Q) mk (l : list (DPState * Q)) :
  (forall c σ, c ∈ l -> ok σ ->
     exists σ', future c.1 σ = Some (fut c.1, σ') /\ ok σ') ->
  forall best σ, ok σ ->
    exists σ', candidate_loop future total mk l best σ
               = Some (pick fut total mk l best, σ') /\ ok σ'.
Proof.
  induction l as [|[state enjoyment] l IH]; intros Hcall best σ Hok; simpl.
  - exists σ. split; [reflexivity | exact Hok].
  - destruct (Hcall (state, enjoyment) σ) as (σ1 & Hfut & Hok1);
      [apply elem_of_cons; left; reflexivity | exact Hok |].
    simpl in Hfut. rewrite Hfut. apply IH; [|exact Hok1].
    intros c σ0 Hc. apply Hcall. apply elem_of_cons. right. exact Hc.
Qed.

(** ** The investment enumerators *)

(** The cached enumerations are the enumerator's own lists. *)
Definition enum_ok {R} (self : Strategies) (σ : Caches R) : Prop :=
  forall c l, EnumCache σ !! c = Some l -> l = potentialStates self c.

Definition enum_ok_banked {R} (σ : Caches R) : Prop :=
  forall c l, EnumCache σ !! c = Some l -> l = NewDegen.HealthCareDP.potentialStates c.

(** The plateau-pruned policy in the specification's words: the gain
    of the last expenditure retained below [n] ([-1] when there is
    none), an expenditure being retained when its gain differs from it. *)
Fixpoint retained_gain (self : Strategies) (n : nat) : Z :=
  match n with
  | O => -1
  | Datatypes.S n' =>
      let hr := regenStrat self (Z.of_nat n') in
      if hr =? retained_gain self n' then retained_gain self n' else hr
  end.

Definition retained (self : Strategies) (n : nat) : bool :=
  negb (regenStrat self (Z.of_nat n) =? retained_gain self n).

(** The consumption window of a retained expenditure, the remainder
    being banked. *)
Definition window (cash healthExpenditure : Z) : list Investment :=
  map (fun lifeExpenditure =>
         mkInvestment healthExpenditure lifeExpenditure
           (cash - healthExpenditure - lifeExpenditure))
      (py_range (Z.max (cash - healthExpenditure - 20) 0)
                (cash + 1 - healthExpenditure)).

Definition plateau_pruned (self : Strategies) (cash : Z) : list Investment :=
  flat_map (fun n => if retained self n then window cash (Z.of_nat n) else [])
    (seq 0 (Z.to_nat (cash + 1))).

Lemma enum_scan_seq (self : Strategies) (cash : Z) (n start : nat) :
  enum_scan self cash (map (fun i => 0 + Z.of_nat i) (seq start n))
    (retained_gain self start)
  = flat_map (fun n => if retained self n then window cash (Z.of_nat n) else [])
      (seq start n).
Proof.
  revert start. induction n as [|n IH]; intros start; simpl; [reflexivity|].
  change (0 + Z.of_nat start) with (Z.of_nat start).
  pose proof (IH (Datatypes.S start)) as IH'. simpl retained_gain in IH'.
  unfold retained at 1.
  destruct (regenStrat self (Z.of_nat start) =? retained_gain self start) eqn:E;
    simpl; rewrite IH'; reflexivity.
Qed.

Lemma potentialStates_plateau (self : Strategies) (cash : Z) :
  potentialStates self cash = plateau_pruned self cash.
Proof.
  unfold potentialStates, plateau_pruned, py_range.
  replace (cash + 1 - 0) with (cash + 1) by lia.
  apply (enum_scan_seq self cash _ 0%nat).
Qed.

(** The comparison is in effect with the gain of the expenditure just
    before: after it is examined, that gain is the last retained one. *)
Lemma retained_gain_succ (self : Strategies) (n : nat) :
  retained_gain self (Datatypes.S n) = regenStrat self (Z.of_nat n).
Proof.
  simpl. destruct (regenStrat self (Z.of_nat n) =? retained_gain self n) eqn:E.
  - apply Z.eqb_eq in E. symmetry. exact E.
  - reflexivity.
Qed.

Lemma elem_of_window (cash he : Z) (i : Investment) :
  i ∈ window cash he <->
  healthExpenditure i = he /\
  cash - he - 20 <= lifeExpenditure i <= cash - he /\ 0 <= lifeExpenditure i /\
  cashRemaining i = cash - he - lifeExpenditure i.
Proof.
  unfold window. rewrite list_elem_of_fmap. split.
  - intros (le & -> & Hle). apply elem_of_py_range in Hle. simpl. lia.
  - intros (H1 & H2 & H3 & H4). exists (lifeExpenditure i). split.
    + destruct i; simpl in *. subst. reflexivity.
    + apply elem_of_py_range. lia.
Qed.

Lemma elem_of_plateau_pruned (self : Strategies) (cash : Z) (i : Investment) :
  i ∈ plateau_pruned self cash <->
  0 <= healthExpenditure i <= cash /\
  retained self (Z.to_nat (healthExpenditure i)) = true /\
  cash - healthExpenditure i - 20 <= lifeExpenditure i <= cash - healthExpenditure i /\
  0 <= lifeExpenditure i /\
  cashRemaining i = cash - healthExpenditure i - lifeExpenditure i.
Proof.
  unfold plateau_pruned. rewrite list_elem_of_In, in_flat_map. split.
  - intros (n & Hn & Hi). apply in_seq in Hn.
    destruct (retained self n) eqn:E; [|destruct Hi].
    apply list_elem_of_In, elem_of_window in Hi as (H1 & H2 & H3 & H4).
    rewrite H1, Nat2Z.id. repeat split; try assumption; lia.
  - intros (H1 & H2 & H3 & H4 & H5). exists (Z.to_nat (healthExpenditure i)). split.
    + apply in_seq. lia.
    + rewrite H2. apply list_elem_of_In, elem_of_window.
      rewrite Z2Nat.id by lia. repeat split; try assumption; lia.
Qed.

Lemma InvestmentEnum_fst {R} (self : Strategies) (cash : Z) (σ : Caches R) :
  enum_ok self σ -> (InvestmentEnum self cash σ).1 = potentialStates self cash.
Proof.
  intros Hok. unfold InvestmentEnum.
  destruct (EnumCache σ !! cash) as [l|] eqn:E; simpl; [|reflexivity].
  apply Hok in E. exact E.
Qed.

Lemma InvestmentEnum_ok {R} (self : Strategies) (cash : Z) (σ : Caches R) :
  enum_ok self σ -> enum_ok self (InvestmentEnum self cash σ).2.
Proof.
  intros Hok. unfold InvestmentEnum.
  destruct (EnumCache σ !! cash) as [l|] eqn:E; simpl; [exact Hok|].
  intros c l. simpl. rewrite lookup_insert. case_decide as Hc.
  - intros [= <-]. subst. reflexivity.
  - apply Hok.
Qed.

Lemma InvestmentEnum_cache {R} (self : Strategies) (cash : Z) (σ : Caches R) :
  cache (InvestmentEnum self cash σ).2 = cache σ.
Proof.
  unfold InvestmentEnum. destruct (EnumCache σ !! cash); reflexivity.
Qed.

Lemma enum_ok_no_caches {R} (self : Strategies) : enum_ok self (@no_caches R).
Proof. intros c l H. simpl in H. rewrite lookup_empty in H. discriminate. Qed.

(** The exhaustive-banked policy of HealthcareDP_NewDegen.py. *)
Lemma elem_of_banked (cash : Z) (i : Investment) :
  i ∈ NewDegen.HealthCareDP.potentialStates cash <->
  0 <= healthExpenditure i <= cash /\
  (exists n, 0 <= n /\ cashRemaining i = 10 * n) /\
  cashRemaining i <= Z.min 110 (cash - healthExpenditure i) /\
  lifeExpenditure i = cash - healthExpenditure i - cashRemaining i.
Proof.
  unfold NewDegen.HealthCareDP.potentialStates.
  rewrite list_elem_of_In, in_flat_map. split.
  - intros (he & Hhe & Hi). apply list_elem_of_In, elem_of_py_range in Hhe.
    apply list_elem_of_In, list_elem_of_fmap in Hi as (b & -> & Hb).
    apply elem_of_py_range_step in Hb as (n & Hn & -> & Hlt); [|lia]. simpl.
    split; [lia|]. split; [exists n; lia|]. split; lia.
  - intros (H1 & (n & Hn & H2) & H3 & H4). exists (healthExpenditure i). split.
    + apply list_elem_of_In, elem_of_py_range. lia.
    + apply list_elem_of_In, list_elem_of_fmap. exists (cashRemaining i). split.
      * destruct i; simpl in *. subst. reflexivity.
      * apply elem_of_py_range_step; [lia|]. exists n. lia.
Qed.

Lemma banked_InvestmentEnum_fst {R} (cash health : Z) (σ : Caches R) :
  enum_ok_banked σ ->
  (NewDegen.HealthCareDP.InvestmentEnum cash health σ).1
  = NewDegen.HealthCareDP.potentialStates cash.
Proof.
  intros Hok. unfold NewDegen.HealthCareDP.InvestmentEnum.
  destruct (EnumCache σ !! cash) as [l|] eqn:E; simpl; [|reflexivity].
  apply Hok in E. exact E.
Qed.

Lemma banked_InvestmentEnum_ok {R} (cash health : Z) (σ : Caches R) :
  enum_ok_banked σ ->
  enum_ok_banked (NewDegen.HealthCareDP.InvestmentEnum cash health σ).2.
Proof.
  intros Hok. unfold NewDegen.HealthCareDP.InvestmentEnum.
  destruct (EnumCache σ !! cash) as [l|] eqn:E; simpl; [exact Hok|].
  intros c l. simpl. rewrite lookup_insert. case_decide as Hc.
  - intros [= <-]. subst. reflexivity.
  - apply Hok.
Qed.

Lemma banked_InvestmentEnum_cache {R} (cash health : Z) (σ : Caches R) :
  cache (NewDegen.HealthCareDP.InvestmentEnum cash health σ).2 = cache σ.
Proof.
  unfold NewDegen.HealthCareDP.InvestmentEnum.
  destruct (EnumCache σ !! cash); reflexivity.
Qed.

Lemma enum_ok_banked_no_caches {R} : enum_ok_banked (@no_caches R).
Proof. intros c l H. simpl in H. rewrite lookup_empty in H. discriminate. Qed.

(** ** Candidates *)

Lemma terminal_false (numRounds : Z) (s : DPState) :
  terminal numRounds s = false <-> period s <= numRounds /\ 0 < health s.
Proof.
  unfold terminal. rewrite orb_false_iff, Z.ltb_ge, Z.leb_gt. reflexivity.
Qed.

Lemma pair_eqb_refl (x : DPState * Q) : pair_eqb x x = true.
Proof.
  unfold pair_eqb. rewrite bool_decide_eq_true_2 by reflexivity.
  apply Qeq_bool_refl.
Qed.

Lemma pair_eqb_spec (x y : DPState * Q) :
  pair_eqb x y = true <-> x.1 = y.1 /\ (x.2 == y.2)%Q.
Proof.
  unfold pair_eqb. rewrite andb_true_iff, bool_decide_eq_true, Qeq_bool_iff.
  reflexivity.
Qed.

(** [allStateEnjoyments] holds outcomes of the investments only, and an
    equal of every outcome. *)
Section Dedup.
Context {A : Type}.
Variable f : A -> DPState * Q.

Lemma dedup_fold_sound (l : list A) (acc : list (DPState * Q)) (c : DPState * Q) :
  c ∈ fold_left (fun acc a => dedup_append acc (f a)) l acc ->
  c ∈ acc \/ exists a, a ∈ l /\ c = f a.
Proof.
  revert acc. induction l as [|a l IH]; intros acc; simpl.
  - intros H. left. exact H.
  - intros H. apply IH in H as [H | (a' & Ha' & ->)].
    + unfold dedup_append in H. destruct (existsb _ acc); [left; exact H|].
      apply elem_of_app in H as [H | H]; [left; exact H|].
      apply list_elem_of_singleton in H. right. exists a. split; [left | exact H].
    + right. exists a'. split; [right; exact Ha' | reflexivity].
Qed.

Lemma dedup_fold_keeps (l : list A) (acc : list (DPState * Q)) (c : DPState * Q) :
  c ∈ acc -> c ∈ fold_left (fun acc a => dedup_append acc (f a)) l acc.
Proof.
  revert acc. induction l as [|a l IH]; intros acc H; simpl; [exact H|].
  apply IH. unfold dedup_append. destruct (existsb _ acc); [exact H|].
  apply elem_of_app. left. exact H.
Qed.

Lemma dedup_fold_complete (l : list A) (acc : list (DPState * Q)) (a : A) :
  a ∈ l ->
  exists c, c ∈ fold_left (fun acc a => dedup_append acc (f a)) l acc /\
            pair_eqb (f a) c = true.
Proof.
  revert acc. induction l as [|a0 l IH]; intros acc Ha; [inversion Ha|].
  apply elem_of_cons in Ha as [-> | Ha]; simpl; [|apply IH, Ha].
  unfold dedup_append. destruct (existsb (pair_eqb (f a0)) acc) eqn:E.
  - apply existsb_exists in E as (c & Hc & Heq).
    exists c. split; [|exact Heq]. apply dedup_fold_keeps, list_elem_of_In, Hc.
  - exists (f a0). split; [|apply pair_eqb_refl].
    apply dedup_fold_keeps, elem_of_app. right. apply list_elem_of_singleton. reflexivity.
Qed.

End Dedup.

Lemma allStateEnjoyments_sound (self : Strategies) (state : DPState)
  (investments : list Investment) (c : DPState * Q) :
  c ∈ allStateEnjoyments self state investments ->
  exists i, i ∈ investments /\ c = Invest self state i.
Proof.
  intros H. apply dedup_fold_sound in H as [H | H]; [inversion H | exact H].
Qed.

Lemma allStateEnjoyments_complete (self : Strategies) (state : DPState)
  (investments : list Investment) (i : Investment) :
  i ∈ investments ->
  exists c, c ∈ allStateEnjoyments self state investments /\
            pair_eqb (Invest self state i) c = true.
Proof. apply (dedup_fold_complete (Invest self state)). Qed.

(** The candidates of a post-transition state, the caches left out. *)
Definition candidates (self : Strategies) (newState : DPState)
  : list (DPState * Q) :=
  allStateEnjoyments self newState (potentialStates self (cash newState)).

Lemma candidates_period (self : Strategies) (newState : DPState) (c : DPState * Q) :
  c ∈ candidates self newState -> period c.1 = period newState.
Proof.
  intros H. apply allStateEnjoyments_sound in H as (i & _ & ->). reflexivity.
Qed.

Lemma StateEnum_candidates {R} (self : Strategies) (state : DPState) (σ : Caches R) :
  enum_ok self σ ->
  exists σ', StateEnum self state σ = (candidates self state, σ') /\
             enum_ok self σ' /\ cache σ' = cache σ.
Proof.
  intros Hok. unfold StateEnum.
  pose proof (InvestmentEnum_fst self (cash state) σ Hok) as H1.
  pose proof (InvestmentEnum_ok self (cash state) σ Hok) as H2.
  pose proof (InvestmentEnum_cache self (cash state) σ) as H3.
  destruct (InvestmentEnum self (cash state) σ) as [l σ']. simpl in *. subst l.
  exists σ'. split; [reflexivity | split; assumption].
Qed.

Lemma rounds_left_candidate (numRounds : Z) (s c : DPState) :
  period c = period s + 1 -> period c <= numRounds ->
  Datatypes.S (rounds_left numRounds c) = rounds_left numRounds s.
Proof. unfold rounds_left. lia. Qed.

(** ** Healthcare_DP.py: [Solve] and its cache *)

Module Import HDP := Healthcare_DP.HealthCareDP.
Import Healthcare_DP.

(** The value function that [Solve] memoizes, with [n] rounds of
    recursion. *)
Fixpoint det_value (n : nat) (self : HDP.t) (s : DPState) : SolveResult :=
  let newState := Transition self s in
  if terminal (numRounds self) newState then Triple newState 0 0
  else
    match n with
    | O => Initial
    | Datatypes.S n' =>
        pick (fun state => item1 (det_value n' self state)) item1 Triple
          (candidates self newState) Initial
    end.

Definition det_optimum (self : HDP.t) (s : DPState) : SolveResult :=
  det_value (rounds_left (numRounds self) s) self s.

(** The future value of a candidate's state, and the winner among the
    candidates of a post-transition state. *)
Definition det_future (self : HDP.t) (state : DPState) : Q :=
  item1 (det_optimum self state).

Definition det_best (self : HDP.t) (newState : DPState) : SolveResult :=
  pick (det_future self) item1 Triple (candidates self newState) Initial.

Definition det_caches_ok (self : HDP.t) (σ : Caches SolveResult) : Prop :=
  enum_ok self σ /\
  forall newState res, cache σ !! newState = Some res -> res = det_best self newState.

Lemma det_caches_ok_empty (self : HDP.t) : det_caches_ok self no_caches.
Proof.
  split; [apply enum_ok_no_caches|].
  intros ns res H. simpl in H. rewrite lookup_empty in H. discriminate.
Qed.

Lemma det_value_fuel (self : HDP.t) (n m : nat) (s : DPState) :
  (rounds_left (numRounds self) s <= n)%nat ->
  (rounds_left (numRounds self) s <= m)%nat ->
  det_value n self s = det_value m self s.
Proof.
  revert m s. induction n as [|n IH]; intros m s Hn Hm.
  - destruct m as [|m]; [reflexivity|]. simpl.
    destruct (terminal _ _) eqn:E; [reflexivity|].
    apply terminal_false in E. simpl in E. unfold rounds_left in Hn. lia.
  - simpl. destruct (terminal _ _) eqn:E.
    + destruct m; simpl; rewrite E; reflexivity.
    + apply terminal_false in E. simpl in E.
      destruct m as [|m]; [unfold rounds_left in Hm; lia|].
      simpl. rewrite (proj2 (terminal_false _ _)) by (simpl; lia).
      apply pick_ext. intros c Hc. f_equal.
      apply candidates_period in Hc. simpl in Hc.
      apply IH; unfold rounds_left in *; lia.
Qed.

Lemma det_optimum_eq (self : HDP.t) (s : DPState) :
  det_optimum self s =
  if terminal (numRounds self) (Transition self s)
  then Triple (Transition self s) 0 0
  else det_best self (Transition self s).
Proof.
  unfold det_optimum.
  destruct (rounds_left (numRounds self) s) as [|n] eqn:En; simpl.
  - destruct (terminal _ _) eqn:E; [reflexivity|].
    apply terminal_false in E. simpl in E. unfold rounds_left in En. lia.
  - destruct (terminal _ _) eqn:E; [reflexivity|].
    apply terminal_false in E. simpl in E.
    apply pick_ext. intros c Hc. unfold det_future, det_optimum. f_equal.
    apply candidates_period in Hc. simpl in Hc.
    apply det_value_fuel; unfold rounds_left in *; lia.
Qed.

Lemma det_Solve_rec_S (self : HDP.t) (fuel : nat) (s : DPState)
  (σ : Caches SolveResult) :
  Solve_rec (Datatypes.S fuel) self s σ =
  let newState := Transition self s in
  if terminal (numRounds self) newState then Some (Triple newState 0 0, σ)
  else
    match cache σ !! newState with
    | Some res => Some (res, σ)
    | None =>
        let '(stateEnjoyments, σ1) := StateEnum self newState σ in
        match
          candidate_loop
            (fun state σ =>
               match Solve_rec fuel self state σ with
               | Some (res, σ') => Some (item1 res, σ')
               | None => None
               end)
            item1 Triple stateEnjoyments Initial σ1
        with
        | None => None
        | Some (highestReturn, σ2) =>
            Some (highestReturn,
                  mkCaches (<[newState := highestReturn]> (cache σ2))
                           (EnumCache σ2))
        end
    end.
Proof. reflexivity. Qed.

(** With enough fuel and caches that hold what [Solve] put there,
    [Solve_rec] returns the value function's result, keeps the caches
    in that state, and has the result cached unless the game is over. *)
Lemma det_Solve_rec_correct (self : HDP.t) (f : nat) :
  forall (s : DPState) (σ : Caches SolveResult),
    det_caches_ok self σ ->
    (rounds_left (numRounds self) s <= f)%nat ->
    exists σ', Solve_rec (Datatypes.S f) self s σ = Some (det_optimum self s, σ') /\
               det_caches_ok self σ' /\
               (terminal (numRounds self) (Transition self s) = false ->
                cache σ' !! Transition self s = Some (det_optimum self s)).
Proof.
  induction f as [|f IH]; intros s σ Hok Hf;
    pose proof (det_optimum_eq self s) as Hopt; rewrite det_Solve_rec_S; cbv zeta;
    destruct (terminal (numRounds self) (Transition self s)) eqn:E.
  1,3: exists σ; rewrite Hopt; split; [reflexivity | split; [exact Hok | discriminate]].
  - apply terminal_false in E. simpl in E. unfold rounds_left in Hf. lia.
  - rewrite Hopt. destruct (cache σ !! Transition self s) as [res|] eqn:Ec.
    + destruct Hok as [Hen Hca]. pose proof (Hca _ _ Ec) as ->.
      exists σ. split; [reflexivity|]. split; [split; assumption|]. intros _. exact Ec.
    + destruct Hok as [Hen Hca].
      destruct (StateEnum_candidates self (Transition self s) σ Hen)
        as (σ1 & -> & Hen1 & Hc1).
      assert (Hok1 : det_caches_ok self σ1).
      { split; [exact Hen1|]. rewrite Hc1. exact Hca. }
      destruct (candidate_loop_pick (det_caches_ok self)
                  (fun state σ =>
                     match Solve_rec (Datatypes.S f) self state σ with
                     | Some (res, σ') => Some (item1 res, σ')
                     | None => None
                     end)
                  (det_future self) item1 Triple
                  (candidates self (Transition self s))) with (best := Initial) (σ := σ1)
        as (σ2 & Hloop & [Hen2 Hca2]); [|exact Hok1|].
      { intros c σ0 Hc Hok0.
        destruct (IH c.1 σ0 Hok0) as (σ' & HS & Hok' & _).
        - apply candidates_period in Hc. apply terminal_false in E.
          simpl in *. unfold rounds_left in *. lia.
        - exists σ'. rewrite HS. split; [reflexivity | exact Hok']. }
      rewrite Hloop. fold (det_best self (Transition self s)).
      eexists. split; [reflexivity|]. split; [split|].
      * exact Hen2.
      * intros ns res. simpl. rewrite lookup_insert. case_decide as Hns.
        -- intros [= <-]. subst ns. reflexivity.
        -- apply Hca2.
      * intros _. simpl. apply lookup_insert_eq.
Qed.

Lemma det_Solve_correct (self : HDP.t) (s : DPState) (σ : Caches SolveResult) :
  det_caches_ok self σ ->
  exists σ', Solve self s σ = Some (det_optimum self s, σ') /\
             det_caches_ok self σ' /\
             (terminal (numRounds self) (Transition self s) = false ->
              cache σ' !! Transition self s = Some (det_optimum self s)).
Proof.
  intros Hok. unfold Solve, enough_fuel.
  apply det_Solve_rec_correct; [exact Hok | lia].
Qed.

(** ** HealthcareDP_NewDegen.py: [Solve] and its cache *)

Module NDP := NewDegen.HealthCareDP.

Definition nd_candidates (self : NDP.t) (newState : DPState)
  : list (DPState * Q) :=
  NDP.allStateEnjoyments self newState (NDP.potentialStates (cash newState)).

Lemma nd_candidates_sound (self : NDP.t) (newState : DPState) (c : DPState * Q) :
  c ∈ nd_candidates self newState ->
  exists i, i ∈ NDP.potentialStates (cash newState) /\ c = NDP.Invest self newState i.
Proof.
  intros H. apply dedup_fold_sound in H as [H | H]; [inversion H | exact H].
Qed.

Lemma nd_candidates_period (self : NDP.t) (newState : DPState) (c : DPState * Q) :
  c ∈ nd_candidates self newState -> period c.1 = period newState.
Proof.
  intros H. apply nd_candidates_sound in H as (i & _ & ->). reflexivity.
Qed.

Lemma nd_StateEnum_candidates {R} (self : NDP.t) (state : DPState) (σ : Caches R) :
  enum_ok_banked σ ->
  exists σ', NDP.StateEnum self state σ = (nd_candidates self state, σ') /\
             enum_ok_banked σ' /\ cache σ' = cache σ.
Proof.
  intros Hok. unfold NDP.StateEnum.
  pose proof (banked_InvestmentEnum_fst (cash state) (health state) σ Hok) as H1.
  pose proof (banked_InvestmentEnum_ok (cash state) (health state) σ Hok) as H2.
  pose proof (banked_InvestmentEnum_cache (cash state) (health state) σ) as H3.
  destruct (NDP.InvestmentEnum (cash state) (health state) σ) as [l σ'].
  simpl in *. subst l.
  exists σ'. split; [reflexivity | split; assumption].
Qed.

(** The loop's initial value, [(DPState(0, 0, 0), 0, 0)]. *)
Definition nd_initial : NewDegen.SolveResult :=
  NewDegen.Triple (mkDPState 0 0 0) 0 0.

Fixpoint nd_value (n : nat) (self : NDP.t) (s : DPState) : NewDegen.SolveResult :=
  let newState := NDP.Transition self s in
  if terminal (NDP.numRounds self) newState then NewDegen.Triple newState 0 0
  else
    match n with
    | O => nd_initial
    | Datatypes.S n' =>
        pick (fun state => NewDegen.item1 (nd_value n' self state))
          NewDegen.item1 NewDegen.Triple (nd_candidates self newState) nd_initial
    end.

Definition nd_optimum (self : NDP.t) (s : DPState) : NewDegen.SolveResult :=
  nd_value (rounds_left (NDP.numRounds self) s) self s.

Definition nd_future (self : NDP.t) (state : DPState) : Q :=
  NewDegen.item1 (nd_optimum self state).

Definition nd_best (self : NDP.t) (newState : DPState) : NewDegen.SolveResult :=
  pick (nd_future self) NewDegen.item1 NewDegen.Triple
    (nd_candidates self newState) nd_initial.

Definition nd_caches_ok (self : NDP.t) (σ : Caches NewDegen.SolveResult) : Prop :=
  enum_ok_banked σ /\
  forall newState res, cache σ !! newState = Some res -> res = nd_best self newState.

Lemma nd_caches_ok_empty (self : NDP.t) : nd_caches_ok self no_caches.
Proof.
  split; [apply enum_ok_banked_no_caches|].
  intros ns res H. simpl in H. rewrite lookup_empty in H. discriminate.
Qed.

Lemma nd_value_fuel (self : NDP.t) (n m : nat) (s : DPState) :
  (rounds_left (NDP.numRounds self) s <= n)%nat ->
  (rounds_left (NDP.numRounds self) s <= m)%nat ->
  nd_value n self s = nd_value m self s.
Proof.
  revert m s. induction n as [|n IH]; intros m s Hn Hm.
  - destruct m as [|m]; [reflexivity|]. simpl.
    destruct (terminal _ _) eqn:E; [reflexivity|].
    apply terminal_false in E. simpl in E. unfold rounds_left in Hn. lia.
  - simpl. destruct (terminal _ _) eqn:E.
    + destruct m; simpl; rewrite E; reflexivity.
    + apply terminal_false in E. simpl in E.
      destruct m as [|m]; [unfold rounds_left in Hm; lia|].
      simpl. rewrite (proj2 (terminal_false _ _)) by (simpl; lia).
      apply pick_ext. intros c Hc. f_equal.
      apply nd_candidates_period in Hc. simpl in Hc.
      apply IH; unfold rounds_left in *; lia.
Qed.

Lemma nd_optimum_eq (self : NDP.t) (s : DPState) :
  nd_optimum self s =
  if terminal (NDP.numRounds self) (NDP.Transition self s)
  then NewDegen.Triple (NDP.Transition self s) 0 0
  else nd_best self (NDP.Transition self s).
Proof.
  unfold nd_optimum.
  destruct (rounds_left (NDP.numRounds self) s) as [|n] eqn:En; simpl.
  - destruct (terminal _ _) eqn:E; [reflexivity|].
    apply terminal_false in E. simpl in E. unfold rounds_left in En. lia.
  - destruct (terminal _ _) eqn:E; [reflexivity|].
    apply terminal_false in E. simpl in E.
    apply pick_ext. intros c Hc. unfold nd_future, nd_optimum. f_equal.
    apply nd_candidates_period in Hc. simpl in Hc.
    apply nd_value_fuel; unfold rounds_left in *; lia.
Qed.

Lemma nd_Solve_rec_S (self : NDP.t) (fuel : nat) (s : DPState)
  (σ : Caches NewDegen.SolveResult) :
  NDP.Solve_rec (Datatypes.S fuel) self s σ =
  let newState := NDP.Transition self s in
  if terminal (NDP.numRounds self) newState
  then Some (NewDegen.Triple newState 0 0, σ)
  else
    match cache σ !! newState with
    | Some res => Some (res, σ)
    | None =>
        let '(stateEnjoyments, σ1) := NDP.StateEnum self newState σ in
        match
          candidate_loop
            (fun state σ =>
               match NDP.Solve_rec fuel self state σ with
               | Some (res, σ') => Some (NewDegen.item1 res, σ')
               | None => None
               end)
            NewDegen.item1 NewDegen.Triple stateEnjoyments nd_initial σ1
        with
        | None => None
        | Some (highestReturn, σ2) =>
            Some (highestReturn,
                  mkCaches (<[newState := highestReturn]> (cache σ2))
                           (EnumCache σ2))
        end
    end.
Proof. reflexivity. Qed.

Lemma nd_Solve_rec_correct (self : NDP.t) (f : nat) :
  forall (s : DPState) (σ : Caches NewDegen.SolveResult),
    nd_caches_ok self σ ->
    (rounds_left (NDP.numRounds self) s <= f)%nat ->
    exists σ', NDP.Solve_rec (Datatypes.S f) self s σ = Some (nd_optimum self s, σ') /\
               nd_caches_ok self σ' /\
               (terminal (NDP.numRounds self) (NDP.Transition self s) = false ->
                cache σ' !! NDP.Transition self s = Some (nd_optimum self s)).
Proof.
  induction f as [|f IH]; intros s σ Hok Hf;
    pose proof (nd_optimum_eq self s) as Hopt; rewrite nd_Solve_rec_S; cbv zeta;
    destruct (terminal (NDP.numRounds self) (NDP.Transition self s)) eqn:E.
  1,3: exists σ; rewrite Hopt; split; [reflexivity | split; [exact Hok | discriminate]].
  - apply terminal_false in E. simpl in E. unfold rounds_left in Hf. lia.
  - rewrite Hopt. destruct (cache σ !! NDP.Transition self s) as [res|] eqn:Ec.
    + destruct Hok as [Hen Hca]. pose proof (Hca _ _ Ec) as ->.
      exists σ. split; [reflexivity|]. split; [split; assumption|]. intros _. exact Ec.
    + destruct Hok as [Hen Hca].
      destruct (nd_StateEnum_candidates self (NDP.Transition self s) σ Hen)
        as (σ1 & -> & Hen1 & Hc1).
      assert (Hok1 : nd_caches_ok self σ1).
      { split; [exact Hen1|]. rewrite Hc1. exact Hca. }
      destruct (candidate_loop_pick (nd_caches_ok self)
                  (fun state σ =>
                     match NDP.Solve_rec (Datatypes.S f) self state σ with
                     | Some (res, σ') => Some (NewDegen.item1 res, σ')
                     | None => None
                     end)
                  (nd_future self) NewDegen.item1 NewDegen.Triple
                  (nd_candidates self (NDP.Transition self s)))
        with (best := nd_initial) (σ := σ1)
        as (σ2 & Hloop & [Hen2 Hca2]); [|exact Hok1|].
      { intros c σ0 Hc Hok0.
        destruct (IH c.1 σ0 Hok0) as (σ' & HS & Hok' & _).
        - apply nd_candidates_period in Hc. apply terminal_false in E.
          simpl in *. unfold rounds_left in *. lia.
        - exists σ'. rewrite HS. split; [reflexivity | exact Hok']. }
      rewrite Hloop. fold (nd_best self (NDP.Transition self s)).
      eexists. split; [reflexivity|]. split; [split|].
      * exact Hen2.
      * intros ns res. simpl. rewrite lookup_insert. case_decide as Hns.
        -- intros [= <-]. subst ns. reflexivity.
        -- apply Hca2.
      * intros _. simpl. apply lookup_insert_eq.
Qed.

Lemma nd_Solve_correct (self : NDP.t) (s : DPState) (σ : Caches NewDegen.SolveResult) :
  nd_caches_ok self σ ->
  exists σ', NDP.Solve self s σ = Some (nd_optimum self s, σ') /\
             nd_caches_ok self σ' /\
             (terminal (NDP.numRounds self) (NDP.Transition self s) = false ->
              cache σ' !! NDP.Transition self s = Some (nd_optimum self s)).
Proof.
  intros Hok. unfold NDP.Solve, enough_fuel.
  apply nd_Solve_rec_correct; [exact Hok | lia].
Qed.

(** ** HealthcareDP_Stoch.py: [Solve] and its cache *)

Module SDP := Stoch.HealthCareDP.
Import (coercions) Stoch.HealthCareDP.

(** The loops' initial value, [DPState(0, 0, -1)]. *)
Definition st_initial : Stoch.Branch := Stoch.Unset (mkDPState 0 0 (-1)).

Fixpoint st_value (n : nat) (self : SDP.t) (s : DPState) : Stoch.SolveResult :=
  let newState := Transition self s in
  if terminal (SDP.numRounds self) newState then Stoch.Over newState
  else
    match n with
    | O => Stoch.Over newState
    | Datatypes.S n' =>
        let fut := fun state => Stoch.item2 (st_value n' self state) in
        let highestReturn :=
          pick fut Stoch.branch1 Stoch.Best (candidates self newState) st_initial in
        let hitStateHighestReturn :=
          pick fut Stoch.branch1 Stoch.Best
            (candidates self (SDP.hitState self newState)) st_initial in
        Stoch.Both highestReturn hitStateHighestReturn
          (SDP.expected self highestReturn hitStateHighestReturn)
    end.

Definition st_optimum (self : SDP.t) (s : DPState) : Stoch.SolveResult :=
  st_value (rounds_left (SDP.numRounds self) s) self s.

(** The future value of a candidate's state: the third component of
    the recursive result, the blended expectation. *)
Definition st_future (self : SDP.t) (state : DPState) : Q :=
  Stoch.item2 (st_optimum self state).

(** The winner among the candidates of the post-transition state, or
    of its hit state. *)
Definition st_branch (self : SDP.t) (state : DPState) : Stoch.Branch :=
  pick (st_future self) Stoch.branch1 Stoch.Best (candidates self state) st_initial.

Definition st_best (self : SDP.t) (newState : DPState) : Stoch.SolveResult :=
  let highestReturn := st_branch self newState in
  let hitStateHighestReturn := st_branch self (SDP.hitState self newState) in
  Stoch.Both highestReturn hitStateHighestReturn
    (SDP.expected self highestReturn hitStateHighestReturn).

Definition st_caches_ok (self : SDP.t) (σ : Caches Stoch.SolveResult) : Prop :=
  enum_ok self σ /\
  forall newState res, cache σ !! newState = Some res -> res = st_best self newState.

Lemma st_caches_ok_empty (self : SDP.t) : st_caches_ok self no_caches.
Proof.
  split; [apply enum_ok_no_caches|].
  intros ns res H. simpl in H. rewrite lookup_empty in H. discriminate.
Qed.

Lemma st_value_fuel (self : SDP.t) (n m : nat) (s : DPState) :
  (rounds_left (SDP.numRounds self) s <= n)%nat ->
  (rounds_left (SDP.numRounds self) s <= m)%nat ->
  st_value n self s = st_value m self s.
Proof.
  revert m s. induction n as [|n IH]; intros m s Hn Hm.
  - destruct m as [|m]; [reflexivity|]. simpl.
    destruct (terminal _ _) eqn:E; [reflexivity|].
    apply terminal_false in E. simpl in E. unfold rounds_left in Hn. lia.
  - simpl. destruct (terminal _ _) eqn:E.
    + destruct m; simpl; rewrite E; reflexivity.
    + apply terminal_false in E. simpl in E.
      destruct m as [|m]; [unfold rounds_left in Hm; lia|].
      simpl. rewrite (proj2 (terminal_false _ _)) by (simpl; lia).
      assert (Hext : forall st c, period st = period s + 1 ->
                c ∈ candidates self st ->
                Stoch.item2 (st_value n self c.1) = Stoch.item2 (st_value m self c.1)).
      { intros st c Hst Hc. f_equal. apply candidates_period in Hc.
        apply IH; unfold rounds_left in *; lia. }
      rewrite (pick_ext _ (fun state => Stoch.item2 (st_value m self state)) _ _
                 (candidates self (Transition self s)))
        by (intros c Hc; apply (Hext (Transition self s)); [reflexivity | exact Hc]).
      rewrite (pick_ext _ (fun state => Stoch.item2 (st_value m self state)) _ _
                 (candidates self (SDP.hitState self (Transition self s))))
        by (intros c Hc; apply (Hext (SDP.hitState self (Transition self s)));
            [reflexivity | exact Hc]).
      reflexivity.
Qed.

Lemma st_optimum_eq (self : SDP.t) (s : DPState) :
  st_optimum self s =
  if terminal (SDP.numRounds self) (Transition self s)
  then Stoch.Over (Transition self s)
  else st_best self (Transition self s).
Proof.
  unfold st_optimum.
  destruct (rounds_left (SDP.numRounds self) s) as [|n] eqn:En; simpl.
  - destruct (terminal _ _) eqn:E; [reflexivity|].
    apply terminal_false in E. simpl in E. unfold rounds_left in En. lia.
  - destruct (terminal _ _) eqn:E; [reflexivity|].
    apply terminal_false in E. simpl in E.
    assert (Hext : forall st c, period st = period s + 1 ->
              c ∈ candidates self st ->
              Stoch.item2 (st_value n self c.1) = st_future self c.1).
    { intros st c Hst Hc. unfold st_future, st_optimum. f_equal.
      apply candidates_period in Hc.
      apply st_value_fuel; unfold rounds_left in *; lia. }
    unfold st_best, st_branch.
    rewrite (pick_ext _ (st_future self) _ _ (candidates self (Transition self s)))
      by (intros c Hc; apply (Hext (Transition self s)); [reflexivity | exact Hc]).
    rewrite (pick_ext _ (st_future self) _ _
               (candidates self (SDP.hitState self (Transition self s))))
      by (intros c Hc; apply (Hext (SDP.hitState self (Transition self s)));
          [reflexivity | exact Hc]).
    reflexivity.
Qed.

Lemma st_Solve_rec_S (self : SDP.t) (fuel : nat) (s : DPState)
  (σ : Caches Stoch.SolveResult) :
  SDP.Solve_rec (Datatypes.S fuel) self s σ =
  let newState := Transition self s in
  let hitState := SDP.hitState self newState in
  if terminal (SDP.numRounds self) newState then Some (Stoch.Over newState, σ)
  else
    match cache σ !! newState with
    | Some res => Some (res, σ)
    | None =>
        let '(stateEnjoyments, σ1) := StateEnum self newState σ in
        let '(hitStateEnjoyments, σ2) := StateEnum self hitState σ1 in
        let future := fun state σ =>
          match SDP.Solve_rec fuel self state σ with
          | Some (res, σ') => Some (Stoch.item2 res, σ')
          | None => None
          end in
        match
          candidate_loop future Stoch.branch1 Stoch.Best stateEnjoyments st_initial σ2
        with
        | None => None
        | Some (highestReturn, σ3) =>
            match
              candidate_loop future Stoch.branch1 Stoch.Best hitStateEnjoyments
                st_initial σ3
            with
            | None => None
            | Some (hitStateHighestReturn, σ4) =>
                let expected_value :=
                  SDP.expected self highestReturn hitStateHighestReturn in
                let res :=
                  Stoch.Both highestReturn hitStateHighestReturn expected_value in
                Some (res, mkCaches (<[newState := res]> (cache σ4)) (EnumCache σ4))
            end
        end
    end.
Proof. reflexivity. Qed.

Lemma st_Solve_rec_correct (self : SDP.t) (f : nat) :
  forall (s : DPState) (σ : Caches Stoch.SolveResult),
    st_caches_ok self σ ->
    (rounds_left (SDP.numRounds self) s <= f)%nat ->
    exists σ', SDP.Solve_rec (Datatypes.S f) self s σ = Some (st_optimum self s, σ') /\
               st_caches_ok self σ' /\
               (terminal (SDP.numRounds self) (Transition self s) = false ->
                cache σ' !! Transition self s = Some (st_optimum self s)).
Proof.
  induction f as [|f IH]; intros s σ Hok Hf;
    pose proof (st_optimum_eq self s) as Hopt; rewrite st_Solve_rec_S; cbv zeta;
    destruct (terminal (SDP.numRounds self) (Transition self s)) eqn:E.
  1,3: exists σ; rewrite Hopt; split; [reflexivity | split; [exact Hok | discriminate]].
  - apply terminal_false in E. simpl in E. unfold rounds_left in Hf. lia.
  - rewrite Hopt. destruct (cache σ !! Transition self s) as [res|] eqn:Ec.
    + destruct Hok as [Hen Hca]. pose proof (Hca _ _ Ec) as ->.
      exists σ. split; [reflexivity|]. split; [split; assumption|]. intros _. exact Ec.
    + destruct Hok as [Hen Hca].
      destruct (StateEnum_candidates self (Transition self s) σ Hen)
        as (σ1 & -> & Hen1 & Hc1).
      destruct (StateEnum_candidates self (SDP.hitState self (Transition self s)) σ1 Hen1)
        as (σ2 & -> & Hen2 & Hc2).
      assert (Hok2 : st_caches_ok self σ2).
      { split; [exact Hen2|]. rewrite Hc2, Hc1. exact Hca. }
      set (future := fun state σ =>
             match SDP.Solve_rec (Datatypes.S f) self state σ with
             | Some (res, σ') => Some (Stoch.item2 res, σ')
             | None => None
             end).
      assert (Hcall : forall st, period st = period s + 1 ->
                forall c σ0, c ∈ candidates self st -> st_caches_ok self σ0 ->
                exists σ', future c.1 σ0 = Some (st_future self c.1, σ') /\
                           st_caches_ok self σ').
      { intros st Hst c σ0 Hc Hok0. unfold future.
        destruct (IH c.1 σ0 Hok0) as (σ' & HS & Hok' & _).
        - apply candidates_period in Hc. apply terminal_false in E.
          simpl in *. unfold rounds_left in *. lia.
        - exists σ'. rewrite HS. split; [reflexivity | exact Hok']. }
      destruct (candidate_loop_pick (st_caches_ok self) future (st_future self)
                  Stoch.branch1 Stoch.Best (candidates self (Transition self s))
                  (Hcall (Transition self s) eq_refl) st_initial σ2 Hok2)
        as (σ3 & -> & Hok3).
      destruct (candidate_loop_pick (st_caches_ok self) future (st_future self)
                  Stoch.branch1 Stoch.Best
                  (candidates self (SDP.hitState self (Transition self s)))
                  (Hcall (SDP.hitState self (Transition self s)) eq_refl)
                  st_initial σ3 Hok3) as (σ4 & -> & [Hen4 Hca4]).
      fold (st_branch self (Transition self s)).
      fold (st_branch self (SDP.hitState self (Transition self s))).
      eexists. split; [reflexivity|]. split; [split|].
      * exact Hen4.
      * intros ns res. simpl. rewrite lookup_insert. case_decide as Hns.
        -- intros [= <-]. subst ns. reflexivity.
        -- apply Hca4.
      * intros _. simpl. apply lookup_insert_eq.
Qed.

Lemma st_Solve_correct (self : SDP.t) (s : DPState) (σ : Caches Stoch.SolveResult) :
  st_caches_ok self σ ->
  exists σ', SDP.Solve self s σ = Some (st_optimum self s, σ') /\
             st_caches_ok self σ' /\
             (terminal (SDP.numRounds self) (Transition self s) = false ->
              cache σ' !! Transition self s = Some (st_optimum self s)).
Proof.
  intros Hok. unfold SDP.Solve, enough_fuel.
  apply st_Solve_rec_correct; [exact Hok | lia].
Qed.

(** ** Claims on the enumerators *)

(** C4.  For a non-negative currency amount [cash], every Investment
    that the enumerator returns, in the plateau-pruned policy
    (Healthcare_DP.py, HealthcareDP_Stoch.py) and in the
    exhaustive-banked policy (HealthcareDP_NewDegen.py), has
    non-negative components whose sum is exactly [cash].  The
    enumeration caches are assumed to hold what the enumerators stored. *)
Theorem C4_investment_conservation {R R'} (self : Strategies) (cash health : Z)
  (σ : Caches R) (σ' : Caches R') :
  0 <= cash ->
  enum_ok self σ ->
  enum_ok_banked σ' ->
  (forall i, i ∈ (InvestmentEnum self cash σ).1 ->
     0 <= healthExpenditure i /\ 0 <= lifeExpenditure i /\ 0 <= cashRemaining i /\
     healthExpenditure i + lifeExpenditure i + cashRemaining i = cash) /\
  (forall i, i ∈ (NewDegen.HealthCareDP.InvestmentEnum cash health σ').1 ->
     0 <= healthExpenditure i /\ 0 <= lifeExpenditure i /\ 0 <= cashRemaining i /\
     healthExpenditure i + lifeExpenditure i + cashRemaining i = cash).
Proof.
  intros Hcash Hok Hok'. split; intros i Hi.
  - rewrite (InvestmentEnum_fst self cash σ Hok), potentialStates_plateau in Hi.
    apply elem_of_plateau_pruned in Hi. lia.
  - rewrite (banked_InvestmentEnum_fst cash health σ' Hok') in Hi.
    apply elem_of_banked in Hi as (H1 & (n & Hn & H2) & H3 & H4). lia.
Qed.

Lemma C4_investment_conservation_witness :
  0 <= 7 /\
  forall i,
    i ∈ (InvestmentEnum (R := unit)
           {| regenStrat := fun x => x / 3; enjoymentStrat := fun _ _ => 0%Q;
              degenStrat := fun h _ => h; harvestStrat := fun h => h |}
           7 no_caches).1 ->
    0 <= healthExpenditure i /\ 0 <= lifeExpenditure i /\ 0 <= cashRemaining i /\
    healthExpenditure i + lifeExpenditure i + cashRemaining i = 7.
Proof.
  split; [lia|].
  apply (C4_investment_conservation (R := unit) (R' := unit) _ 7 50 no_caches no_caches).
  - lia.
  - apply enum_ok_no_caches.
  - apply enum_ok_banked_no_caches.
Defined.

(** C6.  The plateau-pruned enumerator goes through the
    resource-expenditures 0, 1, ..., cash in order, keeps one exactly
    when its resource gain differs from the gain of the last one kept
    ([retained]), and lists for each one kept the
    consumption-expenditures of the window from [cash - he - 20] up to
    [cash - he] (the non-negative ones), in order, the banked remainder
    being [cash - he - le]. *)
Theorem C6_plateau_pruned_enumeration {R} (self : Strategies) (cash : Z)
  (σ : Caches R) :
  enum_ok self σ ->
  (InvestmentEnum self cash σ).1
  = flat_map (fun n => if retained self n then window cash (Z.of_nat n) else [])
      (seq 0 (Z.to_nat (cash + 1))) /\
  (forall he,
     window cash he
     = map (fun le => mkInvestment he le (cash - he - le))
         (py_range (Z.max (cash - he - 20) 0) (cash - he + 1))) /\
  (forall i, i ∈ (InvestmentEnum self cash σ).1 <->
     0 <= healthExpenditure i <= cash /\
     retained self (Z.to_nat (healthExpenditure i)) = true /\
     cash - healthExpenditure i - 20 <= lifeExpenditure i <= cash - healthExpenditure i /\
     0 <= lifeExpenditure i /\
     cashRemaining i = cash - healthExpenditure i - lifeExpenditure i).
Proof.
  intros Hok. rewrite (InvestmentEnum_fst self cash σ Hok), potentialStates_plateau.
  split; [reflexivity|]. split.
  - intros he. unfold window. f_equal. f_equal. lia.
  - intros i. apply elem_of_plateau_pruned.
Qed.

Lemma C6_plateau_pruned_enumeration_witness :
  (InvestmentEnum (R := unit)
     {| regenStrat := fun x => x / 2; enjoymentStrat := fun _ _ => 0%Q;
        degenStrat := fun h _ => h; harvestStrat := fun h => h |}
     3 no_caches).1
  = [mkInvestment 0 0 3; mkInvestment 0 1 2; mkInvestment 0 2 1; mkInvestment 0 3 0;
     mkInvestment 2 0 1; mkInvestment 2 1 0].
Proof.
  rewrite (proj1 (C6_plateau_pruned_enumeration (R := unit) _ 3 no_caches
                    (enum_ok_no_caches _))).
  reflexivity.
Defined.

(** ** The configurations of [main] *)

(** [degenStrat18], [harvestStrat18] of Healthcare_DP.py, the pair that
    [main] passes to the solver. *)
Definition degenStrat18 : DegenerationStrategy.t :=
  {| DegenerationStrategy.intercept := 7625 # 1000;
     DegenerationStrategy.slope := 1 # 4;
     DegenerationStrategy.horizon := 18 |}.

Definition harvestStrat18 : HarvestStrategy.t :=
  {| HarvestStrategy.maxHarvest := 46811 # 1000 |}.

(** A solver object of Healthcare_DP.py with that pair, the regeneration
    and enjoyment coefficients being those of the parameter file.  The
    solver is followed on the expenditures where [HealthRegained]
    returns. *)
Definition solver18 (exp : Q -> Q) (state : DPState) (numRounds : Z)
  (regen : RegenerationStrategy.t) (enjoy : LifeEnjoymentStrategy.t) : HDP.t :=
  {| start := state;
     numRounds := numRounds;
     strategies :=
       {| regenStrat := fun investment =>
            res_get 0 (RegenerationStrategy.HealthRegained exp regen investment);
          enjoymentStrat := LifeEnjoymentStrategy.LifeEnjoyment exp enjoy;
          degenStrat := DegenerationStrategy.HealthDegeneration degenStrat18;
          harvestStrat := HarvestStrategy.HarvestAmount harvestStrat18 |} |}.

(** The stochastic solver over the same strategies and horizon. *)
Definition with_shocks (d : HDP.t) (stochHitChance : Q) (stochHitSize : Z) : SDP.t :=
  {| SDP.start := start d;
     SDP.numRounds := numRounds d;
     SDP.strategies := d;
     SDP.stochHitChance := stochHitChance;
     SDP.stochHitSize := stochHitSize |}.

(** ** Rounding *)

Lemma py_round_cases (x : Q) : py_round x = Qfloor x \/ py_round x = Qfloor x + 1.
Proof.
  unfold py_round. destruct (_ ?= _)%Q; [destruct (Z.even _)| |]; auto.
Qed.

Lemma py_round_nonneg (x : Q) : (0 <= x)%Q -> 0 <= py_round x.
Proof.
  intros Hx. apply Qfloor_resp_le in Hx. change (Qfloor 0) with 0 in Hx.
  destruct (py_round_cases x) as [-> | ->]; lia.
Qed.

Lemma degenStrat18_decay (h r : Z) :
  h <= 0 -> 0 <= r -> DegenerationStrategy.HealthDegeneration degenStrat18 h r <= 0.
Proof.
  intros Hh Hr. unfold DegenerationStrategy.HealthDegeneration. simpl.
  assert (Hq : (0 <= inject_Z r)%Q).
  { change 0%Q with (inject_Z 0). rewrite <- Zle_Qle. exact Hr. }
  destruct (r <=? 18).
  - assert (0 <= py_round ((7625 # 1000) + (1 # 4) * inject_Z r)).
    { apply py_round_nonneg. lra. }
    lia.
  - assert (0 <= py_round ((7625 # 1000) + 2 * (1 # 4) * inject_Z r)).
    { apply py_round_nonneg. lra. }
    lia.
Qed.

(** ** Claims on the end of the game *)

Lemma iter_Transition_period (self : Strategies) (n : nat) (s : DPState) :
  period (Nat.iter n (Transition self) s) = period s + Z.of_nat n.
Proof.
  induction n as [|n IH]; simpl; [lia|]. rewrite IH. lia.
Qed.

Lemma iter_Transition_over (self : Strategies) (numRounds : Z) (n : nat) (s : DPState) :
  (forall h r, h <= 0 -> period s < r -> degenStrat self h r <= 0) ->
  numRounds < period s \/ health s <= 0 ->
  numRounds < period (Nat.iter n (Transition self) s) \/
  health (Nat.iter n (Transition self) s) <= 0.
Proof.
  intros Hdecay Hs. induction n as [|n IH]; simpl; [exact Hs|].
  pose proof (iter_Transition_period self n s) as Hp.
  destruct IH as [IH | IH]; [left; lia|].
  right. apply Hdecay; [exact IH | lia].
Qed.

Lemma over_terminal (self : Strategies) (numRounds : Z) (s : DPState) :
  (forall h r, h <= 0 -> period s < r -> degenStrat self h r <= 0) ->
  numRounds < period s \/ health s <= 0 ->
  terminal numRounds (Transition self s) = true.
Proof.
  intros Hdecay [Hs | Hs]; unfold terminal; simpl; apply orb_true_iff.
  - left. apply Z.ltb_lt. lia.
  - right. apply Z.leb_le. apply Hdecay; [exact Hs | lia].
Qed.

(** C3, as the code has it.  On a state whose period exceeds the
    horizon, [Solve] of Healthcare_DP.py returns [(newState, 0, 0)] and
    [Solve] of HealthcareDP_Stoch.py returns [(newState, 0, 0)]: total
    value 0 and immediate utility 0, [newState] being the transition of
    the state; and the same holds on every state reached from it by
    further transitions ([n] of them), so such a state is absorbing.
    On a state whose resource is 0 this holds when the degeneration
    strategy is a decay: it gives no positive resource from a
    non-positive one, in the rounds after the state's.  [Solve] tests
    the resource after the transition, not the one of the state. *)
Theorem C3_terminal_value (d : HDP.t) (stochHitChance : Q) (stochHitSize : Z)
  (s : DPState) (σ : Caches SolveResult) (σ' : Caches Stoch.SolveResult) (n : nat) :
  numRounds d < period s \/
  (health s = 0 /\
   forall h r, h <= 0 -> period s < r -> degenStrat d h r <= 0) ->
  let sn := Nat.iter n (Transition d) s in
  Solve d sn σ = Some (Triple (Transition d sn) 0 0, σ) /\
  SDP.Solve (with_shocks d stochHitChance stochHitSize) sn σ'
  = Some (Stoch.Over (Transition d sn), σ') /\
  Stoch.result_val (Stoch.Over (Transition d sn))
  = PTuple [PState (Transition d sn); PInt 0; PInt 0].
Proof.
  intros Hs sn.
  pose proof (iter_Transition_period d n s) as Hp. fold sn in Hp.
  assert (Ht : terminal (numRounds d) (Transition d sn) = true).
  { destruct Hs as [Hs | [Hs Hdecay]].
    - unfold terminal. apply orb_true_iff. left. apply Z.ltb_lt. simpl. lia.
    - assert (Hs' : numRounds d < period s \/ health s <= 0) by lia.
      pose proof (iter_Transition_over d (numRounds d) n s Hdecay Hs') as Hn.
      fold sn in Hn. apply over_terminal; [|exact Hn].
      intros h r Hh Hr. apply Hdecay; [exact Hh | lia]. }
  split; [|split; [|reflexivity]].
  - unfold Solve, enough_fuel. rewrite det_Solve_rec_S. cbv zeta.
    rewrite Ht. reflexivity.
  - unfold SDP.Solve, enough_fuel. rewrite st_Solve_rec_S. cbv zeta.
    change (SDP.numRounds (with_shocks d stochHitChance stochHitSize))
      with (numRounds d).
    change (Transition (with_shocks d stochHitChance stochHitSize) sn)
      with (Transition d sn).
    rewrite Ht. reflexivity.
Qed.

(** The coefficients used in the closed examples: a parameter file with
    gamma = 30, sigma = 1/10, r = 20 and alpha = 1/50, beta = 1, mu = 1/2,
    c = 100. *)
Definition regen_ex : RegenerationStrategy.t :=
  {| RegenerationStrategy.gamma := 30;
     RegenerationStrategy.sigma := 1 # 10;
     RegenerationStrategy.r := 20 |}.

Definition enjoy_ex : LifeEnjoymentStrategy.t :=
  {| LifeEnjoymentStrategy.alpha := 1 # 50;
     LifeEnjoymentStrategy.beta := 1;
     LifeEnjoymentStrategy.mu := 1 # 2;
     LifeEnjoymentStrategy.c := 100 |}.

Lemma C3_terminal_value_witness :
  let d := solver18 exp_approx (mkDPState 0 85 0) 18 regen_ex enjoy_ex in
  let s := mkDPState 5 0 30 in
  Solve d (Transition d s) no_caches
  = Some (Triple (Transition d (Transition d s)) 0 0, no_caches).
Proof.
  intros d s.
  refine (proj1 (C3_terminal_value d (1 # 5) 50 s no_caches no_caches 1 _)).
  right. split; [reflexivity|].
  intros h r Hh Hr. apply degenStrat18_decay; [exact Hh | simpl in Hr; lia].
Defined.

(** The future value of a state is not negative, and not below the
    total of any candidate of its transition. *)
Lemma det_future_nonneg (self : HDP.t) (s : DPState) : (0 <= det_future self s)%Q.
Proof.
  unfold det_future. rewrite det_optimum_eq.
  destruct (terminal _ _); [apply Qle_refl|]. unfold det_best.
  apply (pick_total_init (det_future self) item1 Triple
           (fun _ _ _ => eq_refl) _ Initial).
Qed.

Lemma det_future_ge (self : HDP.t) (s : DPState) (c : DPState * Q) :
  terminal (numRounds self) (Transition self s) = false ->
  c ∈ candidates self (Transition self s) ->
  (c.2 + det_future self c.1 <= det_future self s)%Q.
Proof.
  intros Ht Hc. unfold det_future at 2. rewrite det_optimum_eq, Ht. unfold det_best.
  apply (pick_total_ge (det_future self) item1 Triple
           (fun _ _ _ => eq_refl) _ Initial c Hc).
Qed.

Lemma det_total_nonneg (self : HDP.t) (s : DPState) :
  (0 <= item1 (det_optimum self s))%Q.
Proof. apply det_future_nonneg. Qed.

Lemma det_total_ge (self : HDP.t) (s : DPState) (c : DPState * Q) :
  terminal (numRounds self) (Transition self s) = false ->
  c ∈ candidates self (Transition self s) ->
  (c.2 + item1 (det_optimum self c.1) <= item1 (det_optimum self s))%Q.
Proof. apply det_future_ge. Qed.

(** With the degeneration and harvest of [main], the state (-40, 0, 0)
    has resource 0 and moves to (-39, 2, 0): the degeneration of round
    -39 is [round(7.625 - 9.75) = -2].  That state is not terminal, and
    its only candidate moves on to (-38, 4, 1), where one unit of
    currency buys a positive utility: the total value that [Solve]
    returns from (-40, 0, 0) is not 0. *)
Lemma C3_counterexample :
  let d := solver18 exp_approx (mkDPState 0 85 0) 18 regen_ex enjoy_ex in
  let s := mkDPState (-40) 0 0 in
  health s = 0 /\
  Transition d s = mkDPState (-39) 2 0 /\
  exists res σ', Solve d s no_caches = Some (res, σ') /\ (0 < item1 res)%Q.
Proof.
  intros d s. split; [reflexivity|]. split; [vm_compute; reflexivity|].
  destruct (det_Solve_correct d s no_caches (det_caches_ok_empty d)) as (σ' & HS & _).
  exists (det_optimum d s), σ'. split; [exact HS|].
  set (c1 := Invest d (Transition d s) (mkInvestment 0 0 0)).
  set (c2 := Invest d (Transition d c1.1) (mkInvestment 0 1 0)).
  assert (T1 : terminal (numRounds d) (Transition d s) = false) by (vm_compute; reflexivity).
  assert (M1 : c1 ∈ candidates d (Transition d s)).
  { vm_compute. apply list_elem_of_In. vm_compute. auto. }
  assert (T2 : terminal (numRounds d) (Transition d c1.1) = false) by (vm_compute; reflexivity).
  assert (M2 : c2 ∈ candidates d (Transition d c1.1)).
  { vm_compute. apply list_elem_of_In. vm_compute. auto. }
  pose proof (det_total_ge d s c1 T1 M1) as H1.
  pose proof (det_total_ge d c1.1 c2 T2 M2) as H2.
  pose proof (det_total_nonneg d c2.1) as H3.
  assert (H4 : (0 <= c1.2)%Q) by (vm_compute; discriminate).
  assert (H5 : (0 < c2.2)%Q) by (vm_compute; reflexivity).
  revert H1 H2 H3 H4 H5.
  generalize (item1 (det_optimum d s)), (item1 (det_optimum d c1.1)), (item1 (det_optimum d c2.1)), c1.2, c2.2.
  intros F0 F1 F2 q1 q2 H1 H2 H3 H4 H5. lra.
Qed.

(** ** Claims on the candidate loop of the deterministic solvers *)

Lemma item1_Triple (state : DPState) (totalValue immediate : Q) :
  item1 (Triple state totalValue immediate) = totalValue.
Proof. reflexivity. Qed.

Lemma nd_item1_Triple (state : DPState) (totalValue immediate : Q) :
  NewDegen.item1 (NewDegen.Triple state totalValue immediate) = totalValue.
Proof. reflexivity. Qed.

(** C10.  In the solver of Healthcare_DP.py, when the post-transition
    state is not terminal and no candidate has a total value (immediate
    utility plus future value) strictly greater than 0, [Solve] caches
    and returns the initial pair [(0, 0)], which has no next state and
    no immediate utility. *)
Theorem C10_initial_pair_returned (self : HDP.t) (s : DPState)
  (σ : Caches SolveResult) :
  det_caches_ok self σ ->
  terminal (numRounds self) (Transition self s) = false ->
  Forall (fun c => ~ (0 < c.2 + det_future self c.1)%Q)
    (candidates self (Transition self s)) ->
  exists σ', Solve self s σ = Some (Initial, σ') /\
             cache σ' !! Transition self s = Some Initial.
Proof.
  intros Hok Hterm Hnone.
  destruct (det_Solve_correct self s σ Hok) as (σ' & HS & _ & Hc).
  specialize (Hc Hterm). rewrite det_optimum_eq, Hterm in HS, Hc.
  assert (Hb : det_best self (Transition self s) = Initial).
  { unfold det_best.
    destruct (pick_spec (det_future self) item1 Triple item1_Triple
                (candidates self (Transition self s)) Initial)
      as [[Hp _] | (l1 & c & l2 & Hl & _ & Hlt & _)]; [exact Hp|].
    exfalso. rewrite Forall_forall in Hnone. apply (Hnone c); [|exact Hlt].
    rewrite Hl. apply elem_of_app. right. apply elem_of_cons. left. reflexivity. }
  rewrite Hb in HS, Hc. exists σ'. split; assumption.
Qed.

(** A solver whose degeneration and harvest are both zero: the state
    (17, 1, 0) moves to (18, 1, 0), not terminal for 18 rounds, with
    currency 0. *)
Definition solver_idle : HDP.t :=
  {| start := mkDPState 17 1 0;
     numRounds := 18;
     strategies :=
       {| regenStrat := fun investment =>
            res_get 0 (RegenerationStrategy.HealthRegained exp_approx regen_ex
                         investment);
          enjoymentStrat := LifeEnjoymentStrategy.LifeEnjoyment exp_approx enjoy_ex;
          degenStrat :=
            DegenerationStrategy.HealthDegeneration
              {| DegenerationStrategy.intercept := 0;
                 DegenerationStrategy.slope := 0;
                 DegenerationStrategy.horizon := 18 |};
          harvestStrat := HarvestStrategy.HarvestAmount harvestStrat18 |} |}.

Lemma C10_initial_pair_returned_witness :
  exists σ', Solve solver_idle (mkDPState 17 1 0) no_caches = Some (Initial, σ') /\
             cache σ' !! Transition solver_idle (mkDPState 17 1 0) = Some Initial.
Proof.
  apply (C10_initial_pair_returned solver_idle (mkDPState 17 1 0) no_caches).
  - apply det_caches_ok_empty.
  - vm_compute. reflexivity.
  - replace (candidates solver_idle (Transition solver_idle (mkDPState 17 1 0)))
      with [(mkDPState 18 1 0, 0 # 200)] by (vm_compute; reflexivity).
    constructor; [|constructor]. cbn [fst snd].
    replace (det_future solver_idle (mkDPState 18 1 0)) with 0%Q
      by (vm_compute; reflexivity).
    intros H. vm_compute in H. discriminate H.
Defined.

(** C2, as the code has it.  In both deterministic solvers, when the
    post-transition state is not terminal and some candidate has a
    total value strictly greater than 0 (the total of the loop's initial
    value), [Solve] caches and returns the triple
    [(state, totalValue, round(enjoyment, 1))] of the first candidate,
    in enumeration order, whose total value is greatest: the candidates
    before it have a strictly smaller total and those after it none
    greater.  A candidate's total is its immediate utility plus the
    future value of its state, which is the total that [Solve] returns
    on that state. *)
Theorem C2_first_greatest_candidate (d : HDP.t) (nd : NDP.t) (s : DPState)
  (σ : Caches SolveResult) (σn : Caches NewDegen.SolveResult) :
  det_caches_ok d σ ->
  nd_caches_ok nd σn ->
  terminal (numRounds d) (Transition d s) = false ->
  terminal (NDP.numRounds nd) (NDP.Transition nd s) = false ->
  (exists c, c ∈ candidates d (Transition d s) /\ (0 < c.2 + det_future d c.1)%Q) ->
  (exists c, c ∈ nd_candidates nd (NDP.Transition nd s) /\
             (0 < c.2 + nd_future nd c.1)%Q) ->
  (exists l1 c l2 σ',
     candidates d (Transition d s) = l1 ++ c :: l2 /\
     Forall (fun c' => c'.2 + det_future d c'.1 < c.2 + det_future d c.1)%Q l1 /\
     Forall (fun c' => c'.2 + det_future d c'.1 <= c.2 + det_future d c.1)%Q l2 /\
     Solve d s σ
     = Some (Triple c.1 (c.2 + det_future d c.1) (py_round1 c.2), σ') /\
     cache σ' !! Transition d s
     = Some (Triple c.1 (c.2 + det_future d c.1) (py_round1 c.2))) /\
  (exists l1 c l2 σ',
     nd_candidates nd (NDP.Transition nd s) = l1 ++ c :: l2 /\
     Forall (fun c' => c'.2 + nd_future nd c'.1 < c.2 + nd_future nd c.1)%Q l1 /\
     Forall (fun c' => c'.2 + nd_future nd c'.1 <= c.2 + nd_future nd c.1)%Q l2 /\
     NDP.Solve nd s σn
     = Some (NewDegen.Triple c.1 (c.2 + nd_future nd c.1) (py_round1 c.2), σ') /\
     cache σ' !! NDP.Transition nd s
     = Some (NewDegen.Triple c.1 (c.2 + nd_future nd c.1) (py_round1 c.2))) /\
  (forall state σ0, det_caches_ok d σ0 ->
     exists res σ1, Solve d state σ0 = Some (res, σ1) /\ det_future d state = item1 res) /\
  (forall state σ0, nd_caches_ok nd σ0 ->
     exists res σ1, NDP.Solve nd state σ0 = Some (res, σ1) /\
                    nd_future nd state = NewDegen.item1 res).
Proof.
  intros Hok Hokn Ht Htn (c0 & Hc0 & Hpos) (cn & Hcn & Hposn).
  split; [|split; [|split]].
  - destruct (det_Solve_correct d s σ Hok) as (σ' & HS & _ & Hc).
    specialize (Hc Ht). rewrite det_optimum_eq, Ht in HS, Hc. unfold det_best in HS, Hc.
    destruct (pick_spec (det_future d) item1 Triple item1_Triple
                (candidates d (Transition d s)) Initial)
      as [[_ Hall] | (l1 & c & l2 & Hl & Hp & _ & H1 & H2)].
    + exfalso. rewrite Forall_forall in Hall. specialize (Hall c0 Hc0).
      unfold total_of in Hall. simpl in Hall. apply (Qlt_not_le _ _ Hpos Hall).
    + rewrite Hp in HS, Hc. exists l1, c, l2, σ'. repeat split; assumption.
  - destruct (nd_Solve_correct nd s σn Hokn) as (σ' & HS & _ & Hc).
    specialize (Hc Htn). rewrite nd_optimum_eq, Htn in HS, Hc. unfold nd_best in HS, Hc.
    destruct (pick_spec (nd_future nd) NewDegen.item1 NewDegen.Triple nd_item1_Triple
                (nd_candidates nd (NDP.Transition nd s)) nd_initial)
      as [[_ Hall] | (l1 & c & l2 & Hl & Hp & _ & H1 & H2)].
    + exfalso. rewrite Forall_forall in Hall. specialize (Hall cn Hcn).
      unfold total_of in Hall. simpl in Hall. apply (Qlt_not_le _ _ Hposn Hall).
    + rewrite Hp in HS, Hc. exists l1, c, l2, σ'. repeat split; assumption.
  - intros state σ0 Hok0.
    destruct (det_Solve_correct d state σ0 Hok0) as (σ1 & HS & _).
    exists (det_optimum d state), σ1. split; [exact HS | reflexivity].
  - intros state σ0 Hok0.
    destruct (nd_Solve_correct nd state σ0 Hok0) as (σ1 & HS & _).
    exists (nd_optimum nd state), σ1. split; [exact HS | reflexivity].
Qed.

(** The solver object that [main] of HealthcareDP_NewDegen.py builds:
    d = 10, k = 50, j = 50, degen = 10, maxHarvest = 46.811.  With these
    coefficients no division of the strategy formulas is by zero on an
    investment above 0, so the methods are total. *)
Definition nd_solver (state : DPState) (numRounds : Z) : NDP.t :=
  {| NDP.start := state;
     NDP.numRounds := numRounds;
     NDP.regenStrat := fun investment health =>
       res_get 0 (NewDegen.RegenerationStrategy.HealthRegained
                    {| NewDegen.RegenerationStrategy.d := 10;
                       NewDegen.RegenerationStrategy.k := 50 |} investment health);
     NDP.enjoymentStrat := fun investment currentHealth =>
       res_get 0%Q (NewDegen.LifeEnjoymentStrategy.LifeEnjoyment
                      {| NewDegen.LifeEnjoymentStrategy.j := 50 |}
                      investment currentHealth);
     NDP.degenStrat :=
       NewDegen.DegenerationStrategy.HealthDegeneration
         {| NewDegen.DegenerationStrategy.degen := 10 |};
     NDP.harvestStrat :=
       NewDegen.HarvestStrategy.HarvestAmount
         {| NewDegen.HarvestStrategy.maxHarvest := 46811 # 1000 |} |}.

Lemma existsb_positive (f : DPState -> Q) (l : list (DPState * Q)) :
  existsb (fun c => Qltb 0 (c.2 + f c.1)) l = true ->
  exists c, c ∈ l /\ (0 < c.2 + f c.1)%Q.
Proof.
  intros H. apply existsb_exists in H as (c & Hc & Hlt).
  exists c. split; [apply list_elem_of_In, Hc | apply Qltb_lt, Hlt].
Qed.

Lemma C2_first_greatest_candidate_witness :
  let d := solver18 exp_approx (mkDPState 0 85 0) 18 regen_ex enjoy_ex in
  let nd := nd_solver (mkDPState 0 85 0) 18 in
  let s := mkDPState 17 30 0 in
  exists l1 c l2 σ',
    candidates d (Transition d s) = l1 ++ c :: l2 /\
    Forall (fun c' => c'.2 + det_future d c'.1 < c.2 + det_future d c.1)%Q l1 /\
    Forall (fun c' => c'.2 + det_future d c'.1 <= c.2 + det_future d c.1)%Q l2 /\
    Solve d s no_caches
    = Some (Triple c.1 (c.2 + det_future d c.1) (py_round1 c.2), σ') /\
    cache σ' !! Transition d s
    = Some (Triple c.1 (c.2 + det_future d c.1) (py_round1 c.2)).
Proof.
  intros d nd s.
  refine (proj1 (C2_first_greatest_candidate d nd s no_caches no_caches
                   (det_caches_ok_empty d) (nd_caches_ok_empty nd) _ _ _ _)).
  - vm_compute. reflexivity.
  - vm_compute. reflexivity.
  - apply existsb_positive. vm_compute. reflexivity.
  - apply existsb_positive. vm_compute. reflexivity.
Defined.

(** The claim as stated fails where no candidate's total exceeds 0: the
    state (17, 1, 0) of [solver_idle] moves to a state that is not
    terminal and has one candidate, and [Solve] returns the initial
    [(0, 0)], which is no candidate's triple. *)
Lemma C2_counterexample :
  terminal (numRounds solver_idle) (Transition solver_idle (mkDPState 17 1 0)) = false /\
  length (candidates solver_idle (Transition solver_idle (mkDPState 17 1 0))) = 1%nat /\
  fst <$> Solve solver_idle (mkDPState 17 1 0) no_caches = Some Initial.
Proof. vm_compute. repeat split; reflexivity. Qed.

(** ** Claims on the stochastic solver *)

Lemma branch1_Best (state : DPState) (totalValue immediate : Q) :
  Stoch.branch1 (Stoch.Best state totalValue immediate) = totalValue.
Proof. reflexivity. Qed.

(** [best] is what the candidate loop of HealthcareDP_Stoch.py is
    claimed to leave: the initial [DPState(0, 0, -1)], whose component 1
    is 0, when no candidate's total (immediate utility plus future
    value of its state) is above 0; else the triple of the first
    candidate, in enumeration order, of greatest total. *)
Definition first_greatest (future : DPState -> Q) (l : list (DPState * Q))
  (best : Stoch.Branch) : Prop :=
  let total := fun c : DPState * Q => (c.2 + future c.1)%Q in
  (best = Stoch.Unset (mkDPState 0 0 (-1)) /\
   Forall (fun c => (total c <= 0)%Q) l) \/
  (exists l1 c l2,
     l = l1 ++ c :: l2 /\
     best = Stoch.Best c.1 (total c) (py_round1 c.2) /\
     (0 < total c)%Q /\
     Forall (fun c' => (total c' < total c)%Q) l1 /\
     Forall (fun c' => (total c' <= total c)%Q) l2).

Lemma st_branch_first_greatest (self : SDP.t) (state : DPState) :
  first_greatest (st_future self) (candidates self state) (st_branch self state).
Proof.
  unfold first_greatest, st_branch.
  destruct (pick_spec (st_future self) Stoch.branch1 Stoch.Best branch1_Best
              (candidates self state) st_initial)
    as [[Hp Hall] | (l1 & c & l2 & Hl & Hp & Hlt & H1 & H2)].
  - left. split; [exact Hp | exact Hall].
  - right. exists l1, c, l2. repeat split; assumption.
Qed.

(** C1.  On a post-transition state that is not terminal, [Solve] of
    HealthcareDP_Stoch.py caches and returns the triple (best of the
    normal branch, best of the hit branch, blended expectation), the
    blended expectation being
    [(1 - p) * bestNormal[1] + p * bestHit[1]] for the shock probability
    [p].  The best of a branch is the first candidate of greatest total
    among the candidates of the post-transition state, respectively of
    its hit state (or the loop's initial value when no total is above
    0), a candidate's total being its immediate utility plus the future
    value of its state.  That future value, [future], is the third
    component of what [Solve] returns on the candidate's state: 0 when
    the game is over there, else the blended expectation of that state's
    two branches, not the total of either branch. *)
Theorem C1_blended_expectation (self : SDP.t) (s : DPState)
  (σ : Caches Stoch.SolveResult) :
  st_caches_ok self σ ->
  terminal (SDP.numRounds self) (Transition self s) = false ->
  let newState := Transition self s in
  let p := SDP.stochHitChance self in
  exists (future : DPState -> Q) (bestNormal bestHit : Stoch.Branch) σ',
    let blended :=
      ((1 - p) * Stoch.branch1 bestNormal + p * Stoch.branch1 bestHit)%Q in
    SDP.Solve self s σ = Some (Stoch.Both bestNormal bestHit blended, σ') /\
    cache σ' !! newState = Some (Stoch.Both bestNormal bestHit blended) /\
    first_greatest future (candidates self newState) bestNormal /\
    first_greatest future (candidates self (SDP.hitState self newState)) bestHit /\
    forall state σ0, st_caches_ok self σ0 ->
      exists res σ1,
        SDP.Solve self state σ0 = Some (res, σ1) /\
        ((res = Stoch.Over (Transition self state) /\ future state = 0%Q) \/
         exists n h,
           res = Stoch.Both n h
                   ((1 - p) * Stoch.branch1 n + p * Stoch.branch1 h)%Q /\
           future state = ((1 - p) * Stoch.branch1 n + p * Stoch.branch1 h)%Q).
Proof.
  intros Hok Ht newState p.
  destruct (st_Solve_correct self s σ Hok) as (σ' & HS & _ & Hc).
  specialize (Hc Ht). rewrite st_optimum_eq, Ht in HS, Hc.
  exists (st_future self), (st_branch self newState),
    (st_branch self (SDP.hitState self newState)), σ'.
  cbv zeta. split; [exact HS|]. split; [exact Hc|].
  split; [apply st_branch_first_greatest|].
  split; [apply st_branch_first_greatest|].
  intros state σ0 Hok0.
  destruct (st_Solve_correct self state σ0 Hok0) as (σ1 & HS0 & _).
  exists (st_optimum self state), σ1. split; [exact HS0|].
  unfold st_future. rewrite st_optimum_eq.
  destruct (terminal (SDP.numRounds self) (Transition self state)).
  - left. split; reflexivity.
  - right. eexists _, _. split; reflexivity.
Qed.

Lemma C1_blended_expectation_witness :
  let self :=
    with_shocks (solver18 exp_approx (mkDPState 0 85 0) 18 regen_ex enjoy_ex)
      (1 # 5) 50 in
  let s := mkDPState 17 30 0 in
  let newState := Transition self s in
  exists (future : DPState -> Q) (bestNormal bestHit : Stoch.Branch) σ',
    let blended :=
      ((1 - (1 # 5)) * Stoch.branch1 bestNormal + (1 # 5) * Stoch.branch1 bestHit)%Q in
    SDP.Solve self s no_caches = Some (Stoch.Both bestNormal bestHit blended, σ') /\
    cache σ' !! newState = Some (Stoch.Both bestNormal bestHit blended) /\
    first_greatest future (candidates self newState) bestNormal /\
    first_greatest future (candidates self (SDP.hitState self newState)) bestHit /\
    forall state σ0, st_caches_ok self σ0 ->
      exists res σ1,
        SDP.Solve self state σ0 = Some (res, σ1) /\
        ((res = Stoch.Over (Transition self state) /\ future state = 0%Q) \/
         exists n h,
           res = Stoch.Both n h
                   ((1 - (1 # 5)) * Stoch.branch1 n + (1 # 5) * Stoch.branch1 h)%Q /\
           future state
           = ((1 - (1 # 5)) * Stoch.branch1 n + (1 # 5) * Stoch.branch1 h)%Q).
Proof.
  intros self s.
  refine (C1_blended_expectation self s no_caches (st_caches_ok_empty self) _).
  vm_compute. reflexivity.
Defined.

(** ** [FindStrat] of HealthcareDP_Stoch.py

    The first round of the loop already fails: [cur] is assigned
    [self.Solve(cur)[0][0]], a [DPState] or an integer, and
    [strategy.append(cur[0][0])] then indexes an integer. *)
Lemma st_FindStrat_step_raises (self : SDP.t) (state : DPState)
  (σ : Caches Stoch.SolveResult) :
  st_caches_ok self σ ->
  exists σ', SDP.FindStrat_step self (PState state) σ = Some (Raise TypeError, σ').
Proof.
  intros Hok. unfold SDP.FindStrat_step, SDP.Solve_dyn.
  destruct (st_Solve_correct self state σ Hok) as (σ1 & -> & _).
  exists σ1. destruct (st_optimum self state) as [ns | [s0 | st0 t0 i0] h e];
    reflexivity.
Qed.

(** C7 does not hold of the stochastic variant.  With a horizon of at
    least one round, [FindStrat] of HealthcareDP_Stoch.py returns no
    trajectory: it stops with a [TypeError] in the first round of its
    loop, whatever the starting state. *)
Theorem C7_stochastic_FindStrat_raises (self : SDP.t) (state : DPState)
  (σ : Caches Stoch.SolveResult) :
  st_caches_ok self σ ->
  1 <= SDP.numRounds self ->
  exists σ', SDP.FindStrat self state σ = Some (Raise TypeError, σ').
Proof.
  intros Hok Hn. unfold SDP.FindStrat.
  destruct (Z.to_nat (SDP.numRounds self)) as [|n] eqn:E; [lia|].
  destruct (st_FindStrat_step_raises self state σ Hok) as (σ' & Hstep).
  exists σ'. simpl. rewrite Hstep. reflexivity.
Qed.

Lemma C7_stochastic_FindStrat_raises_witness :
  let self :=
    with_shocks (solver18 exp_approx (mkDPState 0 85 0) 18 regen_ex enjoy_ex)
      (1 # 5) 50 in
  exists σ', SDP.FindStrat self (mkDPState 0 85 0) no_caches
             = Some (Raise TypeError, σ').
Proof.
  intros self.
  apply (C7_stochastic_FindStrat_raises self (mkDPState 0 85 0) no_caches).
  - apply st_caches_ok_empty.
  - simpl. lia.
Defined.

(** ** Claims on the strategy functions *)

Lemma py_int_zero (x : Q) : (x == 0)%Q -> py_int x = 0.
Proof.
  unfold Qeq, py_int. simpl. intros H.
  replace (Qnum x) with 0 by lia. apply Z.quot_0_l. lia.
Qed.




(** [math.exp(709)] returns and [math.exp(710)] raises. *)
Lemma math_exp_overflows_above_709 :
  math_exp exp_approx 709 = Ok (exp_approx 709) /\
  math_exp exp_approx 710 = Raise OverflowError.
Proof. split; reflexivity. Qed.




(** ** Claims on the deviation analyzer *)

Section ForRange.
Context {A : Type}.
Variable body : nat -> list A -> Res A.

Lemma for_range_length (idx : list nat) (acc l : list A) :
  for_range body idx acc = Ok l -> length l = (length acc + length idx)%nat.
Proof.
  revert acc. induction idx as [|i idx IH]; intros acc; simpl.
  - intros [= <-]. lia.
  - destruct (body i acc) as [a|e]; [|discriminate].
    intros H. apply IH in H. rewrite length_app in H. simpl in H. lia.
Qed.

(** The loop stops with an exception of the body only. *)
Lemma for_range_raises (P : PyErr -> Prop) (idx : list nat) (acc : list A) :
  (forall i acc' e, i ∈ idx -> body i acc' = Raise e -> P e) ->
  forall e, for_range body idx acc = Raise e -> P e.
Proof.
  revert acc. induction idx as [|i idx IH]; intros acc Hbody e; simpl.
  - discriminate.
  - destruct (body i acc) as [a|e'] eqn:E.
    + apply IH. intros i' acc' e' Hi'. apply Hbody. right. exact Hi'.
    + intros [= <-]. apply (Hbody i acc); [left | exact E].
Qed.

End ForRange.

Lemma py_nth_lt {A} (l : list A) (i : nat) :
  (i < length l)%nat -> exists a, py_nth l i = Ok a.
Proof.
  intros H. unfold py_nth. destruct (lookup_lt_is_Some_2 l i H) as [a ->].
  exists a. reflexivity.
Qed.

Lemma py_drop_last_length {A} (k : nat) (l : list A) :
  length (py_drop_last k l) = (length l - k)%nat.
Proof. unfold py_drop_last. rewrite length_take. lia. Qed.

Lemma solve_all_length (self : HDP.t) (l : list (DPState * Q))
  (σ : Caches SolveResult) :
  det_caches_ok self σ ->
  exists rs σ', solve_all self l σ = Some (rs, σ') /\ length rs = length l /\
                det_caches_ok self σ'.
Proof.
  revert σ. induction l as [|i l IH]; intros σ Hok; simpl.
  - exists [], σ. split; [reflexivity|]. split; [reflexivity | exact Hok].
  - destruct (det_Solve_correct self i.1 σ Hok) as (σ1 & -> & Hok1 & _).
    destruct (IH σ1 Hok1) as (rs & σ2 & -> & Hlen & Hok2).
    exists (det_optimum self i.1 :: rs), σ2. simpl.
    split; [reflexivity|]. split; [lia | exact Hok2].
Qed.

(** What the computation after the [Solve] calls can stop with. *)
Definition data_error (e : PyErr) : Prop := e = ZeroDivisionError \/ e = TypeError.

Lemma remaining_after_ok (alternate : list SolveResult)
  (strategy : list (DPState * Q)) (i : nat) :
  length alternate = (length strategy - 1)%nat ->
  (i + 2 < length strategy)%nat ->
  exists q, remaining_after alternate strategy i = Ok q.
Proof.
  intros Hlen Hi. unfold remaining_after.
  destruct (py_nth_lt alternate (i + 1)) as [a1 ->]; [lia|].
  destruct (py_nth_lt strategy (i + 1)) as [s1 ->]; [lia|].
  destruct (py_nth_lt strategy (i + 2)) as [s2 ->]; [lia|].
  simpl. eexists. reflexivity.
Qed.

Lemma loss_at_raises (alternate : list SolveResult)
  (strategy : list (DPState * Q)) (i : nat) (e : PyErr) :
  length alternate = (length strategy - 1)%nat ->
  (i + 2 < length strategy)%nat ->
  loss_at alternate strategy i = Raise e -> e = ZeroDivisionError.
Proof.
  intros Hlen Hi. unfold loss_at.
  destruct (remaining_after_ok alternate strategy i Hlen Hi) as [q ->].
  destruct (py_nth_lt alternate i) as [a ->]; [lia|].
  destruct (py_nth_lt alternate 0) as [a0 ->]; [lia|].
  simpl. destruct (Qeq_bool (item1 a0) 0); [|discriminate].
  intros [= <-]. reflexivity.
Qed.

Lemma output_at_ok (alternate : list SolveResult)
  (strategy : list (DPState * Q)) (losses : list Q) (i : nat) :
  length alternate = (length strategy - 1)%nat ->
  length losses = (length strategy - 2)%nat ->
  (i + 2 < length strategy)%nat ->
  exists row, output_at alternate strategy losses i = Ok row.
Proof.
  intros Hlen Hlos Hi. unfold output_at.
  destruct (py_nth_lt alternate i) as [a ->]; [lia|].
  destruct (py_nth_lt strategy (i + 1)) as [s1 ->]; [lia|].
  destruct (remaining_after_ok alternate strategy i Hlen Hi) as [q ->].
  destruct (py_nth_lt losses i) as [l ->]; [lia|].
  destruct (py_nth_lt strategy i) as [s0 ->]; [lia|].
  simpl. unfold cumsum_at.
  destruct (lookup_lt_is_Some_2 (take (i + 1) losses) i) as [x ->].
  - rewrite length_take. lia.
  - simpl. eexists. reflexivity.
Qed.

Lemma csv_row_raises (row : OutputRow) (e : PyErr) :
  csv_row row = Raise e -> e = TypeError.
Proof.
  unfold csv_row. destruct (row0 row); [|discriminate].
  intros [= <-]. reflexivity.
Qed.

Lemma analysis_outcome (alternate : list SolveResult) (strategy : list (DPState * Q)) :
  length alternate = (length strategy - 1)%nat ->
  (exists rows, analysis alternate strategy = Ok rows /\
                length rows = (length strategy - 2)%nat) \/
  (exists e, analysis alternate strategy = Raise e /\ data_error e).
Proof.
  intros Hlen. unfold analysis.
  destruct (for_range (fun i _ => loss_at alternate strategy i)
              (seq 0 (length (py_drop_last 2 strategy))) []) as [losses|e] eqn:El.
  - apply for_range_length in El. rewrite length_seq, py_drop_last_length in El.
    simpl in El. simpl.
    destruct (for_range (fun i _ => output_at alternate strategy losses i)
                (seq 0 (length alternate - 1)) []) as [output|e] eqn:Eo.
    + apply for_range_length in Eo. rewrite length_seq in Eo. simpl in Eo. simpl.
      destruct (for_range (fun i _ => res_bind (py_nth output i) csv_row)
                  (seq 0 (length output)) []) as [rows|e] eqn:Er.
      * left. exists rows. split; [reflexivity|].
        apply for_range_length in Er. rewrite length_seq in Er. simpl in Er. lia.
      * right. exists e. split; [reflexivity|]. right.
        revert Er. apply (for_range_raises _ (fun e => e = TypeError)).
        intros i acc' e' Hi. apply elem_of_seq in Hi.
        destruct (py_nth_lt output i) as [row ->]; [lia|]. simpl.
        apply csv_row_raises.
    + exfalso. revert Eo. apply (for_range_raises _ (fun _ => False)).
      intros i acc' e' Hi He. apply elem_of_seq in Hi.
      destruct (output_at_ok alternate strategy losses i) as [row Hrow]; [lia..|].
      congruence.
  - right. exists e. split; [reflexivity|]. left.
    revert El. apply (for_range_raises _ (fun e => e = ZeroDivisionError)).
    intros i acc' e' Hi. apply elem_of_seq in Hi.
    rewrite py_drop_last_length in Hi.
    apply loss_at_raises; [exact Hlen | lia].
Qed.

(** C9, as the code has it.  [AnalyzeStrat] does not compare the length
    of the observed trajectory with the horizon.  On a trajectory of
    any length it reads inside the lists only, so it raises no
    [IndexError]: it writes one row for each record but the last two,
    unless it stops on the division by the first optimum when that is
    0 ([ZeroDivisionError]) or on a row whose optimum is the initial
    pair [(0, 0)] ([TypeError]).  A shorter trajectory gives a shorter
    analysis. *)
Theorem C9_analysis_follows_trajectory_length (self : HDP.t)
  (strategy : list (DPState * Q)) (σ : Caches SolveResult) :
  det_caches_ok self σ ->
  exists res σ',
    AnalyzeStrat self strategy σ = Some (res, σ') /\
    ((exists rows, res = Ok rows /\ length rows = (length strategy - 2)%nat) \/
     res = Raise ZeroDivisionError \/ res = Raise TypeError).
Proof.
  intros Hok. unfold AnalyzeStrat.
  destruct (solve_all_length self (py_drop_last 1 strategy) σ Hok)
    as (alternate & σ' & -> & Hlen & _).
  rewrite py_drop_last_length in Hlen.
  exists (analysis alternate strategy), σ'. split; [reflexivity|].
  destruct (analysis_outcome alternate strategy Hlen)
    as [(rows & -> & Hrows) | (e & -> & [-> | ->])].
  - left. exists rows. split; [reflexivity | exact Hrows].
  - right. left. reflexivity.
  - right. right. reflexivity.
Qed.

(** The number of rows written, when the analysis ends normally. *)
Definition rows_written {S} (x : option (Res (list CsvRow) * S)) : option nat :=
  match x with
  | Some (Ok rows, _) => Some (length rows)
  | _ => None
  end.

(** A trajectory of three records against a horizon of 18 rounds. *)
Definition short_trajectory : list (DPState * Q) :=
  [(mkDPState 17 30 0, 30%Q); (mkDPState 17 25 5, 12%Q); (mkDPState 19 0 0, 0%Q)].

Lemma C9_analysis_follows_trajectory_length_witness :
  let self := solver18 exp_approx (mkDPState 0 85 0) 18 regen_ex enjoy_ex in
  exists res σ',
    AnalyzeStrat self short_trajectory no_caches = Some (res, σ') /\
    ((exists rows, res = Ok rows /\ length rows = 1%nat) \/
     res = Raise ZeroDivisionError \/ res = Raise TypeError).
Proof.
  intros self.
  apply (C9_analysis_follows_trajectory_length self short_trajectory no_caches).
  apply det_caches_ok_empty.
Defined.

(** The analysis of that trajectory ends normally, with one row: no
    error reports that the trajectory is shorter than the horizon. *)
Lemma C9_counterexample :
  rows_written
    (AnalyzeStrat (solver18 exp_approx (mkDPState 0 85 0) 18 regen_ex enjoy_ex)
       short_trajectory no_caches) = Some 1%nat.
Proof. vm_compute. reflexivity. Qed.

(** ** Monotonicity in the resource *)

(** The strategies under which more resource is never worse:
    regeneration gives no negative gain, enjoyment does not decrease
    with the investment or with the resource, and degeneration and
    harvest do not decrease with the resource. *)
Definition monotone_strategies (self : Strategies) : Prop :=
  (forall i, 0 <= i -> 0 <= regenStrat self i) /\
  (forall i i' h h', 0 <= i <= i' -> 0 <= h <= h' ->
     (enjoymentStrat self i h <= enjoymentStrat self i' h')%Q) /\
  (forall h h' r, h <= h' -> degenStrat self h r <= degenStrat self h' r) /\
  (forall h h', h <= h' -> harvestStrat self h <= harvestStrat self h').

(** [s'] has the period of [s], and at least its resource and currency. *)
Definition dominated (s s' : DPState) : Prop :=
  period s = period s' /\ health s <= health s' /\ cash s <= cash s'.

Lemma det_value_nonneg (n : nat) (self : HDP.t) (s : DPState) :
  (0 <= item1 (det_value n self s))%Q.
Proof.
  destruct n as [|n]; simpl; destruct (terminal _ _); try apply Qle_refl.
  apply (pick_total_init _ item1 Triple item1_Triple _ Initial).
Qed.

Lemma Transition_dominated (self : Strategies) (s s' : DPState) :
  monotone_strategies self -> dominated s s' ->
  dominated (Transition self s) (Transition self s').
Proof.
  intros (_ & _ & Hd & Hh) (Hp & Hhe & Hc). unfold dominated. simpl.
  rewrite Hp. split; [reflexivity|]. split.
  - apply Hd, Hhe.
  - specialize (Hh _ _ Hhe). lia.
Qed.

(** Every candidate of a state has a counterpart among the candidates
    of a dominating state: the same resource-expenditure and banked
    remainder, the extra currency being consumed. *)
Lemma candidate_dominated (self : Strategies) (s s' : DPState) (c : DPState * Q) :
  monotone_strategies self -> dominated s s' -> 0 < health s ->
  c ∈ candidates self s ->
  exists c', c' ∈ candidates self s' /\ dominated c.1 c'.1 /\ (c.2 <= c'.2)%Q.
Proof.
  intros (Hr & He & _ & _) (Hp & Hhe & Hc) Hpos Hin.
  apply allStateEnjoyments_sound in Hin as (i & Hi & ->).
  rewrite potentialStates_plateau in Hi.
  apply elem_of_plateau_pruned in Hi as (H1 & H2 & H3 & H4 & H5).
  set (i' := mkInvestment (healthExpenditure i)
               (lifeExpenditure i + (cash s' - cash s)) (cashRemaining i)).
  assert (Hi' : i' ∈ potentialStates self (cash s')).
  { rewrite potentialStates_plateau. apply elem_of_plateau_pruned.
    unfold i'. simpl. repeat split; try assumption; lia. }
  destruct (allStateEnjoyments_complete self s' _ i' Hi') as (c' & Hc' & Heq).
  apply pair_eqb_spec in Heq as [Heq1 Heq2].
  exists c'. split; [exact Hc'|]. rewrite <- Heq1, <- Heq2.
  unfold Invest, i', dominated. simpl.
  specialize (Hr _ (proj1 H1)).
  split; [split; [exact Hp | split; lia]|].
  apply He; lia.
Qed.

Lemma det_value_mono (n : nat) (self : HDP.t) :
  monotone_strategies self ->
  forall s s', dominated s s' ->
    (item1 (det_value n self s) <= item1 (det_value n self s'))%Q.
Proof.
  intros Hmono. induction n as [|n IH]; intros s s' Hdom;
    pose proof (Transition_dominated self s s' Hmono Hdom) as (Hp & Hh & Hc).
  - simpl. destruct (terminal _ (Transition self s)), (terminal _ (Transition self s'));
      apply Qle_refl.
  - pose proof (det_value_nonneg (Datatypes.S n) self s') as Hnn.
    simpl in Hnn |- *.
    destruct (terminal (numRounds self) (Transition self s)) eqn:E; [exact Hnn|].
    apply terminal_false in E as [E1 E2].
    rewrite (proj2 (terminal_false _ _)) by (split; lia).
    set (fut := fun state => item1 (det_value n self state)).
    destruct (pick_total_cases fut item1 Triple item1_Triple
                (candidates self (Transition self s)) Initial)
      as [-> | (c & Hc0 & ->)].
    + apply (pick_total_init _ item1 Triple item1_Triple).
    + destruct (candidate_dominated self _ _ c Hmono (conj Hp (conj Hh Hc)) E2 Hc0)
        as (c' & Hc' & Hdom' & Hle).
      apply Qle_trans with (total_of fut c').
      * unfold total_of, fut. apply Qplus_le_compat; [exact Hle | apply IH, Hdom'].
      * apply (pick_total_ge _ item1 Triple item1_Triple), Hc'.
Qed.

(** C5, as the code allows it.  Under strategies that are monotone
    ([monotone_strategies]: no negative regeneration, enjoyment not
    decreasing in investment and resource, degeneration and harvest not
    decreasing in resource), of two states that differ in the resource
    only, [Solve] of Healthcare_DP.py returns from the one with the
    greater resource a total value at least that from the other. *)
Theorem C5_more_resource_no_less_value (self : HDP.t) (s s' : DPState)
  (σ σ' : Caches SolveResult) :
  (forall i, 0 <= i -> 0 <= regenStrat self i) ->
  (forall i i' h h', 0 <= i <= i' -> 0 <= h <= h' ->
     (enjoymentStrat self i h <= enjoymentStrat self i' h')%Q) ->
  (forall h h' r, h <= h' -> degenStrat self h r <= degenStrat self h' r) ->
  (forall h h', h <= h' -> harvestStrat self h <= harvestStrat self h') ->
  det_caches_ok self σ ->
  det_caches_ok self σ' ->
  period s = period s' -> cash s = cash s' -> health s < health s' ->
  exists res res' σ1 σ1',
    Solve self s σ = Some (res, σ1) /\
    Solve self s' σ' = Some (res', σ1') /\
    (item1 res <= item1 res')%Q.
Proof.
  intros H1 H2 H3 H4 Hok Hok' Hp Hc Hh.
  destruct (det_Solve_correct self s σ Hok) as (σ1 & HS & _).
  destruct (det_Solve_correct self s' σ' Hok') as (σ1' & HS' & _).
  exists (det_optimum self s), (det_optimum self s'), σ1, σ1'.
  split; [exact HS|]. split; [exact HS'|].
  unfold det_optimum, rounds_left. rewrite <- Hp.
  apply det_value_mono.
  - repeat split; assumption.
  - unfold dominated. lia.
Qed.

(** The strategy classes and the monotone strategies. *)
Lemma py_round_mono (x y : Q) : (x <= y)%Q -> py_round x <= py_round y.
Proof.
  intros H. pose proof (Qfloor_resp_le _ _ H) as Hf.
  destruct (Z.eq_dec (Qfloor x) (Qfloor y)) as [E | E].
  - unfold py_round. rewrite E.
    destruct (Qcompare_spec (x - inject_Z (Qfloor y)) (1 # 2)),
             (Qcompare_spec (y - inject_Z (Qfloor y)) (1 # 2));
      try destruct (Z.even (Qfloor y)); try lia; exfalso; lra.
  - destruct (py_round_cases x) as [-> | ->], (py_round_cases y) as [-> | ->]; lia.
Qed.

Lemma HealthDegeneration_mono (self : DegenerationStrategy.t) (h h' r : Z) :
  h <= h' ->
  DegenerationStrategy.HealthDegeneration self h r
  <= DegenerationStrategy.HealthDegeneration self h' r.
Proof.
  intros H. unfold DegenerationStrategy.HealthDegeneration.
  destruct (r <=? DegenerationStrategy.horizon self); lia.
Qed.

Lemma HarvestAmount_mono (self : HarvestStrategy.t) (h h' : Z) :
  (0 <= HarvestStrategy.maxHarvest self)%Q -> h <= h' ->
  HarvestStrategy.HarvestAmount self h <= HarvestStrategy.HarvestAmount self h'.
Proof.
  intros Hm H. unfold HarvestStrategy.HarvestAmount. apply py_round_mono.
  rewrite Zle_Qle in H. unfold Qdiv.
  apply Qmult_le_compat_r; [|discriminate].
  rewrite (Qmult_comm _ (inject_Z h)), (Qmult_comm _ (inject_Z h')).
  apply Qmult_le_compat_r; [exact H | exact Hm].
Qed.

(** The enjoyment class of HealthcareDP_NewDegen.py, with a positive
    half-saturation constant [j]: total, and monotone. *)
Definition hyperbolic_enjoyment (j : Q) (investment currentHealth : Z) : Q :=
  res_get 0%Q (NewDegen.LifeEnjoymentStrategy.LifeEnjoyment
                 {| NewDegen.LifeEnjoymentStrategy.j := j |}
                 investment currentHealth).

Lemma hyperbolic_enjoyment_pos (j : Q) (i h : Z) :
  (0 < j)%Q -> 0 < i ->
  hyperbolic_enjoyment j i h
  = (inject_Z h * (inject_Z i / (inject_Z i + j)))%Q.
Proof.
  intros Hj Hi. unfold hyperbolic_enjoyment, NewDegen.LifeEnjoymentStrategy.LifeEnjoyment.
  rewrite (proj2 (Z.leb_gt _ _) Hi). unfold NewDegen.py_div. simpl.
  assert (Hq : (0 < inject_Z i)%Q).
  { change 0%Q with (inject_Z 0). rewrite <- Zlt_Qlt. exact Hi. }
  destruct (Qeq_bool (inject_Z i + j) 0) eqn:E; [|reflexivity].
  apply Qeq_bool_iff in E. exfalso. lra.
Qed.

Lemma hyperbolic_enjoyment_mono (j : Q) (i i' h h' : Z) :
  (0 < j)%Q -> 0 <= i <= i' -> 0 <= h <= h' ->
  (hyperbolic_enjoyment j i h <= hyperbolic_enjoyment j i' h')%Q.
Proof.
  intros Hj Hi Hh.
  assert (Hh0 : (0 <= inject_Z h)%Q).
  { change 0%Q with (inject_Z 0). rewrite <- Zle_Qle. lia. }
  assert (Hhh : (inject_Z h <= inject_Z h')%Q) by (rewrite <- Zle_Qle; lia).
  assert (Hratio : forall a, 0 < a -> (0 <= inject_Z a / (inject_Z a + j))%Q).
  { intros a Ha.
    assert (Hq : (0 < inject_Z a)%Q).
    { change 0%Q with (inject_Z 0). rewrite <- Zlt_Qlt. exact Ha. }
    apply Qle_shift_div_l; lra. }
  destruct (Z.eq_dec i 0) as [-> | Hi0].
  - replace (hyperbolic_enjoyment j 0 h) with 0%Q by reflexivity.
    destruct (Z.eq_dec i' 0) as [-> | Hi0']; [apply Qle_refl|].
    rewrite hyperbolic_enjoyment_pos by (assumption || lia).
    apply Qmult_le_0_compat; [lra | apply Hratio; lia].
  - rewrite !hyperbolic_enjoyment_pos by (assumption || lia).
    assert (Hq : (0 < inject_Z i)%Q).
    { change 0%Q with (inject_Z 0). rewrite <- Zlt_Qlt. lia. }
    assert (Hqq : (inject_Z i <= inject_Z i')%Q) by (rewrite <- Zle_Qle; lia).
    apply Qmult_le_compat_nonneg; split; try assumption; [apply Hratio; lia|].
    apply Qle_shift_div_l; [lra|].
    apply Qle_trans
      with ((inject_Z i * (inject_Z i' + j)) / (inject_Z i + j))%Q.
    + apply Qle_lteq. right. field. lra.
    + apply Qle_shift_div_r; [lra|]. nra.
Qed.

(** A solver of Healthcare_DP.py with monotone strategies: the
    degeneration and harvest of [main], no regeneration (gamma = 0) and
    the hyperbolic enjoyment with j = 50. *)
Definition solver_monotone : HDP.t :=
  {| start := mkDPState 0 85 0;
     numRounds := 18;
     strategies :=
       {| regenStrat := fun investment =>
            res_get 0 (RegenerationStrategy.HealthRegained exp_approx
                         {| RegenerationStrategy.gamma := 0;
                            RegenerationStrategy.sigma := 1 # 10;
                            RegenerationStrategy.r := 20 |} investment);
          enjoymentStrat := hyperbolic_enjoyment 50;
          degenStrat := DegenerationStrategy.HealthDegeneration degenStrat18;
          harvestStrat := HarvestStrategy.HarvestAmount harvestStrat18 |} |}.

Lemma C5_more_resource_no_less_value_witness :
  exists res res' σ1 σ1',
    Solve solver_monotone (mkDPState 17 30 0) no_caches = Some (res, σ1) /\
    Solve solver_monotone (mkDPState 17 40 0) no_caches = Some (res', σ1') /\
    (item1 res <= item1 res')%Q.
Proof.
  apply (C5_more_resource_no_less_value solver_monotone
           (mkDPState 17 30 0) (mkDPState 17 40 0) no_caches no_caches).
  - intros i _. simpl. unfold RegenerationStrategy.HealthRegained.
    destruct (math_exp exp_approx _) as [e1|]; simpl; [|lia].
    destruct (math_exp exp_approx _) as [e2|]; simpl; [|lia].
    rewrite py_int_zero; [lia | ring].
  - intros i i' h h'. apply hyperbolic_enjoyment_mono. reflexivity.
  - intros h h' r. apply HealthDegeneration_mono.
  - intros h h'. apply HarvestAmount_mono. discriminate.
  - apply det_caches_ok_empty.
  - apply det_caches_ok_empty.
  - reflexivity.
  - reflexivity.
  - simpl. lia.
Defined.

(** A parameter file with a negative weight of the health component
    (beta = -1, with mu = 1, alpha = 1/10, c = 100): under the
    degeneration and harvest of [main], the state (17, 30, 0) is worth
    strictly more than the state (17, 40, 0), which differs from it by a
    greater resource only. *)
Definition solver_negative_beta : HDP.t :=
  solver18 exp_approx (mkDPState 0 85 0) 18 regen_ex
    {| LifeEnjoymentStrategy.alpha := 1 # 10;
       LifeEnjoymentStrategy.beta := -1;
       LifeEnjoymentStrategy.mu := 1;
       LifeEnjoymentStrategy.c := 100 |}.

Definition returned_total (x : option (SolveResult * Caches SolveResult)) : Q :=
  match x with
  | Some (res, _) => item1 res
  | None => 0
  end.

Lemma C5_counterexample :
  Qltb (returned_total (Solve solver_negative_beta (mkDPState 17 40 0) no_caches))
       (returned_total (Solve solver_negative_beta (mkDPState 17 30 0) no_caches))
  = true /\
  py_round1 (returned_total (Solve solver_negative_beta (mkDPState 17 30 0) no_caches))
  = (618 # 10)%Q /\
  py_round1 (returned_total (Solve solver_negative_beta (mkDPState 17 40 0) no_caches))
  = (612 # 10)%Q.
Proof. vm_compute. repeat split; reflexivity. Qed.

(** * Further properties of the solvers *)

(** ** Memoization *)

(** X1.  [Solve] of Healthcare_DP.py is memoized without changing what it
    returns: a second call on the same state returns the same result
    and leaves both dictionaries as they are (on a state whose
    transition is not terminal it is answered from [self.cache]), and
    the result is the same from any other state of the dictionaries that
    [Solve] has filled. *)
Theorem Solve_twice_same_result (self : HDP.t) (s : DPState)
  (σ σ0 : Caches SolveResult) :
  det_caches_ok self σ ->
  det_caches_ok self σ0 ->
  exists res σ1 σ2,
    Solve self s σ = Some (res, σ1) /\
    Solve self s σ1 = Some (res, σ1) /\
    Solve self s σ0 = Some (res, σ2) /\
    (terminal (numRounds self) (Transition self s) = false ->
     cache σ1 !! Transition self s = Some res).
Proof.
  intros Hok Hok0.
  destruct (det_Solve_correct self s σ Hok) as (σ1 & HS & Hok1 & Hc).
  destruct (det_Solve_correct self s σ0 Hok0) as (σ2 & HS0 & _).
  exists (det_optimum self s), σ1, σ2.
  split; [exact HS|]. split; [|split; [exact HS0 | exact Hc]].
  unfold Solve, enough_fuel in *. rewrite det_Solve_rec_S in *. cbv zeta in *.
  destruct (terminal (numRounds self) (Transition self s)).
  - injection HS as HS1 HS2. subst σ1. rewrite <- HS1. reflexivity.
  - rewrite (Hc eq_refl). reflexivity.
Qed.

Lemma Solve_twice_same_result_witness :
  let self := solver18 exp_approx (mkDPState 0 85 0) 18 regen_ex enjoy_ex in
  exists res σ1 σ2,
    Solve self (mkDPState 17 30 0) no_caches = Some (res, σ1) /\
    Solve self (mkDPState 17 30 0) σ1 = Some (res, σ1) /\
    Solve self (mkDPState 17 30 0) no_caches = Some (res, σ2) /\
    (terminal (numRounds self) (Transition self (mkDPState 17 30 0)) = false ->
     cache σ1 !! Transition self (mkDPState 17 30 0) = Some res).
Proof.
  intros self.
  apply (Solve_twice_same_result self (mkDPState 17 30 0) no_caches no_caches);
    apply det_caches_ok_empty.
Defined.

(** X2.  [Solve] of HealthcareDP_Stoch.py is memoized without changing
    what it returns: a second call on the same state returns the same
    result and leaves both dictionaries as they are (on a state whose
    transition is not terminal it is answered from [self.cache], which
    holds the whole triple of the two branches and their expectation),
    and the result is the same from any other state of the dictionaries
    that [Solve] has filled. *)
Theorem stochastic_Solve_twice_same_result (self : SDP.t) (s : DPState)
  (σ σ0 : Caches Stoch.SolveResult) :
  st_caches_ok self σ ->
  st_caches_ok self σ0 ->
  exists res σ1 σ2,
    SDP.Solve self s σ = Some (res, σ1) /\
    SDP.Solve self s σ1 = Some (res, σ1) /\
    SDP.Solve self s σ0 = Some (res, σ2) /\
    (terminal (SDP.numRounds self) (Transition self s) = false ->
     cache σ1 !! Transition self s = Some res).
Proof.
  intros Hok Hok0.
  destruct (st_Solve_correct self s σ Hok) as (σ1 & HS & Hok1 & Hc).
  destruct (st_Solve_correct self s σ0 Hok0) as (σ2 & HS0 & _).
  exists (st_optimum self s), σ1, σ2.
  split; [exact HS|]. split; [|split; [exact HS0 | exact Hc]].
  unfold SDP.Solve, enough_fuel in *. rewrite st_Solve_rec_S in *. cbv zeta in *.
  destruct (terminal (SDP.numRounds self) (Transition self s)).
  - injection HS as HS1 HS2. subst σ1. rewrite <- HS1. reflexivity.
  - rewrite (Hc eq_refl). reflexivity.
Qed.

Lemma stochastic_Solve_twice_same_result_witness :
  let self :=
    with_shocks (solver18 exp_approx (mkDPState 0 85 0) 18 regen_ex enjoy_ex)
      (1 # 5) 50 in
  exists res σ1 σ2,
    SDP.Solve self (mkDPState 17 30 0) no_caches = Some (res, σ1) /\
    SDP.Solve self (mkDPState 17 30 0) σ1 = Some (res, σ1) /\
    SDP.Solve self (mkDPState 17 30 0) no_caches = Some (res, σ2) /\
    (terminal (SDP.numRounds self) (Transition self (mkDPState 17 30 0)) = false ->
     cache σ1 !! Transition self (mkDPState 17 30 0) = Some res).
Proof.
  intros self.
  apply (stochastic_Solve_twice_same_result self (mkDPState 17 30 0)
           no_caches no_caches); apply st_caches_ok_empty.
Defined.

(** X3.  [Solve] of HealthcareDP_NewDegen.py is memoized without
    changing what it returns: a second call on the same state returns
    the same result and leaves both dictionaries as they are, a state
    whose transition is not terminal being answered from [self.cache];
    and the result is the same from any other state of the dictionaries
    that [Solve] has filled. *)
Theorem banked_Solve_twice_same_result (self : NDP.t) (s : DPState)
  (σ σ0 : Caches NewDegen.SolveResult) :
  nd_caches_ok self σ ->
  nd_caches_ok self σ0 ->
  exists res σ1 σ2,
    NDP.Solve self s σ = Some (res, σ1) /\
    NDP.Solve self s σ1 = Some (res, σ1) /\
    NDP.Solve self s σ0 = Some (res, σ2) /\
    (terminal (NDP.numRounds self) (NDP.Transition self s) = false ->
     cache σ1 !! NDP.Transition self s = Some res).
Proof.
  intros Hok Hok0.
  destruct (nd_Solve_correct self s σ Hok) as (σ1 & HS & Hok1 & Hc).
  destruct (nd_Solve_correct self s σ0 Hok0) as (σ2 & HS0 & _).
  exists (nd_optimum self s), σ1, σ2.
  split; [exact HS|]. split; [|split; [exact HS0 | exact Hc]].
  unfold NDP.Solve, enough_fuel in *. rewrite nd_Solve_rec_S in *. cbv zeta in *.
  destruct (terminal (NDP.numRounds self) (NDP.Transition self s)).
  - injection HS as HS1 HS2. subst σ1. rewrite <- HS1. reflexivity.
  - rewrite (Hc eq_refl). reflexivity.
Qed.

Lemma banked_Solve_twice_same_result_witness :
  let self := nd_solver (mkDPState 0 85 0) 18 in
  exists res σ1 σ2,
    NDP.Solve self (mkDPState 17 30 0) no_caches = Some (res, σ1) /\
    NDP.Solve self (mkDPState 17 30 0) σ1 = Some (res, σ1) /\
    NDP.Solve self (mkDPState 17 30 0) no_caches = Some (res, σ2) /\
    (terminal (NDP.numRounds self) (NDP.Transition self (mkDPState 17 30 0)) = false ->
     cache σ1 !! NDP.Transition self (mkDPState 17 30 0) = Some res).
Proof.
  intros self.
  apply (banked_Solve_twice_same_result self (mkDPState 17 30 0)
           no_caches no_caches); apply nd_caches_ok_empty.
Defined.

(** ** The dictionaries only grow *)

(** Every entry of [σ] is an entry of [σ'], in both dictionaries. *)
Definition caches_incl {R} (σ σ' : Caches R) : Prop :=
  cache σ ⊆ cache σ' /\ EnumCache σ ⊆ EnumCache σ'.

Lemma caches_incl_refl {R} (σ : Caches R) : caches_incl σ σ.
Proof. split; reflexivity. Qed.

Lemma caches_incl_trans {R} (σ1 σ2 σ3 : Caches R) :
  caches_incl σ1 σ2 -> caches_incl σ2 σ3 -> caches_incl σ1 σ3.
Proof. intros [H1 H2] [H3 H4]. split; etransitivity; eassumption. Qed.

Lemma InvestmentEnum_incl {R} (self : Strategies) (cash : Z) (σ : Caches R) :
  caches_incl σ (InvestmentEnum self cash σ).2.
Proof.
  unfold InvestmentEnum.
  destruct (EnumCache σ !! cash) eqn:E; simpl; [apply caches_incl_refl|].
  split; simpl; [reflexivity|]. apply insert_subseteq, E.
Qed.

Lemma StateEnum_incl {R} (self : Strategies) (state : DPState) (σ : Caches R) :
  caches_incl σ (StateEnum self state σ).2.
Proof.
  unfold StateEnum.
  pose proof (InvestmentEnum_incl self (cash state) σ) as H.
  destruct (InvestmentEnum self (cash state) σ). exact H.
Qed.

Lemma candidate_loop_incl {R B} (future : DPState -> Caches R -> option (Q * Caches R))
  (total : B -> Q) mk (l : list (DPState * Q)) :
  (forall state σ fut σ', future state σ = Some (fut, σ') -> caches_incl σ σ') ->
  forall best σ res σ',
    candidate_loop future total mk l best σ = Some (res, σ') -> caches_incl σ σ'.
Proof.
  intros Hfut. induction l as [|[state enjoyment] l IH]; intros best σ res σ'; simpl.
  - intros [= _ <-]. apply caches_incl_refl.
  - destruct (future state σ) as [[fut σ1]|] eqn:E; [|discriminate].
    intros H. apply IH in H. apply Hfut in E.
    eapply caches_incl_trans; eassumption.
Qed.

Lemma store_incl {R} (σ σ2 : Caches R) (newState : DPState) (res : R) :
  cache σ !! newState = None -> caches_incl σ σ2 ->
  caches_incl σ (mkCaches (<[newState := res]> (cache σ2)) (EnumCache σ2)).
Proof.
  intros Hnone [H1 H2]. split; simpl; [|exact H2].
  apply map_subseteq_spec. intros k v Hk.
  rewrite lookup_insert. case_decide as Hkn.
  - subst k. congruence.
  - rewrite map_subseteq_spec in H1. apply H1, Hk.
Qed.

Lemma det_Solve_rec_incl (self : HDP.t) (fuel : nat) :
  forall s σ res σ', Solve_rec fuel self s σ = Some (res, σ') -> caches_incl σ σ'.
Proof.
  induction fuel as [|fuel IH]; intros s σ res σ'; [discriminate|].
  rewrite det_Solve_rec_S. cbv zeta.
  destruct (terminal _ _); [intros [= _ <-]; apply caches_incl_refl|].
  destruct (cache σ !! Transition self s) eqn:Ec;
    [intros [= _ <-]; apply caches_incl_refl|].
  pose proof (StateEnum_incl self (Transition self s) σ) as H1.
  destruct (StateEnum self (Transition self s) σ) as [l σ1]. simpl in H1.
  destruct (candidate_loop _ item1 Triple l Initial σ1) as [[hr σ2]|] eqn:El;
    [|discriminate].
  intros [= _ <-]. apply store_incl; [exact Ec|].
  eapply caches_incl_trans; [exact H1|].
  revert El. apply candidate_loop_incl.
  intros state σ0 fut σ0'. destruct (Solve_rec fuel self state σ0) as [[r σr]|] eqn:E;
    [|discriminate].
  intros [= _ <-]. eapply IH, E.
Qed.

Lemma st_Solve_rec_incl (self : SDP.t) (fuel : nat) :
  forall s σ res σ', SDP.Solve_rec fuel self s σ = Some (res, σ') -> caches_incl σ σ'.
Proof.
  induction fuel as [|fuel IH]; intros s σ res σ'; [discriminate|].
  rewrite st_Solve_rec_S. cbv zeta.
  destruct (terminal _ _); [intros [= _ <-]; apply caches_incl_refl|].
  destruct (cache σ !! Transition self s) eqn:Ec;
    [intros [= _ <-]; apply caches_incl_refl|].
  pose proof (StateEnum_incl self (Transition self s) σ) as H1.
  destruct (StateEnum self (Transition self s) σ) as [l σ1]. simpl in H1.
  pose proof (StateEnum_incl self (SDP.hitState self (Transition self s)) σ1) as H2.
  destruct (StateEnum self (SDP.hitState self (Transition self s)) σ1) as [lh σ2].
  simpl in H2.
  assert (Hfut : forall state σ0 fut σ0',
            match SDP.Solve_rec fuel self state σ0 with
            | Some (res, σ') => Some (Stoch.item2 res, σ')
            | None => None
            end = Some (fut, σ0') -> caches_incl σ0 σ0').
  { intros state σ0 fut σ0'.
    destruct (SDP.Solve_rec fuel self state σ0) as [[r σr]|] eqn:E; [|discriminate].
    intros [= _ <-]. eapply IH, E. }
  destruct (candidate_loop _ Stoch.branch1 Stoch.Best l st_initial σ2)
    as [[hr σ3]|] eqn:El; [|discriminate].
  destruct (candidate_loop _ Stoch.branch1 Stoch.Best lh st_initial σ3)
    as [[hh σ4]|] eqn:Elh; [|discriminate].
  intros [= _ <-]. apply store_incl; [exact Ec|].
  apply (candidate_loop_incl _ _ _ _ Hfut) in El, Elh.
  eapply caches_incl_trans; [exact H1|].
  eapply caches_incl_trans; [exact H2|].
  eapply caches_incl_trans; eassumption.
Qed.

(** [Solve] returns from any state of the dictionaries: the fuel
    [enough_fuel] suffices whatever they hold. *)
Lemma candidate_loop_total {St B} (future : DPState -> St -> option (Q * St))
  (total : B -> Q) mk (l : list (DPState * Q)) :
  (forall c σ, c ∈ l -> exists fut σ', future c.1 σ = Some (fut, σ')) ->
  forall best σ, exists res σ', candidate_loop future total mk l best σ = Some (res, σ').
Proof.
  induction l as [|[state enjoyment] l IH]; intros Hfut best σ; simpl.
  - eexists _, _. reflexivity.
  - destruct (Hfut (state, enjoyment) σ) as (fut & σ1 & E); [left|].
    simpl in E. rewrite E. apply IH.
    intros c σ0 Hc. apply Hfut. right. exact Hc.
Qed.

Lemma StateEnum_period {R} (self : Strategies) (state : DPState) (σ : Caches R)
  (c : DPState * Q) :
  c ∈ (StateEnum self state σ).1 -> period c.1 = period state.
Proof.
  unfold StateEnum. destruct (InvestmentEnum self (cash state) σ) as [l σ']. simpl.
  intros H. apply allStateEnjoyments_sound in H as (i & _ & ->). reflexivity.
Qed.

Lemma det_Solve_rec_total (self : HDP.t) (f : nat) :
  forall s σ, (rounds_left (numRounds self) s <= f)%nat ->
    exists res σ', Solve_rec (Datatypes.S f) self s σ = Some (res, σ').
Proof.
  induction f as [|f IH]; intros s σ Hf; rewrite det_Solve_rec_S; cbv zeta;
    destruct (terminal (numRounds self) (Transition self s)) eqn:E;
    try (eexists _, _; reflexivity).
  - apply terminal_false in E. simpl in E. unfold rounds_left in Hf. lia.
  - destruct (cache σ !! Transition self s); [eexists _, _; reflexivity|].
    pose proof (StateEnum_period self (Transition self s) σ) as Hp.
    destruct (StateEnum self (Transition self s) σ) as [l σ1]. simpl in Hp.
    destruct (candidate_loop_total
                (fun state σ =>
                   match Solve_rec (Datatypes.S f) self state σ with
                   | Some (res, σ') => Some (item1 res, σ')
                   | None => None
                   end) item1 Triple l) with (best := Initial) (σ := σ1)
      as (hr & σ2 & ->); [|eexists _, _; reflexivity].
    intros c σ0 Hc. destruct (IH c.1 σ0) as (r & σr & ->).
    + apply Hp in Hc. apply terminal_false in E. simpl in *.
      unfold rounds_left in *. lia.
    + eexists _, _. reflexivity.
Qed.

Lemma st_Solve_rec_total (self : SDP.t) (f : nat) :
  forall s σ, (rounds_left (SDP.numRounds self) s <= f)%nat ->
    exists res σ', SDP.Solve_rec (Datatypes.S f) self s σ = Some (res, σ').
Proof.
  induction f as [|f IH]; intros s σ Hf; rewrite st_Solve_rec_S; cbv zeta;
    destruct (terminal (SDP.numRounds self) (Transition self s)) eqn:E;
    try (eexists _, _; reflexivity).
  - apply terminal_false in E. simpl in E. unfold rounds_left in Hf. lia.
  - destruct (cache σ !! Transition self s); [eexists _, _; reflexivity|].
    pose proof (StateEnum_period self (Transition self s) σ) as Hp.
    destruct (StateEnum self (Transition self s) σ) as [l σ1]. simpl in Hp.
    pose proof (StateEnum_period self (SDP.hitState self (Transition self s)) σ1) as Hq.
    destruct (StateEnum self (SDP.hitState self (Transition self s)) σ1) as [lh σ2].
    simpl in Hq.
    set (future := fun state σ =>
           match SDP.Solve_rec (Datatypes.S f) self state σ with
           | Some (res, σ') => Some (Stoch.item2 res, σ')
           | None => None
           end).
    assert (Hfut : forall (c : DPState * Q) σ0, period c.1 = period s + 1 ->
              exists fut σ', future c.1 σ0 = Some (fut, σ')).
    { intros c σ0 Hc. unfold future. destruct (IH c.1 σ0) as (r & σr & ->).
      - apply terminal_false in E. simpl in *. unfold rounds_left in *. lia.
      - eexists _, _. reflexivity. }
    destruct (candidate_loop_total future Stoch.branch1 Stoch.Best l)
      with (best := st_initial) (σ := σ2) as (hr & σ3 & ->).
    { intros c σ0 Hc. apply Hfut. apply Hp in Hc. exact Hc. }
    destruct (candidate_loop_total future Stoch.branch1 Stoch.Best lh)
      with (best := st_initial) (σ := σ3) as (hh & σ4 & ->).
    { intros c σ0 Hc. apply Hfut. apply Hq in Hc. exact Hc. }
    eexists _, _. reflexivity.
Qed.

(** X4.  The caches are append-only.  From any content of the dictionaries,
    [Solve] of Healthcare_DP.py and of HealthcareDP_Stoch.py returns,
    and every entry that [self.cache] and [self.EnumCache] held before
    the call is still there, with the same value, after it: no call
    overwrites or removes an entry. *)
Theorem Solve_keeps_cached_entries (d : HDP.t) (st : SDP.t) (s : DPState)
  (σ : Caches SolveResult) (σs : Caches Stoch.SolveResult) :
  (exists res σ',
     Solve d s σ = Some (res, σ') /\
     cache σ ⊆ cache σ' /\ EnumCache σ ⊆ EnumCache σ') /\
  (exists res σ',
     SDP.Solve st s σs = Some (res, σ') /\
     cache σs ⊆ cache σ' /\ EnumCache σs ⊆ EnumCache σ').
Proof.
  split.
  - destruct (det_Solve_rec_total d (rounds_left (numRounds d) s) s σ)
      as (res & σ' & E); [lia|].
    exists res, σ'. split; [exact E|]. apply (det_Solve_rec_incl d _ s σ res σ' E).
  - destruct (st_Solve_rec_total st (rounds_left (SDP.numRounds st) s) s σs)
      as (res & σ' & E); [lia|].
    exists res, σ'. split; [exact E|]. apply (st_Solve_rec_incl st _ s σs res σ' E).
Qed.

(** ** What [Solve] computes *)

(** X5.  The total value that [Solve] of Healthcare_DP.py returns on a state
    whose transition is not terminal is the greatest of 0 and the
    candidates' totals (utility plus the future value of the candidate's
    state): it is not negative, no candidate's total exceeds it, and it
    is 0 or the total of a candidate.  This holds whatever the strategy
    functions are, negative utilities included. *)
Theorem Solve_total_is_greatest (self : HDP.t) (s : DPState)
  (σ : Caches SolveResult) :
  det_caches_ok self σ ->
  terminal (numRounds self) (Transition self s) = false ->
  exists res σ',
    Solve self s σ = Some (res, σ') /\
    (0 <= item1 res)%Q /\
    (forall c, c ∈ candidates self (Transition self s) ->
       (c.2 + det_future self c.1 <= item1 res)%Q) /\
    (item1 res = 0%Q \/
     exists c, c ∈ candidates self (Transition self s) /\
               item1 res = (c.2 + det_future self c.1)%Q).
Proof.
  intros Hok Ht.
  destruct (det_Solve_correct self s σ Hok) as (σ' & HS & _).
  exists (det_optimum self s), σ'. split; [exact HS|].
  rewrite det_optimum_eq, Ht. unfold det_best. split; [|split].
  - apply (pick_total_init _ item1 Triple item1_Triple _ Initial).
  - intros c Hc. apply (pick_total_ge _ item1 Triple item1_Triple _ Initial c Hc).
  - destruct (pick_total_cases (det_future self) item1 Triple item1_Triple
                (candidates self (Transition self s)) Initial) as [H | H].
    + left. exact H.
    + right. exact H.
Qed.

Lemma Solve_total_is_greatest_witness :
  let self := solver18 exp_approx (mkDPState 0 85 0) 18 regen_ex enjoy_ex in
  let s := mkDPState 17 30 0 in
  exists res σ',
    Solve self s no_caches = Some (res, σ') /\
    (0 <= item1 res)%Q /\
    (forall c, c ∈ candidates self (Transition self s) ->
       (c.2 + det_future self c.1 <= item1 res)%Q) /\
    (item1 res = 0%Q \/
     exists c, c ∈ candidates self (Transition self s) /\
               item1 res = (c.2 + det_future self c.1)%Q).
Proof.
  intros self s.
  apply (Solve_total_is_greatest self s no_caches (det_caches_ok_empty self)).
  vm_compute. reflexivity.
Defined.

(** ** The blended expectation *)

Lemma st_branch_nonneg (self : SDP.t) (state : DPState) :
  (0 <= Stoch.branch1 (st_branch self state))%Q.
Proof.
  apply (Qle_trans _ (Stoch.branch1 st_initial)); [discriminate|].
  apply (pick_total_init _ Stoch.branch1 Stoch.Best branch1_Best).
Qed.

(** X6.  With a shock probability between 0 and 1, no component of what
    [Solve] of HealthcareDP_Stoch.py returns on a state whose
    transition is not terminal is negative, whatever the utilities,
    negative ones included: the total of the normal branch, the total
    of the hit branch (each starts from the 0 of the initial
    [DPState(0, 0, -1)] and is replaced by greater totals only) and the
    expectation, a sum of two products of non-negative numbers. *)
Theorem expected_value_never_negative (self : SDP.t) (s : DPState)
  (σ : Caches Stoch.SolveResult) :
  st_caches_ok self σ ->
  (0 <= SDP.stochHitChance self <= 1)%Q ->
  terminal (SDP.numRounds self) (Transition self s) = false ->
  exists highestReturn hitStateHighestReturn expected_value σ',
    SDP.Solve self s σ
    = Some (Stoch.Both highestReturn hitStateHighestReturn expected_value, σ') /\
    (0 <= Stoch.branch1 highestReturn)%Q /\
    (0 <= Stoch.branch1 hitStateHighestReturn)%Q /\
    (0 <= expected_value)%Q.
Proof.
  intros Hok Hp Ht.
  destruct (st_Solve_correct self s σ Hok) as (σ' & HS & _).
  rewrite st_optimum_eq, Ht in HS. unfold st_best in HS.
  eexists _, _, _, σ'. split; [exact HS|].
  pose proof (st_branch_nonneg self (Transition self s)) as Ha.
  pose proof (st_branch_nonneg self (SDP.hitState self (Transition self s))) as Hb.
  split; [exact Ha|]. split; [exact Hb|].
  unfold SDP.expected.
  set (a := Stoch.branch1 (st_branch self (Transition self s))) in *.
  set (b := Stoch.branch1 (st_branch self (SDP.hitState self (Transition self s)))) in *.
  set (p := SDP.stochHitChance self) in *.
  assert (Hpa : (0 <= (1 - p) * a)%Q) by (apply Qmult_le_0_compat; lra).
  assert (Hpb : (0 <= p * b)%Q) by (apply Qmult_le_0_compat; lra).
  lra.
Qed.

Lemma expected_value_never_negative_witness :
  let self :=
    with_shocks (solver18 exp_approx (mkDPState 0 85 0) 18 regen_ex enjoy_ex)
      (1 # 5) 50 in
  exists highestReturn hitStateHighestReturn expected_value σ',
    SDP.Solve self (mkDPState 17 30 0) no_caches
    = Some (Stoch.Both highestReturn hitStateHighestReturn expected_value, σ') /\
    (0 <= Stoch.branch1 highestReturn)%Q /\
    (0 <= Stoch.branch1 hitStateHighestReturn)%Q /\
    (0 <= expected_value)%Q.
Proof.
  intros self.
  apply (expected_value_never_negative self (mkDPState 17 30 0) no_caches
           (st_caches_ok_empty self)).
  - split; discriminate.
  - vm_compute. reflexivity.
Defined.

(** ** The stochastic solver without shocks *)

Lemma Qltb_Qeq (x x' y y' : Q) :
  (x == x')%Q -> (y == y')%Q -> Qltb x y = Qltb x' y'.
Proof. intros Hx Hy. unfold Qltb. rewrite Hx, Hy. reflexivity. Qed.

(** Two loops over the same candidates end with the same total when
    the future values and the initial totals agree. *)
Lemma pick_total_Qeq {B B'} (f g : DPState -> Q)
  (total : B -> Q) (mk : DPState -> Q -> Q -> B)
  (total' : B' -> Q) (mk' : DPState -> Q -> Q -> B')
  (l : list (DPState * Q)) :
  (forall state t i, total (mk state t i) = t) ->
  (forall state t i, total' (mk' state t i) = t) ->
  (forall c, c ∈ l -> (f c.1 == g c.1)%Q) ->
  forall best best', (total best == total' best')%Q ->
    (total (pick f total mk l best) == total' (pick g total' mk' l best'))%Q.
Proof.
  intros Hmk Hmk'. induction l as [|c l IH]; intros Hfg best best' Hb; simpl.
  - exact Hb.
  - assert (Hc : (c.2 + f c.1 == c.2 + g c.1)%Q).
    { rewrite (Hfg c) by left. reflexivity. }
    apply IH; [intros c' Hc'; apply Hfg; right; exact Hc'|].
    unfold better. rewrite (Qltb_Qeq _ _ _ _ Hb Hc).
    destruct (Qltb (total' best') (c.2 + g c.1)).
    + rewrite Hmk, Hmk'. exact Hc.
    + exact Hb.
Qed.

Lemma st_value_no_shock (d : HDP.t) (p : Q) (size : Z) (n : nat) :
  (p == 0)%Q ->
  forall s, (Stoch.item2 (st_value n (with_shocks d p size) s)
             == item1 (det_value n d s))%Q.
Proof.
  intros Hp. induction n as [|n IH]; intros s.
  - cbn [st_value det_value].
    change (Transition (with_shocks d p size) s) with (Transition d s).
    change (SDP.numRounds (with_shocks d p size)) with (numRounds d).
    destruct (terminal (numRounds d) (Transition d s)); reflexivity.
  - cbn [st_value det_value].
    change (Transition (with_shocks d p size) s) with (Transition d s).
    change (SDP.numRounds (with_shocks d p size)) with (numRounds d).
    destruct (terminal (numRounds d) (Transition d s)); [reflexivity|].
    cbn [Stoch.item2]. unfold SDP.expected.
    change (SDP.stochHitChance (with_shocks d p size)) with p.
    set (fut := fun state => Stoch.item2 (st_value n (with_shocks d p size) state)).
    apply (Qeq_trans _
             (Stoch.branch1
                (pick fut Stoch.branch1 Stoch.Best
                   (candidates d (Transition d s)) st_initial))).
    + match goal with
      | |- ((1 - p) * ?a + p * ?b == ?c)%Q => change c with a; generalize a, b
      end.
      intros a b. rewrite Hp. ring.
    + apply pick_total_Qeq.
      * apply branch1_Best.
      * apply item1_Triple.
      * intros c _. apply IH.
      * reflexivity.
Qed.

(** X7.  With shock probability 0, the expectation that [Solve] of
    HealthcareDP_Stoch.py returns (third component) is the total value
    that [Solve] of Healthcare_DP.py returns (second component), on the
    same strategies, horizon and state: the hit branch then has no
    weight. *)
Theorem no_shock_same_value (d : HDP.t) (stochHitChance : Q) (stochHitSize : Z)
  (s : DPState) (σ : Caches SolveResult) (σs : Caches Stoch.SolveResult) :
  (stochHitChance == 0)%Q ->
  det_caches_ok d σ ->
  st_caches_ok (with_shocks d stochHitChance stochHitSize) σs ->
  exists res σ' ress σs',
    Solve d s σ = Some (res, σ') /\
    SDP.Solve (with_shocks d stochHitChance stochHitSize) s σs = Some (ress, σs') /\
    (Stoch.item2 ress == item1 res)%Q.
Proof.
  intros Hp Hok Hoks.
  destruct (det_Solve_correct d s σ Hok) as (σ' & HS & _).
  destruct (st_Solve_correct _ s σs Hoks) as (σs' & HSs & _).
  eexists _, σ', _, σs'. split; [exact HS|]. split; [exact HSs|].
  apply st_value_no_shock, Hp.
Qed.

Lemma no_shock_same_value_witness :
  let d := solver18 exp_approx (mkDPState 0 85 0) 18 regen_ex enjoy_ex in
  exists res σ' ress σs',
    Solve d (mkDPState 17 30 0) no_caches = Some (res, σ') /\
    SDP.Solve (with_shocks d 0 50) (mkDPState 17 30 0) no_caches = Some (ress, σs') /\
    (Stoch.item2 ress == item1 res)%Q.
Proof.
  intros d.
  apply (no_shock_same_value d 0 50 (mkDPState 17 30 0) no_caches no_caches).
  - reflexivity.
  - apply det_caches_ok_empty.
  - apply st_caches_ok_empty.
Defined.

(** ** More on the enumerators *)

Lemma window_last (cash he : Z) :
  0 <= he <= cash -> mkInvestment he (cash - he) 0 ∈ window cash he.
Proof. intros H. apply elem_of_window. simpl. lia. Qed.

(** X8.  In the plateau-pruned enumerator (Healthcare_DP.py,
    HealthcareDP_Stoch.py) the variable [prev] always holds the gain of
    the expenditure examined just before.  So a resource-expenditure
    [he] from 1 to [cash] occurs in the enumeration exactly when its
    gain differs from the gain of [he - 1], and 0 occurs exactly when
    its gain is not -1. *)
Theorem plateau_keeps_changes_of_gain {R} (self : Strategies) (cash he : Z)
  (σ : Caches R) :
  enum_ok self σ ->
  0 <= he <= cash ->
  (exists i, i ∈ (InvestmentEnum self cash σ).1 /\ healthExpenditure i = he) <->
  regenStrat self he <> (if he =? 0 then -1 else regenStrat self (he - 1)).
Proof.
  intros Hok Hhe.
  rewrite (InvestmentEnum_fst self cash σ Hok), potentialStates_plateau.
  assert (Hret : retained self (Z.to_nat he) = true <->
                 regenStrat self he <>
                 (if he =? 0 then -1 else regenStrat self (he - 1))).
  { unfold retained. rewrite negb_true_iff, Z.eqb_neq, Z2Nat.id by lia.
    destruct (Z.to_nat he) as [|n] eqn:En.
    - replace he with 0 by lia. reflexivity.
    - rewrite retained_gain_succ.
      replace (he =? 0) with false by (symmetry; apply Z.eqb_neq; lia).
      replace (Z.of_nat n) with (he - 1) by lia. reflexivity. }
  rewrite <- Hret. split.
  - intros (i & Hi & <-). apply elem_of_plateau_pruned in Hi. tauto.
  - intros H. exists (mkInvestment he (cash - he) 0). split; [|reflexivity].
    apply elem_of_plateau_pruned. simpl. repeat split; try lia. exact H.
Qed.

Lemma plateau_keeps_changes_of_gain_witness :
  let self :=
    {| regenStrat := fun x => x / 2; enjoymentStrat := fun _ _ => 0%Q;
       degenStrat := fun h _ => h; harvestStrat := fun h => h |} in
  (exists i,
     i ∈ (InvestmentEnum (R := unit) self 7 no_caches).1 /\
     healthExpenditure i = 4) <->
  regenStrat self 4 <> (if 4 =? 0 then -1 else regenStrat self (4 - 1)).
Proof.
  intros self.
  apply (plateau_keeps_changes_of_gain (R := unit) self 7 4 no_caches).
  - apply enum_ok_no_caches.
  - lia.
Defined.

(** ** The candidates of a state *)

(** No two entries of a list are equal as [(state, enjoyment)] tuples. *)
Definition no_equal_pairs (l : list (DPState * Q)) : Prop :=
  forall i j x y, l !! i = Some x -> l !! j = Some y ->
    pair_eqb x y = true -> i = j.

Lemma pair_eqb_sym (x y : DPState * Q) : pair_eqb x y = pair_eqb y x.
Proof.
  unfold pair_eqb. rewrite Qeq_bool_comm. f_equal.
  apply bool_decide_ext. split; intros H; symmetry; exact H.
Qed.

Lemma dedup_append_no_equal_pairs (acc : list (DPState * Q)) (x : DPState * Q) :
  no_equal_pairs acc -> no_equal_pairs (dedup_append acc x).
Proof.
  intros Hacc. unfold dedup_append.
  destruct (existsb (pair_eqb x) acc) eqn:E; [exact Hacc|].
  assert (Hnew : forall k y, acc !! k = Some y -> pair_eqb x y = false).
  { intros k y Hk. destruct (pair_eqb x y) eqn:Exy; [|reflexivity].
    assert (existsb (pair_eqb x) acc = true); [|congruence].
    apply existsb_exists. exists y. split; [|exact Exy].
    apply list_elem_of_In, list_elem_of_lookup. exists k. exact Hk. }
  intros i j a b Hi Hj Hab.
  destruct (lookup_app_Some acc [x] i a) as [Hi' _].
  destruct (lookup_app_Some acc [x] j b) as [Hj' _].
  destruct (Hi' Hi) as [Ha | [Hil Ha]], (Hj' Hj) as [Hb | [Hjl Hb]].
  - apply (Hacc i j a b Ha Hb Hab).
  - apply list_lookup_singleton_Some in Hb as [Hb1 <-].
    rewrite pair_eqb_sym, (Hnew i a Ha) in Hab. discriminate.
  - apply list_lookup_singleton_Some in Ha as [Ha1 <-].
    rewrite (Hnew j b Hb) in Hab. discriminate.
  - apply list_lookup_singleton_Some in Ha as [Ha1 _].
    apply list_lookup_singleton_Some in Hb as [Hb1 _]. lia.
Qed.

Lemma dedup_fold_no_equal_pairs {A} (f : A -> DPState * Q) (l : list A)
  (acc : list (DPState * Q)) :
  no_equal_pairs acc ->
  no_equal_pairs (fold_left (fun acc a => dedup_append acc (f a)) l acc).
Proof.
  revert acc. induction l as [|a l IH]; intros acc Hacc; simpl; [exact Hacc|].
  apply IH, dedup_append_no_equal_pairs, Hacc.
Qed.

(** X9.  [StateEnum] (Healthcare_DP.py, HealthcareDP_Stoch.py) returns each
    outcome once: no two of its [(state, enjoyment)] entries are equal,
    every entry is the outcome [Invest] gives for an enumerated
    investment, and the outcome of every enumerated investment is
    (equal to) an entry. *)
Theorem StateEnum_outcomes_once {R} (self : Strategies) (state : DPState)
  (σ : Caches R) :
  enum_ok self σ ->
  no_equal_pairs (StateEnum self state σ).1 /\
  (forall c, c ∈ (StateEnum self state σ).1 ->
     exists i, i ∈ (InvestmentEnum self (cash state) σ).1 /\
               c = Invest self state i) /\
  (forall i, i ∈ (InvestmentEnum self (cash state) σ).1 ->
     exists c, c ∈ (StateEnum self state σ).1 /\
               pair_eqb (Invest self state i) c = true).
Proof.
  intros Hok. unfold StateEnum.
  destruct (InvestmentEnum self (cash state) σ) as [l σ']. simpl.
  split; [|split].
  - apply dedup_fold_no_equal_pairs. intros i j x y Hi. inversion Hi.
  - apply allStateEnjoyments_sound.
  - apply allStateEnjoyments_complete.
Qed.

Lemma StateEnum_outcomes_once_witness :
  let self :=
    {| regenStrat := fun x => x / 2; enjoymentStrat := fun i h => inject_Z (i * h);
       degenStrat := fun h _ => h; harvestStrat := fun h => h |} in
  let state := mkDPState 3 99 4 in
  no_equal_pairs (StateEnum (R := unit) self state no_caches).1 /\
  (forall c, c ∈ (StateEnum (R := unit) self state no_caches).1 ->
     exists i, i ∈ (InvestmentEnum (R := unit) self (cash state) no_caches).1 /\
               c = Invest self state i) /\
  (forall i, i ∈ (InvestmentEnum (R := unit) self (cash state) no_caches).1 ->
     exists c, c ∈ (StateEnum (R := unit) self state no_caches).1 /\
               pair_eqb (Invest self state i) c = true).
Proof.
  intros self state.
  apply (StateEnum_outcomes_once (R := unit) self state no_caches).
  apply enum_ok_no_caches.
Defined.

(** X10.  A candidate of the plateau-pruned policy keeps the period of the
    state it is enumerated from, has a resource of at most 100, and
    carries over between 0 and 20 units of currency, never more than the
    state has: at most 20 units are ever banked. *)
Theorem candidate_banks_at_most_20 {R} (self : Strategies) (state : DPState)
  (σ : Caches R) (c : DPState * Q) :
  enum_ok self σ ->
  c ∈ (StateEnum self state σ).1 ->
  period c.1 = period state /\
  health c.1 <= 100 /\
  0 <= cash c.1 <= 20 /\ cash c.1 <= cash state.
Proof.
  intros Hok Hc.
  destruct (StateEnum_candidates self state σ Hok) as (σ' & HSE & _).
  rewrite HSE in Hc. simpl in Hc.
  apply allStateEnjoyments_sound in Hc as (i & Hi & ->).
  rewrite potentialStates_plateau in Hi.
  apply elem_of_plateau_pruned in Hi. unfold Invest. simpl. lia.
Qed.

Lemma candidate_banks_at_most_20_witness :
  let self :=
    {| regenStrat := fun x => x / 2; enjoymentStrat := fun i h => inject_Z (i * h);
       degenStrat := fun h _ => h; harvestStrat := fun h => h |} in
  let c := (mkDPState 3 100 20, inject_Z (6 * 100)) in
  period c.1 = 3 /\ health c.1 <= 100 /\ 0 <= cash c.1 <= 20 /\ cash c.1 <= 30.
Proof.
  intros self c.
  apply (candidate_banks_at_most_20 (R := unit) self (mkDPState 3 99 30) no_caches c).
  - apply enum_ok_no_caches.
  - vm_compute. apply list_elem_of_In. vm_compute. auto 400.
Defined.

(** ** [FindStrat] *)

(** The path that [FindStrat] of Healthcare_DP.py follows: each entry is
    the first component of the optimum of the one before. *)
Fixpoint det_path (n : nat) (self : HDP.t) (cur : PyVal) : Res (list PyVal) :=
  match n with
  | O => Ok []
  | Datatypes.S n' =>
      match py_state cur with
      | Raise e => Raise e
      | Ok state =>
          let cur' := item0 (det_optimum self state) in
          match det_path n' self cur' with
          | Ok l => Ok (cur' :: l)
          | Raise e => Raise e
          end
      end
  end.

Lemma det_FindStrat_loop_path (self : HDP.t) (n : nat) :
  forall cur acc σ, det_caches_ok self σ ->
    exists σ',
      FindStrat_loop n self cur acc σ
      = Some (match det_path n self cur with
              | Ok l => Ok (acc ++ l)
              | Raise e => Raise e
              end, σ') /\
      det_caches_ok self σ'.
Proof.
  induction n as [|n IH]; intros cur acc σ Hok; simpl.
  - exists σ. rewrite app_nil_r. split; [reflexivity | exact Hok].
  - destruct (py_state cur) as [state|e]; [|exists σ; split; [reflexivity | exact Hok]].
    destruct (det_Solve_correct self state σ Hok) as (σ1 & HS & Hok1 & _).
    rewrite HS.
    destruct (IH (item0 (det_optimum self state))
                (acc ++ [item0 (det_optimum self state)]) σ1 Hok1)
      as (σ' & HF & Hok').
    exists σ'. split; [|exact Hok']. rewrite HF.
    destruct (det_path n self (item0 (det_optimum self state))); [|reflexivity].
    rewrite <- app_assoc. reflexivity.
Qed.

Lemma det_item0_period (self : HDP.t) (s s' : DPState) :
  item0 (det_optimum self s) = PState s' -> period s' = period s + 1.
Proof.
  rewrite det_optimum_eq.
  destruct (terminal _ _); [intros [= <-]; reflexivity|].
  unfold det_best.
  destruct (pick_spec (det_future self) item1 Triple item1_Triple
              (candidates self (Transition self s)) Initial)
    as [[-> _] | (l1 & c & l2 & Hl & -> & _)]; [discriminate|].
  simpl. intros [= <-].
  rewrite (candidates_period self (Transition self s) c); [reflexivity|].
  rewrite Hl. apply elem_of_app. right. apply elem_of_cons. left. reflexivity.
Qed.

Lemma det_path_shape (self : HDP.t) (n : nat) :
  forall cur,
    det_path n self cur = Raise AttributeError \/
    exists l, det_path n self cur = Ok l /\ length l = n.
Proof.
  induction n as [|n IH]; intros cur; simpl.
  - right. exists []. split; reflexivity.
  - destruct cur as [z|q|s|l]; simpl; try (left; reflexivity).
    destruct (IH (item0 (det_optimum self s))) as [-> | (l & -> & Hl)].
    + left. reflexivity.
    + right. eexists. split; [reflexivity|]. simpl. rewrite Hl. reflexivity.
Qed.

Lemma det_path_periods (self : HDP.t) (n : nat) :
  forall s l, det_path n self (PState s) = Ok l ->
    forall (k : nat) v, l !! k = Some v ->
      (forall st, v = PState st -> period st = period s + Z.of_nat k + 1) /\
      ((Datatypes.S k < length l)%nat -> exists st, v = PState st).
Proof.
  induction n as [|n IH]; intros s l; simpl; [intros [= <-] k v Hk; inversion Hk|].
  destruct (det_path n self (item0 (det_optimum self s))) as [l'|e] eqn:El';
    [|discriminate].
  intros [= <-] k v Hk. destruct k as [|k]; simpl in Hk.
  - injection Hk as <-. split.
    + intros st Hst. apply det_item0_period in Hst. lia.
    + simpl. intros Hlen. destruct n as [|n]; simpl in El'.
      * injection El' as <-. simpl in Hlen. lia.
      * destruct (item0 (det_optimum self s)); simpl in El'; try discriminate.
        eexists. reflexivity.
  - destruct n as [|n]; [simpl in El'; injection El' as <-; inversion Hk|].
    destruct (item0 (det_optimum self s)) as [z|q|s1|l1] eqn:E0;
      try (simpl in El'; discriminate).
    apply det_item0_period in E0.
    destruct (IH s1 l' El' k v Hk) as [H1 H2]. split.
    + intros st Hst. rewrite (H1 st Hst). lia.
    + simpl. intros Hlen. apply H2. lia.
Qed.

(** X11.  [FindStrat] of Healthcare_DP.py always ends: it raises
    [AttributeError] (when [Solve] has returned the pair [(0, 0)], whose
    first component 0 is no state, before the last round), or returns
    one entry per round.  In the list returned every entry but the last
    is a state, and the state at index [k] is in period
    [state.period + k + 1]. *)
Theorem FindStrat_one_entry_per_round (self : HDP.t) (state : DPState)
  (σ : Caches SolveResult) :
  det_caches_ok self σ ->
  exists r σ',
    FindStrat self state σ = Some (r, σ') /\
    (r = Raise AttributeError \/
     exists l, r = Ok l /\ length l = Z.to_nat (numRounds self) /\
       forall (k : nat) v, l !! k = Some v ->
         (forall st, v = PState st ->
            period st = period state + Z.of_nat k + 1) /\
         ((Datatypes.S k < length l)%nat -> exists st, v = PState st)).
Proof.
  intros Hok. unfold FindStrat.
  destruct (det_FindStrat_loop_path self (Z.to_nat (numRounds self))
              (PState state) [] σ Hok) as (σ' & HF & _).
  rewrite HF. eexists _, σ'. split; [reflexivity|].
  destruct (det_path_shape self (Z.to_nat (numRounds self)) (PState state))
    as [-> | (l & Hl & Hlen)].
  - left. reflexivity.
  - right. rewrite Hl. exists l. split; [reflexivity|]. split; [exact Hlen|].
    apply (det_path_periods self _ state l Hl).
Qed.

Lemma FindStrat_one_entry_per_round_witness :
  exists r σ',
    FindStrat solver_idle (mkDPState 17 1 0) no_caches = Some (r, σ') /\
    (r = Raise AttributeError \/
     exists l, r = Ok l /\ length l = Z.to_nat (numRounds solver_idle) /\
       forall (k : nat) v, l !! k = Some v ->
         (forall st, v = PState st -> period st = 17 + Z.of_nat k + 1) /\
         ((Datatypes.S k < length l)%nat -> exists st, v = PState st)).
Proof.
  apply (FindStrat_one_entry_per_round solver_idle (mkDPState 17 1 0) no_caches).
  apply det_caches_ok_empty.
Defined.

Lemma det_best_Initial (self : HDP.t) (newState : DPState) :
  Forall (fun c => ~ (0 < c.2 + det_future self c.1)%Q) (candidates self newState) ->
  det_best self newState = Initial.
Proof.
  intros Hnone. unfold det_best.
  destruct (pick_spec (det_future self) item1 Triple item1_Triple
              (candidates self newState) Initial)
    as [[Hp _] | (l1 & c & l2 & Hl & _ & Hlt & _)]; [exact Hp|].
  exfalso. rewrite Forall_forall in Hnone. apply (Hnone c); [|exact Hlt].
  rewrite Hl. apply elem_of_app. right. apply elem_of_cons. left. reflexivity.
Qed.

(** X12.  With at least two rounds, [FindStrat] of Healthcare_DP.py raises
    [AttributeError] from a state whose transition is not terminal and
    none of whose candidates has a total value above 0: [Solve] returns
    [(0, 0)], the path continues from the integer 0, and the second
    round's [Transition] reads [period] on it. *)
Theorem FindStrat_raises_without_positive_candidate (self : HDP.t)
  (state : DPState) (σ : Caches SolveResult) :
  det_caches_ok self σ ->
  2 <= numRounds self ->
  terminal (numRounds self) (Transition self state) = false ->
  Forall (fun c => ~ (0 < c.2 + det_future self c.1)%Q)
    (candidates self (Transition self state)) ->
  exists σ', FindStrat self state σ = Some (Raise AttributeError, σ').
Proof.
  intros Hok Hn Hterm Hnone. unfold FindStrat.
  destruct (det_FindStrat_loop_path self (Z.to_nat (numRounds self))
              (PState state) [] σ Hok) as (σ' & HF & _).
  exists σ'. rewrite HF.
  destruct (Z.to_nat (numRounds self)) as [|[|n]] eqn:En; try lia.
  simpl. rewrite det_optimum_eq, Hterm, (det_best_Initial _ _ Hnone).
  reflexivity.
Qed.

Lemma FindStrat_raises_without_positive_candidate_witness :
  exists σ',
    FindStrat solver_idle (mkDPState 17 1 0) no_caches
    = Some (Raise AttributeError, σ').
Proof.
  apply (FindStrat_raises_without_positive_candidate solver_idle
           (mkDPState 17 1 0) no_caches).
  - apply det_caches_ok_empty.
  - simpl. lia.
  - vm_compute. reflexivity.
  - replace (candidates solver_idle (Transition solver_idle (mkDPState 17 1 0)))
      with [(mkDPState 18 1 0, 0 # 200)] by (vm_compute; reflexivity).
    constructor; [|constructor]. cbn [fst snd].
    replace (det_future solver_idle (mkDPState 18 1 0)) with 0%Q
      by (vm_compute; reflexivity).
    intros H. vm_compute in H. discriminate H.
Defined.

(** *** HealthcareDP_NewDegen.py *)

Fixpoint nd_path (n : nat) (self : NDP.t) (cur : DPState) : list DPState :=
  match n with
  | O => []
  | Datatypes.S n' =>
      let cur' := NewDegen.item0 (nd_optimum self cur) in
      cur' :: nd_path n' self cur'
  end.

Lemma nd_FindStrat_loop_path (self : NDP.t) (n : nat) :
  forall cur acc σ, nd_caches_ok self σ ->
    exists σ',
      NDP.FindStrat_loop n self cur acc σ = Some (acc ++ nd_path n self cur, σ') /\
      nd_caches_ok self σ'.
Proof.
  induction n as [|n IH]; intros cur acc σ Hok; simpl.
  - exists σ. rewrite app_nil_r. split; [reflexivity | exact Hok].
  - destruct (nd_Solve_correct self cur σ Hok) as (σ1 & HS & Hok1 & _).
    rewrite HS.
    destruct (IH (NewDegen.item0 (nd_optimum self cur))
                (acc ++ [NewDegen.item0 (nd_optimum self cur)]) σ1 Hok1)
      as (σ' & HF & Hok').
    exists σ'. split; [|exact Hok']. rewrite HF, <- app_assoc. reflexivity.
Qed.

Lemma nd_item0_period (self : NDP.t) (s : DPState) :
  NewDegen.item0 (nd_optimum self s) = mkDPState 0 0 0 \/
  period (NewDegen.item0 (nd_optimum self s)) = period s + 1.
Proof.
  rewrite nd_optimum_eq.
  destruct (terminal _ _); [right; reflexivity|].
  unfold nd_best.
  destruct (pick_spec (nd_future self) NewDegen.item1 NewDegen.Triple nd_item1_Triple
              (nd_candidates self (NDP.Transition self s)) nd_initial)
    as [[-> _] | (l1 & c & l2 & Hl & -> & _)]; [left; reflexivity|].
  right. simpl.
  rewrite (nd_candidates_period self (NDP.Transition self s) c); [reflexivity|].
  rewrite Hl. apply elem_of_app. right. apply elem_of_cons. left. reflexivity.
Qed.

Lemma nd_path_length (self : NDP.t) (n : nat) (cur : DPState) :
  length (nd_path n self cur) = n.
Proof. revert cur. induction n as [|n IH]; intros cur; simpl; [|rewrite IH]; reflexivity. Qed.

Lemma nd_path_steps (self : NDP.t) (n : nat) :
  forall cur (k : nat) a b,
    (cur :: nd_path n self cur) !! k = Some a ->
    nd_path n self cur !! k = Some b ->
    b = mkDPState 0 0 0 \/ period b = period a + 1.
Proof.
  induction n as [|n IH]; intros cur k a b Ha Hb; simpl in Hb; [inversion Hb|].
  destruct k as [|k]; simpl in Ha, Hb.
  - injection Ha as <-. injection Hb as <-. apply nd_item0_period.
  - apply (IH (NewDegen.item0 (nd_optimum self cur)) k a b); [exact Ha | exact Hb].
Qed.

(** X13.  [FindStrat] of HealthcareDP_NewDegen.py never raises: it returns one
    state per round.  Each of them is either in the period after the
    one before it in the path (the starting state first), or is the
    placeholder [DPState(0, 0, 0)] that [Solve] starts its search
    from. *)
Theorem banked_FindStrat_one_state_per_round (self : NDP.t) (state : DPState)
  (σ : Caches NewDegen.SolveResult) :
  nd_caches_ok self σ ->
  exists l σ',
    NDP.FindStrat self state σ = Some (l, σ') /\
    length l = Z.to_nat (NDP.numRounds self) /\
    forall (k : nat) a b,
      (state :: l) !! k = Some a -> l !! k = Some b ->
      b = mkDPState 0 0 0 \/ period b = period a + 1.
Proof.
  intros Hok. unfold NDP.FindStrat.
  destruct (nd_FindStrat_loop_path self (Z.to_nat (NDP.numRounds self))
              state [] σ Hok) as (σ' & HF & _).
  rewrite HF. eexists _, σ'. split; [reflexivity|]. split.
  - apply nd_path_length.
  - apply nd_path_steps.
Qed.

Lemma banked_FindStrat_one_state_per_round_witness :
  exists l σ',
    NDP.FindStrat (nd_solver (mkDPState 16 60 0) 18) (mkDPState 16 60 0) no_caches
    = Some (l, σ') /\
    length l = Z.to_nat (NDP.numRounds (nd_solver (mkDPState 16 60 0) 18)) /\
    forall (k : nat) a b,
      (mkDPState 16 60 0 :: l) !! k = Some a -> l !! k = Some b ->
      b = mkDPState 0 0 0 \/ period b = period a + 1.
Proof.
  apply (banked_FindStrat_one_state_per_round
           (nd_solver (mkDPState 16 60 0) 18) (mkDPState 16 60 0) no_caches).
  apply nd_caches_ok_empty.
Defined.

(** ** The rows of [AnalyzeStrat] *)

Lemma for_range_Forall2 {A} (f : nat -> Res A) (idx : list nat) :
  forall acc l, for_range (fun i _ => f i) idx acc = Ok l ->
    exists l', l = acc ++ l' /\ Forall2 (fun i a => f i = Ok a) idx l'.
Proof.
  induction idx as [|i idx IH]; intros acc l; simpl.
  - intros [= <-]. exists []. rewrite app_nil_r. split; [reflexivity | constructor].
  - destruct (f i) as [a|e] eqn:E; [|discriminate].
    intros H. apply IH in H as (l' & -> & HF).
    exists (a :: l'). rewrite <- app_assoc. split; [reflexivity|].
    constructor; assumption.
Qed.

Lemma for_range_seq_lookup {A} (f : nat -> Res A) (n : nat) (l : list A) :
  for_range (fun i _ => f i) (seq 0 n) [] = Ok l ->
  length l = n /\ forall k a, l !! k = Some a -> f k = Ok a.
Proof.
  intros H. apply for_range_Forall2 in H as (l' & -> & HF). simpl. split.
  - apply Forall2_length in HF. rewrite length_seq in HF. congruence.
  - intros k a Hk.
    destruct (Forall2_lookup_r _ _ _ _ _ HF Hk) as (i & Hi & Hf).
    apply lookup_seq in Hi as [-> _]. exact Hf.
Qed.

Lemma py_nth_Ok {A} (l : list A) (i : nat) (a : A) :
  py_nth l i = Ok a <-> l !! i = Some a.
Proof.
  unfold py_nth. destruct (l !! i); split; intros H; congruence.
Qed.

Lemma res_bind_Ok {A B} (x : Res A) (f : A -> Res B) (b : B) :
  res_bind x f = Ok b -> exists a, x = Ok a /\ f a = Ok b.
Proof. destruct x as [a|e]; simpl; [|discriminate]. intros H. exists a. auto. Qed.

(** The totals of [alternate] and the remaining amounts of [strategy],
    by index. *)
Definition total_at (alternate : list SolveResult) (i : nat) : Q :=
  match alternate !! i with
  | Some a => item1 a
  | None => 0
  end.

Definition left_at (strategy : list (DPState * Q)) (i : nat) : Q :=
  match strategy !! i with
  | Some s => s.2
  | None => 0
  end.

Lemma loss_at_value (alternate : list SolveResult)
  (strategy : list (DPState * Q)) (i : nat) (l : Q) :
  loss_at alternate strategy i = Ok l ->
  ~ (total_at alternate 0 == 0)%Q /\
  l = ((total_at alternate (i + 1)
        + (left_at strategy (i + 1) - left_at strategy (i + 2))
        - total_at alternate i) / total_at alternate 0)%Q.
Proof.
  unfold loss_at, remaining_after, total_at, left_at. intros H.
  repeat (apply res_bind_Ok in H as (? & ?%py_nth_Ok & H)
          || apply res_bind_Ok in H as (? & H1 & H)).
  repeat (apply res_bind_Ok in H1 as (? & ?%py_nth_Ok & H1)).
  injection H1 as <-.
  repeat match goal with E : _ !! _ = Some _ |- _ => rewrite E; clear E end.
  destruct (Qeq_bool (item1 _) 0) eqn:E0; [discriminate|].
  injection H as <-. split; [|reflexivity].
  intros Hz. apply Qeq_bool_iff in Hz. congruence.
Qed.

Lemma losses_telescope (alternate : list SolveResult)
  (strategy : list (DPState * Q)) (losses : list Q) :
  (forall k l, losses !! k = Some l -> loss_at alternate strategy k = Ok l) ->
  forall k, (k < length losses)%nat ->
    (fold_left Qplus (take (k + 1) losses) 0
     == (total_at alternate (k + 1) + left_at strategy 1
         - left_at strategy (k + 2) - total_at alternate 0)
        / total_at alternate 0)%Q.
Proof.
  intros Hl k. induction k as [|k IH]; intros Hk.
  - destruct losses as [|l0 losses]; [simpl in Hk; lia|]. simpl.
    destruct (loss_at_value _ _ 0%nat l0 (Hl 0%nat l0 eq_refl)) as [Hz ->].
    change (take (0 + 1) (?x :: losses)) with [x]. cbn [fold_left Nat.add].
    field. exact Hz.
  - destruct (lookup_lt_is_Some_2 losses (Datatypes.S k) Hk) as [l Hlk].
    replace (Datatypes.S k + 1)%nat with (Datatypes.S (k + 1)) by lia.
    rewrite (take_S_r _ _ l) by (rewrite <- Hlk; f_equal; lia).
    rewrite fold_left_app. simpl. rewrite IH by lia.
    destruct (loss_at_value _ _ _ l (Hl _ l Hlk)) as [Hz ->].
    replace (Datatypes.S k + 1)%nat with (k + 2)%nat by lia.
    replace (Datatypes.S k + 2)%nat with (k + 3)%nat by lia.
    replace (Datatypes.S k) with (k + 1)%nat by lia.
    replace (Datatypes.S (k + 1)) with (k + 2)%nat by lia.
    replace (Datatypes.S (k + 2)) with (k + 3)%nat by lia.
    field. exact Hz.
Qed.

Lemma solve_all_lookup (self : HDP.t) (l : list (DPState * Q)) :
  forall σ rs σ', det_caches_ok self σ -> solve_all self l σ = Some (rs, σ') ->
    forall k s, l !! k = Some s -> rs !! k = Some (det_optimum self s.1).
Proof.
  induction l as [|i l IH]; intros σ rs σ' Hok; simpl.
  - intros _ k s Hk. inversion Hk.
  - destruct (det_Solve_correct self i.1 σ Hok) as (σ1 & -> & Hok1 & _).
    destruct (solve_all self l σ1) as [[rs' σ2]|] eqn:E; [|discriminate].
    intros [= <- <-] k s Hk. destruct k as [|k]; simpl in Hk |- *.
    + injection Hk as <-. reflexivity.
    + apply (IH σ1 rs' σ2 Hok1 E k s Hk).
Qed.

(** X14.  The rows that [AnalyzeStrat] of Healthcare_DP.py writes follow the
    trajectory: row [k] carries the state and the remaining amount of
    record [k], the amount earned between records [k] and [k+1], and the
    optimum from record [k]; its accumulated loss, the sum of the losses
    of rows 0 to [k], telescopes in exact arithmetic to
    [(V(k+1) + left(1) - left(k+2) - V(0)) / V(0)], where [V(i)] is the
    total that [Solve] returns from the state of record [i] and
    [left(i)] the remaining amount of record [i]. *)
Theorem AnalyzeStrat_accumulated_loss_telescopes (self : HDP.t)
  (strategy : list (DPState * Q)) (σ σ' : Caches SolveResult)
  (rows : list CsvRow) :
  det_caches_ok self σ ->
  AnalyzeStrat self strategy σ = Some (Ok rows, σ') ->
  forall (k : nat) row, rows !! k = Some row ->
    exists s0 s1 sk sk1 sk2,
      strategy !! 0%nat = Some s0 /\ strategy !! 1%nat = Some s1 /\
      strategy !! k = Some sk /\ strategy !! (k + 1)%nat = Some sk1 /\
      strategy !! (k + 2)%nat = Some sk2 /\
      RealizedHealth row = health sk.1 /\
      RealizedCashOnHand row = cash sk.1 /\
      CurrentLE row = sk.2 /\
      EarnedThisPeriod row = (sk.2 - sk1.2)%Q /\
      RemainingMax row = py_int (det_future self sk.1) /\
      (AccumulatedLoss row
       == (det_future self sk1.1 + s1.2 - sk2.2 - det_future self s0.1)
          / det_future self s0.1)%Q.
Proof.
  intros Hok HA k row Hrow. unfold AnalyzeStrat in HA.
  destruct (solve_all self (py_drop_last 1 strategy) σ) as [[alternate σ1]|] eqn:Es;
    [|discriminate].
  injection HA as HA <-.
  pose proof (solve_all_lookup self _ _ _ _ Hok Es) as Halt.
  destruct (solve_all_length self (py_drop_last 1 strategy) σ Hok)
    as (rs & σ2 & Es' & Hlen & _).
  rewrite Es in Es'. injection Es' as <- <-.
  rewrite py_drop_last_length in Hlen.
  unfold analysis in HA.
  apply res_bind_Ok in HA as (losses & Hlosses & HA).
  apply res_bind_Ok in HA as (output & Houtput & HA).
  apply for_range_seq_lookup in Hlosses as [Hll Hlosses].
  apply for_range_seq_lookup in Houtput as [Hlo Houtput].
  apply for_range_seq_lookup in HA as [Hlr Hrows].
  rewrite py_drop_last_length in Hll.
  assert (Hk : (k + 2 < length strategy)%nat).
  { apply lookup_lt_Some in Hrow. lia. }
  apply Hrows in Hrow.
  apply res_bind_Ok in Hrow as (orow & Horow%py_nth_Ok & Hcsv).
  apply Houtput in Horow. unfold output_at in Horow.
  apply res_bind_Ok in Horow as (a & Ha%py_nth_Ok & Horow).
  apply res_bind_Ok in Horow as (sk1 & Hsk1%py_nth_Ok & Horow).
  apply res_bind_Ok in Horow as (rem & Hrem & Horow).
  apply res_bind_Ok in Horow as (l & Hl%py_nth_Ok & Horow).
  apply res_bind_Ok in Horow as (cl & Hcl & Horow).
  apply res_bind_Ok in Horow as (sk & Hsk%py_nth_Ok & Horow).
  injection Horow as <-.
  destruct (lookup_lt_is_Some_2 strategy 0%nat) as [s0 Hs0]; [lia|].
  destruct (lookup_lt_is_Some_2 strategy 1%nat) as [s1 Hs1]; [lia|].
  destruct (lookup_lt_is_Some_2 strategy (k + 2)%nat) as [sk2 Hsk2]; [lia|].
  assert (Hin : forall i s, (i + 1 < length strategy)%nat -> strategy !! i = Some s ->
                  alternate !! i = Some (det_optimum self s.1)).
  { intros i s Hi Hs. apply Halt. unfold py_drop_last.
    rewrite lookup_take_lt by lia. exact Hs. }
  pose proof (Hin k sk ltac:(lia) Hsk) as Hak. rewrite Ha in Hak. injection Hak as ->.
  exists s0, s1, sk, sk1, sk2.
  unfold csv_row in Hcsv. simpl in Hcsv.
  destruct (det_optimum self sk.1) as [|state totalValue immediate] eqn:Eopt;
    [discriminate|].
  injection Hcsv as <-. simpl.
  repeat (split; [first [assumption | reflexivity]|]).
  split; [unfold det_future; rewrite Eopt; reflexivity|].
  unfold cumsum_at in Hcl.
  destruct (take (k + 1) losses !! k); [|discriminate]. injection Hcl as <-.
  rewrite (losses_telescope alternate strategy losses Hlosses k) by lia.
  unfold total_at, left_at.
  rewrite (Hin (k + 1)%nat sk1 ltac:(lia) Hsk1), (Hin 0%nat s0 ltac:(lia) Hs0).
  rewrite Hs1, Hsk2. reflexivity.
Qed.

Lemma AnalyzeStrat_accumulated_loss_telescopes_witness :
  let self := solver18 exp_approx (mkDPState 0 85 0) 18 regen_ex enjoy_ex in
  exists rows σ',
    AnalyzeStrat self short_trajectory no_caches = Some (Ok rows, σ') /\
    forall (k : nat) row, rows !! k = Some row ->
      exists s0 s1 sk sk1 sk2,
        short_trajectory !! 0%nat = Some s0 /\ short_trajectory !! 1%nat = Some s1 /\
        short_trajectory !! k = Some sk /\
        short_trajectory !! (k + 1)%nat = Some sk1 /\
        short_trajectory !! (k + 2)%nat = Some sk2 /\
        RealizedHealth row = health sk.1 /\
        RealizedCashOnHand row = cash sk.1 /\
        CurrentLE row = sk.2 /\
        EarnedThisPeriod row = (sk.2 - sk1.2)%Q /\
        RemainingMax row = py_int (det_future self sk.1) /\
        (AccumulatedLoss row
         == (det_future self sk1.1 + s1.2 - sk2.2 - det_future self s0.1)
            / det_future self s0.1)%Q.
Proof.
  intros self.
  assert (Hn : rows_written (AnalyzeStrat self short_trajectory no_caches)
               = Some 1%nat) by (vm_compute; reflexivity).
  destruct (AnalyzeStrat self short_trajectory no_caches) as [[[rows|e] σ']|] eqn:E;
    [| discriminate Hn | discriminate Hn].
  exists rows, σ'. split; [reflexivity|].
  apply (AnalyzeStrat_accumulated_loss_telescopes self short_trajectory no_caches σ' rows).
  - apply det_caches_ok_empty.
  - exact E.
Defined.

(** ** The helpers of the batch analysis *)

(** X15.  [round_down] of Healthcare_DP.py raises on a zero divisor and
    otherwise returns the multiple [divisor * (num // divisor)] of the
    divisor.  With a positive divisor that is the greatest multiple not
    above [num]; with a negative divisor it is the least multiple not
    below [num], so the function then rounds up. *)
Theorem round_down_rounds_toward_divisor_sign (num divisor : Z) :
  (divisor = 0 -> round_down num divisor = Raise ZeroDivisionError) /\
  (divisor <> 0 ->
   exists r, round_down num divisor = Ok r /\
     r = divisor * (num / divisor) /\
     (0 < divisor -> r <= num < r + divisor) /\
     (divisor < 0 -> num <= r < num - divisor)).
Proof.
  unfold round_down. split.
  - intros ->. reflexivity.
  - intros Hd. rewrite (proj2 (Z.eqb_neq divisor 0) Hd).
    eexists. split; [reflexivity|]. split; [|split].
    + pose proof (Z.div_mod num divisor Hd). lia.
    + intros Hpos. pose proof (Z.mod_pos_bound num divisor Hpos). lia.
    + intros Hneg. pose proof (Z.mod_neg_bound num divisor Hneg). lia.
Qed.

Lemma concat_chunks {A} (l : list A) (c n : nat) :
  concat (map (fun i => take c (drop (c * i) l)) (seq 0 n)) = take (c * n) l.
Proof.
  induction n as [|n IH].
  - rewrite Nat.mul_0_r. reflexivity.
  - rewrite seq_S, map_app, concat_app, IH. simpl. rewrite app_nil_r.
    rewrite take_take_drop. f_equal. lia.
Qed.

Lemma readInFile_eq {A} (data : list A) (size : Z) :
  let c := if size =? 9 then 9%nat else 18%nat in
  readInFile data size
  = map (fun i => take c (drop (c * i) data))
      (seq 0 (Z.to_nat ((Z.of_nat (length data) + Z.of_nat c - 1) / Z.of_nat c))).
Proof.
  unfold readInFile, py_range_step, py_slice.
  destruct (size =? 9); cbv zeta; rewrite map_map, Z.sub_0_r;
    [change (Z.of_nat 9) with 9 | change (Z.of_nat 18) with 18];
    apply map_ext; intros i; f_equal; try lia; f_equal; lia.
Qed.

(** X16.  [readInFile] of Healthcare_DP.py cuts the data into consecutive
    games: the games put end to end give the data back, each game is
    the next 9 rows (18 for any [size] other than 9), none is empty, and
    only the last one can be shorter. *)
Theorem readInFile_cuts_consecutive_games {A} (data : list A) (size : Z) :
  let c := if size =? 9 then 9%nat else 18%nat in
  concat (readInFile data size) = data /\
  forall (k : nat) game, readInFile data size !! k = Some game ->
    game = take c (drop (c * k) data) /\
    (0 < length game <= c)%nat /\
    ((c * (k + 1) <= length data)%nat -> length game = c).
Proof.
  intros c. pose proof (readInFile_eq data size) as Heq. fold c in Heq.
  cbv zeta in Heq. rewrite Heq.
  assert (Hc : (0 < c)%nat) by (unfold c; destruct (size =? 9); lia).
  set (n := Z.to_nat ((Z.of_nat (length data) + Z.of_nat c - 1) / Z.of_nat c)).
  assert (Hn : (length data <= c * n)%nat /\ (c * n < length data + c)%nat).
  { unfold n.
    pose proof (Z.div_mod (Z.of_nat (length data) + Z.of_nat c - 1) (Z.of_nat c)
                  ltac:(lia)) as Hdm.
    pose proof (Z.mod_pos_bound (Z.of_nat (length data) + Z.of_nat c - 1)
                  (Z.of_nat c) ltac:(lia)) as Hmb.
    assert (0 <= (Z.of_nat (length data) + Z.of_nat c - 1) / Z.of_nat c)
      by (apply Z.div_pos; lia).
    split; nia. }
  split.
  - rewrite concat_chunks. apply take_ge. lia.
  - intros k game Hk. rewrite list_lookup_fmap in Hk.
    destruct (seq 0 n !! k) as [i|] eqn:Ei; [|discriminate].
    apply lookup_seq in Ei as [-> Hlt]. simpl in Hk. injection Hk as <-.
    split; [reflexivity|].
    rewrite length_take, length_drop. split; nia.
Qed.

(** *** The trajectory built by [BatchRun] *)

Lemma pad_loop_app (js1 js2 : list nat) :
  forall pad, pad_loop (js1 ++ js2) pad = res_bind (pad_loop js1 pad) (pad_loop js2).
Proof.
  induction js1 as [|j js1 IH]; intros pad; simpl; [reflexivity|].
  destruct (py_nth_last pad 2) as [last|e]; simpl; [|reflexivity].
  destruct (py_nth pad j) as [cur|e]; simpl; [|reflexivity].
  apply IH.
Qed.

Lemma py_nth_last_2 {A} (l : list A) (x y : A) :
  py_nth_last (l ++ [x; y]) 2 = Ok x.
Proof.
  unfold py_nth_last, py_nth. rewrite length_app. simpl.
  replace (length l + 2 <? 2)%nat with false by (symmetry; apply Nat.ltb_ge; lia).
  replace (length l + 2 - 2)%nat with (length l) by lia.
  rewrite list_lookup_middle by reflexivity. reflexivity.
Qed.

Lemma pad_loop_before_last (lastc sentinel : DPState * Q) (todo : list (DPState * Q)) :
  forall done,
    pad_loop (seq (length done) (length todo)) (done ++ todo ++ [lastc; sentinel])
    = Ok (done ++ map (fun c => (c.1, py_max0 (lastc.2 - c.2))) todo
          ++ [lastc; sentinel]).
Proof.
  induction todo as [|c todo IH]; intros done; simpl; [reflexivity|].
  replace (done ++ c :: todo ++ [lastc; sentinel])
    with ((done ++ c :: todo) ++ [lastc; sentinel])
    by (rewrite <- app_assoc; reflexivity).
  rewrite py_nth_last_2. simpl.
  rewrite <- app_assoc. simpl.
  unfold py_nth. rewrite list_lookup_middle by reflexivity. simpl.
  rewrite insert_app_r_alt by lia. rewrite Nat.sub_diag. simpl.
  specialize (IH (done ++ [(c.1, py_max0 (lastc.2 - c.2))])).
  rewrite length_app in IH. simpl in IH.
  replace (length done + 1)%nat with (Datatypes.S (length done)) in IH by lia.
  rewrite <- !app_assoc in IH. simpl in IH. exact IH.
Qed.

Lemma py_max0_zero (x : Q) : (x == 0)%Q -> (py_max0 x == 0)%Q.
Proof.
  intros H. unfold py_max0. destruct (Qltb x 0); [reflexivity | exact H].
Qed.

Lemma pad_loop_result (init : list (DPState * Q)) (lastc sentinel : DPState * Q) :
  (sentinel.2 == 0)%Q ->
  exists z1 z2, (z1 == 0)%Q /\ (z2 == 0)%Q /\
    pad_loop (seq 0 (length (init ++ [lastc; sentinel]))) (init ++ [lastc; sentinel])
    = Ok (map (fun c => (c.1, py_max0 (lastc.2 - c.2))) init
          ++ [(lastc.1, z1); (sentinel.1, z2)]).
Proof.
  intros Hs. rewrite length_app. simpl length.
  rewrite seq_app, pad_loop_app. simpl seq at 2.
  pose proof (pad_loop_before_last lastc sentinel init []) as H1.
  simpl in H1. rewrite H1. clear H1. simpl res_bind.
  set (done := map (fun c => (c.1, py_max0 (lastc.2 - c.2))) init).
  assert (Hd : length done = length init) by (unfold done; apply length_map).
  simpl. rewrite py_nth_last_2. simpl.
  unfold py_nth at 1. rewrite list_lookup_middle by (symmetry; exact Hd). simpl.
  rewrite insert_app_r_alt by lia.
  replace (length init - length done)%nat with 0%nat by lia. simpl.
  rewrite py_nth_last_2. simpl.
  unfold py_nth.
  replace (Datatypes.S (length init)) with (length (done ++ [(lastc.1, py_max0 (lastc.2 - lastc.2))]))
    by (rewrite length_app; simpl; lia).
  replace (done ++ [(lastc.1, py_max0 (lastc.2 - lastc.2)); sentinel])
    with ((done ++ [(lastc.1, py_max0 (lastc.2 - lastc.2))]) ++ [sentinel])
    by (rewrite <- app_assoc; reflexivity).
  rewrite list_lookup_middle by reflexivity. simpl.
  rewrite insert_app_r_alt by lia. rewrite Nat.sub_diag. simpl.
  rewrite <- app_assoc. simpl.
  eexists _, _. split; [|split; [|reflexivity]].
  - apply py_max0_zero. ring.
  - apply py_max0_zero. rewrite Hs.
    assert (H0 : (py_max0 (lastc.2 - lastc.2) == 0)%Q) by (apply py_max0_zero; ring).
    rewrite H0. ring.
Qed.

Lemma BatchRun_pad_spec (startState : DPState)
  (init : list PlayerRow) (lastRow : PlayerRow) :
  let remaining := fun k => ((k2 k).1, py_max0 ((k2 lastRow).2 - (k2 k).2)) in
  BatchRun_pad startState [] = Raise IndexError /\
  exists z1 z2, (z1 == 0)%Q /\ (z2 == 0)%Q /\
    BatchRun_pad startState (init ++ [lastRow])
    = Ok ((startState, (k2 lastRow).2)
            :: map remaining init
            ++ [((k2 lastRow).1, z1); (mkDPState 19 0 0, z2)],
          map (fun k => mkPlayerRow (k0 k) (k1 k) (remaining k)) init
            ++ [mkPlayerRow (k0 lastRow) (k1 lastRow) ((k2 lastRow).1, z1)]).
Proof.
  intros remaining. split; [reflexivity|].
  unfold BatchRun_pad.
  assert (Hlast : py_nth_last (init ++ [lastRow]) 1 = Ok lastRow).
  { unfold py_nth_last, py_nth. rewrite length_app. simpl.
    replace (length init + 1 <? 1)%nat with false
      by (symmetry; apply Nat.ltb_ge; lia).
    replace (length init + 1 - 1)%nat with (length init) by lia.
    rewrite list_lookup_middle by reflexivity. reflexivity. }
  rewrite Hlast. simpl res_bind. cbv zeta.
  rewrite map_app. simpl map. rewrite <- app_assoc. simpl app.
  destruct (pad_loop_result (map k2 init) (k2 lastRow) (mkDPState 19 0 0, 0%Q))
    as (z1 & z2 & Hz1 & Hz2 & Hloop); [reflexivity|].
  simpl in Hloop. rewrite Hloop. simpl res_bind.
  exists z1, z2. split; [exact Hz1|]. split; [exact Hz2|].
  rewrite map_map. fold remaining. do 2 f_equal.
  rewrite zip_with_app by (rewrite length_map; reflexivity).
  simpl. f_equal.
  clear. induction init as [|k init IH]; simpl; [reflexivity|].
  f_equal. exact IH.
Qed.

(** X17.  For a game of at least one row, [BatchRun] of Healthcare_DP.py
    builds this trajectory: the starting state with the last row's
    enjoyment [total]; for every row but the last its state with
    [max(total - enjoyment, 0)]; the last row's state with 0, the row
    being compared with itself; and the closing record in period 19 with
    0, which is compared with the last row after that one was set to 0.
    The rows of the game are changed in place to the same values.  An
    empty game raises [IndexError]. *)
Theorem BatchRun_pad_remaining_amounts (startState : DPState)
  (init : list PlayerRow) (lastRow : PlayerRow) :
  let remaining := fun k => ((k2 k).1, py_max0 ((k2 lastRow).2 - (k2 k).2)) in
  BatchRun_pad startState [] = Raise IndexError /\
  exists z1 z2, (z1 == 0)%Q /\ (z2 == 0)%Q /\
    BatchRun_pad startState (init ++ [lastRow])
    = Ok ((startState, (k2 lastRow).2)
            :: map remaining init
            ++ [((k2 lastRow).1, z1); (mkDPState 19 0 0, z2)],
          map (fun k => mkPlayerRow (k0 k) (k1 k) (remaining k)) init
            ++ [mkPlayerRow (k0 lastRow) (k1 lastRow) ((k2 lastRow).1, z1)]).
Proof. exact (BatchRun_pad_spec startState init lastRow). Qed.

(** X18.  For a game of at least one row, one round of [BatchRun] of
    Healthcare_DP.py passes the identifiers of the game's first row to
    [AnalyzeStrat], which writes one row per row of the game: the
    trajectory has two records more than the game, and the analysis
    writes a row for each record but the last two.  Otherwise the round
    stops on the division by a zero optimum ([ZeroDivisionError]) or on
    an optimum that is the pair [(0, 0)] ([TypeError]). *)
Theorem BatchRun_writes_one_row_per_game_row (HCDP : HDP.t) (startState : DPState)
  (init : list PlayerRow) (lastRow : PlayerRow) (σ : Caches SolveResult) :
  det_caches_ok HCDP σ ->
  exists res i' σ',
    BatchRun_game HCDP startState (init ++ [lastRow]) σ = Some (res, i', σ') /\
    ((exists rows,
        res = Ok (k0 (hd lastRow init), k1 (hd lastRow init), rows) /\
        length rows = length (init ++ [lastRow])) \/
     res = Raise ZeroDivisionError \/ res = Raise TypeError).
Proof.
  intros Hok. unfold BatchRun_game.
  destruct (BatchRun_pad_spec startState init lastRow) as (_ & z1 & z2 & _ & _ & ->).
  set (pad := (startState, (k2 lastRow).2) :: _).
  set (i' := _ ++ [mkPlayerRow _ _ _]).
  assert (Hfirst : py_nth i' 0
                   = Ok (mkPlayerRow (k0 (hd lastRow init)) (k1 (hd lastRow init))
                           (hd (k2 lastRow).1 (map (fun k => (k2 k).1) init),
                            match init with
                            | [] => z1
                            | k :: _ => py_max0 ((k2 lastRow).2 - (k2 k).2)
                            end))).
  { unfold i'. destruct init; reflexivity. }
  rewrite Hfirst.
  assert (Hpad : length pad = (length (init ++ [lastRow]) + 2)%nat).
  { unfold pad. simpl. rewrite !length_app, length_map. simpl. lia. }
  unfold AnalyzeStrat.
  destruct (solve_all_length HCDP (py_drop_last 1 pad) σ Hok)
    as (alternate & σ' & -> & Hlen & _).
  rewrite py_drop_last_length in Hlen.
  destruct (analysis_outcome alternate pad Hlen)
    as [(rows & -> & Hrows) | (e & -> & [-> | ->])].
  - eexists _, i', σ'. split; [reflexivity|]. left. exists rows.
    split; [reflexivity | lia].
  - eexists _, i', σ'. split; [reflexivity|]. right. left. reflexivity.
  - eexists _, i', σ'. split; [reflexivity|]. right. right. reflexivity.
Qed.

Lemma BatchRun_writes_one_row_per_game_row_witness :
  let HCDP := solver18 exp_approx (mkDPState 0 85 0) 18 regen_ex enjoy_ex in
  let game := [mkPlayerRow 7 1 (mkDPState 17 25 5, 12%Q)] in
  exists res i' σ',
    BatchRun_game HCDP (mkDPState 17 30 0) game no_caches = Some (res, i', σ') /\
    ((exists rows, res = Ok (7, 1, rows) /\ length rows = 1%nat) \/
     res = Raise ZeroDivisionError \/ res = Raise TypeError).
Proof.
  intros HCDP game.
  apply (BatchRun_writes_one_row_per_game_row HCDP (mkDPState 17 30 0) []
           (mkPlayerRow 7 1 (mkDPState 17 25 5, 12%Q)) no_caches).
  apply det_caches_ok_empty.
Defined.

(** ** The strategy classes *)



Lemma inject_Z_pos (i : Z) : 0 < i -> (0 < inject_Z i)%Q.
Proof. intros H. change 0%Q with (inject_Z 0). rewrite <- Zlt_Qlt. exact H. Qed.

Lemma inject_Z_nonneg (i : Z) : 0 <= i -> (0 <= inject_Z i)%Q.
Proof. intros H. change 0%Q with (inject_Z 0). rewrite <- Zle_Qle. exact H. Qed.

Lemma Qmult_fraction_le (a f : Q) : (0 <= a)%Q -> (f <= 1)%Q -> (a * f <= a)%Q.
Proof.
  intros Ha Hf.
  assert (H : (f * a <= 1 * a)%Q) by (apply Qmult_le_compat_r; assumption).
  rewrite Qmult_1_l in H. rewrite Qmult_comm. exact H.
Qed.




(** X21.  With a non-negative constant [j] and a non-negative resource,
    [LifeEnjoyment] of HealthcareDP_NewDegen.py returns a utility
    between 0 and the resource. *)
Theorem banked_enjoyment_at_most_health (self : NewDegen.LifeEnjoymentStrategy.t)
  (investment currentHealth : Z) :
  (0 <= NewDegen.LifeEnjoymentStrategy.j self)%Q ->
  0 <= currentHealth ->
  exists enjoy,
    NewDegen.LifeEnjoymentStrategy.LifeEnjoyment self investment currentHealth
    = Ok enjoy /\
    (0 <= enjoy <= inject_Z currentHealth)%Q.
Proof.
  intros Hj Hh. apply inject_Z_nonneg in Hh.
  unfold NewDegen.LifeEnjoymentStrategy.LifeEnjoyment.
  destruct (investment <=? 0) eqn:Ei.
  { exists 0%Q. split; [reflexivity|]. split; [apply Qle_refl | exact Hh]. }
  apply Z.leb_gt, inject_Z_pos in Ei. unfold NewDegen.py_div.
  destruct (Qeq_bool _ 0) eqn:E; [apply Qeq_bool_iff in E; exfalso; lra|].
  simpl. eexists. split; [reflexivity|].
  set (i := inject_Z investment) in *.
  set (j := NewDegen.LifeEnjoymentStrategy.j self) in *.
  assert (H0 : (0 <= i / (i + j))%Q) by (apply Qle_shift_div_l; lra).
  assert (H1 : (i / (i + j) <= 1)%Q) by (apply Qle_shift_div_r; lra).
  split.
  - apply Qmult_le_0_compat; assumption.
  - apply Qmult_fraction_le; assumption.
Qed.

Lemma banked_enjoyment_at_most_health_witness :
  exists enjoy,
    NewDegen.LifeEnjoymentStrategy.LifeEnjoyment
      {| NewDegen.LifeEnjoymentStrategy.j := 50 |} 30 60 = Ok enjoy /\
    (0 <= enjoy <= inject_Z 60)%Q.
Proof.
  apply (banked_enjoyment_at_most_health {| NewDegen.LifeEnjoymentStrategy.j := 50 |} 30 60).
  - simpl. lra.
  - lia.
Defined.

(** X22.  The exhaustive-banked enumerator of HealthcareDP_NewDegen.py drops
    no resource-expenditure: for a non-negative [cash] every
    expenditure from 0 to [cash] is listed, with the whole remainder
    consumed; and the amount banked by a listed investment is a
    multiple of 10 between 0 and 110 that the remainder covers. *)
Theorem banked_enumeration_keeps_every_expenditure {R} (cash health : Z)
  (σ : Caches R) :
  enum_ok_banked σ ->
  (forall he, 0 <= he <= cash ->
     mkInvestment he (cash - he) 0 ∈ (NDP.InvestmentEnum cash health σ).1) /\
  (forall i, i ∈ (NDP.InvestmentEnum cash health σ).1 ->
     0 <= healthExpenditure i <= cash /\
     (exists n, 0 <= n <= 11 /\ cashRemaining i = 10 * n) /\
     cashRemaining i <= cash - healthExpenditure i).
Proof.
  intros Hok. rewrite (banked_InvestmentEnum_fst cash health σ Hok). split.
  - intros he Hhe. apply elem_of_banked. simpl. split; [exact Hhe|].
    split; [exists 0; lia|]. lia.
  - intros i Hi. apply elem_of_banked in Hi as (H1 & (n & Hn & H2) & H3 & H4).
    split; [exact H1|]. split; [exists n; lia | lia].
Qed.

Lemma banked_enumeration_keeps_every_expenditure_witness :
  (forall he, 0 <= he <= 25 ->
     mkInvestment he (25 - he) 0 ∈ (NDP.InvestmentEnum (R := unit) 25 60 no_caches).1) /\
  (forall i, i ∈ (NDP.InvestmentEnum (R := unit) 25 60 no_caches).1 ->
     0 <= healthExpenditure i <= 25 /\
     (exists n, 0 <= n <= 11 /\ cashRemaining i = 10 * n) /\
     cashRemaining i <= 25 - healthExpenditure i).
Proof.
  apply (banked_enumeration_keeps_every_expenditure (R := unit) 25 60 no_caches).
  apply enum_ok_banked_no_caches.
Defined.

(** *** The sigmoid classes of Healthcare_DP.py *)

Section Sigmoid.
Variable exp : Q -> Q.
Hypothesis exp_pos : forall x, (0 < exp x)%Q.
Hypothesis exp_le_1 : forall x, (x <= 0)%Q -> (exp x <= 1)%Q.


End Sigmoid.


(** A rational stand-in for the exponential: positive everywhere, and
    at most 1 up to 0. *)
Definition exp_rational (x : Q) : Q :=
  if Qle_bool x 0 then (1 / (1 - x))%Q else (1 + x)%Q.

Lemma exp_rational_pos (x : Q) : (0 < exp_rational x)%Q.
Proof.
  unfold exp_rational. destruct (Qle_bool x 0) eqn:E.
  - apply Qle_bool_iff in E. apply Qlt_shift_div_l; lra.
  - assert (~ (x <= 0)%Q) by (rewrite <- Qle_bool_iff; congruence). lra.
Qed.

Lemma exp_rational_le_1 (x : Q) : (x <= 0)%Q -> (exp_rational x <= 1)%Q.
Proof.
  intros H. unfold exp_rational. rewrite (proj2 (Qle_bool_iff x 0) H).
  apply Qle_shift_div_r; lra.
Qed.


(** X24.  Under the same two facts about the exponential, [LifeEnjoyment] of
    Healthcare_DP.py with non-negative coefficients returns, on a
    non-negative investment and resource, a utility between 0 and its
    saturation level [c * (beta * health / 100 + mu)]. *)
Theorem sigmoid_enjoyment_below_saturation (exp : Q -> Q)
  (self : LifeEnjoymentStrategy.t) (investment currentHealth : Z) :
  (forall x, (0 < exp x)%Q) ->
  (forall x, (x <= 0)%Q -> (exp x <= 1)%Q) ->
  (0 <= LifeEnjoymentStrategy.alpha self)%Q ->
  (0 <= LifeEnjoymentStrategy.beta self)%Q ->
  (0 <= LifeEnjoymentStrategy.mu self)%Q ->
  (0 <= LifeEnjoymentStrategy.c self)%Q ->
  0 <= investment -> 0 <= currentHealth ->
  (0 <= LifeEnjoymentStrategy.LifeEnjoyment exp self investment currentHealth
   <= LifeEnjoymentStrategy.c self *
      (LifeEnjoymentStrategy.beta self * (inject_Z currentHealth / 100)
       + LifeEnjoymentStrategy.mu self))%Q.
Proof.
  intros Hpos Hle Ha Hb Hm Hc Hi Hh. unfold LifeEnjoymentStrategy.LifeEnjoyment.
  apply inject_Z_nonneg in Hi, Hh.
  pose proof (Hpos ((-1) * LifeEnjoymentStrategy.alpha self * inject_Z investment)%Q)
    as H1.
  assert (H2 : (exp ((-1) * LifeEnjoymentStrategy.alpha self * inject_Z investment) <= 1)%Q).
  { apply Hle.
    assert (0 <= LifeEnjoymentStrategy.alpha self * inject_Z investment)%Q
      by (apply Qmult_le_0_compat; assumption).
    lra. }
  set (e := exp _) in *.
  assert (Hlevel : (0 <= LifeEnjoymentStrategy.c self *
                         (LifeEnjoymentStrategy.beta self * (inject_Z currentHealth / 100)
                          + LifeEnjoymentStrategy.mu self))%Q).
  { apply Qmult_le_0_compat; [exact Hc|].
    assert (0 <= LifeEnjoymentStrategy.beta self * (inject_Z currentHealth / 100))%Q;
      [|lra].
    apply Qmult_le_0_compat; [exact Hb|]. apply Qle_shift_div_l; lra. }
  set (level := (LifeEnjoymentStrategy.c self * _)%Q) in *.
  split.
  - apply Qmult_le_0_compat; [exact Hlevel | lra].
  - apply Qmult_fraction_le; [exact Hlevel | lra].
Qed.

Lemma sigmoid_enjoyment_below_saturation_witness :
  (0 <= LifeEnjoymentStrategy.LifeEnjoyment exp_rational enjoy_ex 12 60
   <= LifeEnjoymentStrategy.c enjoy_ex *
      (LifeEnjoymentStrategy.beta enjoy_ex * (inject_Z 60 / 100)
       + LifeEnjoymentStrategy.mu enjoy_ex))%Q.
Proof.
  apply (sigmoid_enjoyment_below_saturation exp_rational enjoy_ex 12 60).
  - apply exp_rational_pos.
  - apply exp_rational_le_1.
  - simpl. lra.
  - simpl. lra.
  - simpl. lra.
  - simpl. lra.
  - lia.
  - lia.
Defined.

(** ** The state space of the shipped configuration *)

(** X25.  [main] of Healthcare_DP.py builds its solver with
    [DegenerationStrategy(7.625, 0.25, 18)] and [HarvestStrategy(46.811)].
    Whatever the regeneration and enjoyment classes, the state that
    [Solve] moves to from a candidate of a state in a period from 0 on
    has a resource between 0 and 100 and at most 67 units of currency:
    the 20 a candidate can bank and a harvest of at most 47. *)
Theorem shipped_configuration_bounds_states {R} (exp : Q -> Q)
  (start : DPState) (numRounds : Z)
  (regen : RegenerationStrategy.t) (enjoy : LifeEnjoymentStrategy.t)
  (s : DPState) (σ : Caches R) (c : DPState * Q) :
  let d := solver18 exp start numRounds regen enjoy in
  enum_ok d σ ->
  0 <= period s ->
  c ∈ (StateEnum d s σ).1 ->
  0 <= health (Transition d c.1) <= 100 /\
  cash (Transition d c.1) <= 67.
Proof.
  intros d Hok Hp Hc.
  destruct (StateEnum_candidates d s σ Hok) as (σ' & HSE & _).
  rewrite HSE in Hc. simpl in Hc.
  apply allStateEnjoyments_sound in Hc as (i & Hi & ->).
  rewrite potentialStates_plateau in Hi.
  apply elem_of_plateau_pruned in Hi.
  unfold Invest, Transition. cbn [fst period health cash].
  set (h := Z.min 100 _).
  assert (Hh : h <= 100) by (unfold h; lia).
  cbn [d solver18 strategies degenStrat harvestStrat].
  split.
  - unfold DegenerationStrategy.HealthDegeneration. cbn [degenStrat18
      DegenerationStrategy.intercept DegenerationStrategy.slope
      DegenerationStrategy.horizon].
    assert (Hq : (0 <= inject_Z (period s + 1))%Q) by (apply inject_Z_nonneg; lia).
    destruct (period s + 1 <=? 18).
    + assert (0 <= py_round ((7625 # 1000) + (1 # 4) * inject_Z (period s + 1)))
        by (apply py_round_nonneg; lra).
      lia.
    + assert (0 <= py_round ((7625 # 1000) + 2 * (1 # 4) * inject_Z (period s + 1)))
        by (apply py_round_nonneg; lra).
      lia.
  - assert (Hharvest : HarvestStrategy.HarvestAmount harvestStrat18 h <= 47).
    { unfold HarvestStrategy.HarvestAmount. cbn [harvestStrat18 HarvestStrategy.maxHarvest].
      change 47 with (py_round (46811 # 1000)).
      apply py_round_mono.
      assert (inject_Z h <= 100)%Q.
      { change 100%Q with (inject_Z 100). rewrite <- Zle_Qle. exact Hh. }
      apply Qle_shift_div_r; lra. }
    lia.
Qed.

Lemma shipped_configuration_bounds_states_witness :
  let d := solver18 exp_approx (mkDPState 0 85 0) 18 regen_ex enjoy_ex in
  let c := Invest d (mkDPState 3 70 1) (mkInvestment 0 1 0) in
  0 <= health (Transition d c.1) <= 100 /\ cash (Transition d c.1) <= 67.
Proof.
  intros d c.
  apply (shipped_configuration_bounds_states (R := unit) exp_approx (mkDPState 0 85 0) 18
           regen_ex enjoy_ex (mkDPState 3 70 1) no_caches c).
  - apply enum_ok_no_caches.
  - simpl. lia.
  - vm_compute. apply list_elem_of_In. vm_compute. auto.
Defined.

(** ** [AnalyzeStrat] of HealthcareDP_Stoch.py *)

Lemma st_solve_all_total (self : SDP.t) (l : list (DPState * Q)) :
  forall σ, exists rs σ', SDP.solve_all self l σ = Some (rs, σ') /\ length rs = length l.
Proof.
  induction l as [|i l IH]; intros σ; simpl.
  - exists [], σ. split; reflexivity.
  - destruct (st_Solve_rec_total self (rounds_left (SDP.numRounds self) i.1) i.1 σ
                ltac:(lia)) as (res & σ1 & E).
    unfold SDP.Solve, enough_fuel. rewrite E.
    destruct (IH σ1) as (rs & σ2 & -> & Hlen).
    exists (res :: rs), σ2. split; [reflexivity|]. simpl. rewrite Hlen. reflexivity.
Qed.

(** The second component of a result of [Solve] is the integer 0 or no
    number at all. *)
Lemma st_item1_cases (res : Stoch.SolveResult) :
  py_item (Stoch.result_val res) 1 = Ok (PInt 0) \/
  exists v, py_item (Stoch.result_val res) 1 = Ok v /\ SDP.py_num v = Raise TypeError.
Proof.
  destruct res as [ns | hr [s | state tv im] ev]; [left; reflexivity | right..];
    eexists; split; reflexivity.
Qed.

Lemma st_loss_at_raises (alternate : list Stoch.SolveResult)
  (strategy : list (DPState * Q)) (i : nat) :
  length alternate = (length strategy - 1)%nat ->
  (i + 2 < length strategy)%nat ->
  SDP.loss_at alternate strategy i = Raise TypeError \/
  SDP.loss_at alternate strategy i = Raise ZeroDivisionError.
Proof.
  intros Hlen Hi. unfold SDP.loss_at, SDP.remaining_after.
  destruct (py_nth_lt alternate (i + 1)) as [a1 ->]; [lia|].
  destruct (py_nth_lt strategy (i + 1)) as [s1 ->]; [lia|].
  destruct (py_nth_lt strategy (i + 2)) as [s2 ->]; [lia|].
  destruct (py_nth_lt alternate i) as [a ->]; [lia|].
  destruct (py_nth_lt alternate 0) as [a0 ->]; [lia|].
  simpl.
  destruct (st_item1_cases a1) as [-> | (v1 & -> & E1)]; simpl;
    [|rewrite E1; left; reflexivity].
  destruct (st_item1_cases a) as [-> | (v & -> & E)]; simpl;
    [|rewrite E; left; reflexivity].
  destruct (st_item1_cases a0) as [-> | (v0 & -> & E0)]; simpl;
    [right; reflexivity | rewrite E0; left; reflexivity].
Qed.

(** X26.  [AnalyzeStrat] of HealthcareDP_Stoch.py never writes a row.  On a
    trajectory of three records or more its first loss is an operation
    on the second component of a result of [Solve], which is the pair
    or state left by the hit-state search ([TypeError]: a tuple is no
    number) or the 0 of a finished game ([ZeroDivisionError]: the
    division is by it).  On a shorter trajectory both loops are empty. *)
Theorem stochastic_AnalyzeStrat_writes_no_row (self : SDP.t)
  (strategy : list (DPState * Q)) (σ : Caches Stoch.SolveResult) :
  exists res σ',
    SDP.AnalyzeStrat self strategy σ = Some (res, σ') /\
    if (length strategy <? 3)%nat then res = Ok []
    else res = Raise TypeError \/ res = Raise ZeroDivisionError.
Proof.
  unfold SDP.AnalyzeStrat.
  destruct (st_solve_all_total self (py_drop_last 1 strategy) σ)
    as (alternate & σ' & -> & Hlen).
  rewrite py_drop_last_length in Hlen.
  eexists _, σ'. split; [reflexivity|]. unfold SDP.analysis.
  rewrite py_drop_last_length, Hlen.
  destruct (length strategy <? 3)%nat eqn:E.
  - apply Nat.ltb_lt in E.
    replace (length strategy - 2)%nat with 0%nat by lia.
    replace (length strategy - 1 - 1)%nat with 0%nat by lia.
    reflexivity.
  - apply Nat.ltb_ge in E.
    destruct (length strategy - 2)%nat as [|n] eqn:En; [lia|].
    simpl.
    destruct (st_loss_at_raises alternate strategy 0 Hlen ltac:(lia)) as [-> | ->];
      [left | right]; reflexivity.
Qed.

(** ** The output of [main] *)

Lemma solve_vals_cons (self : HDP.t) (s : DPState) (vals : list PyVal)
  (σ : Caches SolveResult) :
  solve_vals self (PState s :: vals) σ
  = match Solve self s σ with
    | None => None
    | Some (o, σ1) =>
        match solve_vals self vals σ1 with
        | None => None
        | Some (Ok output, σ2) => Some (Ok (o :: output), σ2)
        | Some (Raise e, σ2) => Some (Raise e, σ2)
        end
    end.
Proof. reflexivity. Qed.

Lemma solve_vals_path (self : HDP.t) (n : nat) :
  forall s l σ,
    det_caches_ok self σ ->
    det_path n self (PState s) = Ok l ->
    (forall v, v ∈ l -> exists st, v = PState st) ->
    exists outs lastst σ',
      solve_vals self (PState s :: l) σ
      = Some (Ok (outs ++ [det_optimum self lastst]), σ') /\
      map item0 outs = l /\
      last (PState s :: l) = Some (PState lastst).
Proof.
  induction n as [|n IH]; intros s l σ Hok Hpath Hst; simpl in Hpath.
  - injection Hpath as <-. simpl.
    destruct (det_Solve_correct self s σ Hok) as (σ1 & -> & _).
    exists [], s, σ1. repeat split; reflexivity.
  - destruct (det_path n self (item0 (det_optimum self s))) as [l'|e] eqn:El';
      [|discriminate].
    injection Hpath as <-.
    destruct (Hst (item0 (det_optimum self s))) as [s' Hs']; [left|].
    rewrite Hs' in El'.
    rewrite solve_vals_cons.
    destruct (det_Solve_correct self s σ Hok) as (σ1 & -> & Hok1 & _).
    destruct (IH s' l' σ1 Hok1 El') as (outs & lastst & σ' & HS & Hmap & Hlast).
    { intros v Hv. apply Hst. right. exact Hv. }
    rewrite Hs', HS.
    exists (det_optimum self s :: outs), lastst, σ'.
    split; [reflexivity|]. split.
    + simpl. rewrite Hs', Hmap. reflexivity.
    + exact Hlast.
Qed.

Lemma main_rows_app (outs rest : list SolveResult) (rows : list MainRow) :
  Forall (fun o => exists st tv im, o = Triple st tv im /\ period st < 19) outs ->
  main_rows rest = Ok rows ->
  exists rows', main_rows (outs ++ rest) = Ok rows' /\
                length rows' = (length outs + length rows)%nat.
Proof.
  intros Hall Hrest. induction Hall as [|o outs (st & tv & im & -> & Hp) _ IH]; simpl.
  - exists rows. split; [exact Hrest | reflexivity].
  - destruct IH as (rows' & -> & Hlen). simpl.
    rewrite (proj2 (Z.ltb_lt _ _) Hp).
    eexists. split; [reflexivity|]. simpl. rewrite Hlen. reflexivity.
Qed.

(** X27.  [main] of Healthcare_DP.py solves from the starting state and from
    every entry of the path of [FindStrat].  For a start in period 0 and
    a path of states, the results repeat the path, followed by the
    result from its last state: the state after the last round, with
    totals 0.  The file gets a row for each result whose state is in a
    period below 19; so for up to 18 rounds every entry of the path is
    written, and for fewer than 18 rounds also the row of the state
    after the last round. *)
Theorem main_writes_state_after_last_round (self : HDP.t) (s : DPState)
  (σ σ1 : Caches SolveResult) (path : list PyVal) :
  det_caches_ok self σ ->
  period s = 0 ->
  1 <= numRounds self <= 18 ->
  FindStrat self s σ = Some (Ok path, σ1) ->
  (forall v, v ∈ path -> exists st, v = PState st) ->
  exists output st σ2 rows,
    main_output self s σ = Some (Ok (output ++ [Triple st 0 0]), σ2) /\
    map item0 output = path /\
    period st = numRounds self + 1 /\
    main_rows (output ++ [Triple st 0 0]) = Ok rows /\
    length rows = (length path + (if (numRounds self <? 18)%Z then 1 else 0))%nat.
Proof.
  intros Hok Hp Hn HF Hst. unfold main_output. rewrite HF.
  unfold FindStrat in HF.
  destruct (det_FindStrat_loop_path self (Z.to_nat (numRounds self))
              (PState s) [] σ Hok) as (σ1' & HF' & Hok1).
  rewrite HF in HF'.
  destruct (det_path (Z.to_nat (numRounds self)) self (PState s)) as [l|e] eqn:El;
    [|discriminate].
  injection HF' as -> <-. simpl in Hst |- *.
  destruct (solve_vals_path self _ s l σ1 Hok1 El Hst)
    as (outs & lastst & σ2 & HS & Hmap & Hlast).
  pose proof (det_path_shape self (Z.to_nat (numRounds self)) (PState s)) as Hshape.
  rewrite El in Hshape. destruct Hshape as [? | (l0 & [= <-] & Hlen)]; [discriminate|].
  pose proof (det_path_periods self _ s l El) as Hper.
  assert (Hlastp : period lastst = numRounds self).
  { rewrite last_lookup in Hlast. simpl in Hlast.
    destruct l as [|v l'] eqn:El0; [simpl in Hlen; lia|].
    rewrite <- El0 in *.
    assert (Hk : (PState s :: l) !! length l = l !! (length l - 1)%nat).
    { destruct (length l) as [|m] eqn:Em; [rewrite El0 in Em; discriminate|].
      simpl. rewrite Nat.sub_0_r. reflexivity. }
    rewrite Hk in Hlast.
    destruct (Hper _ _ Hlast) as [H1 _]. rewrite (H1 lastst eq_refl). lia. }
  assert (Hterm : det_optimum self lastst = Triple (Transition self lastst) 0 0).
  { rewrite det_optimum_eq.
    replace (terminal (numRounds self) (Transition self lastst)) with true;
      [reflexivity|].
    symmetry. unfold terminal. apply orb_true_iff. left.
    apply Z.ltb_lt. simpl. lia. }
  rewrite Hterm in HS.
  assert (Hall : Forall (fun o => exists st tv im, o = Triple st tv im /\ period st < 19)
                   outs).
  { apply Forall_lookup. intros k o Ho.
    assert (Hv : l !! k = Some (item0 o)).
    { rewrite <- Hmap, list_lookup_fmap, Ho. reflexivity. }
    destruct (Hst (item0 o)) as [st Hst'].
    { apply list_elem_of_lookup. exists k. exact Hv. }
    destruct o as [|st0 tv im]; [discriminate|]. simpl in Hst'. injection Hst' as ->.
    exists st, tv, im. split; [reflexivity|].
    destruct (Hper _ _ Hv) as [H1 _]. rewrite (H1 st eq_refl).
    apply lookup_lt_Some in Hv. lia. }
  destruct (main_rows_app outs [Triple (Transition self lastst) 0 0]
              (if (numRounds self <? 18)%Z
               then [{| Round := period (Transition self lastst);
                        Health := health (Transition self lastst);
                        CashonHand := cash (Transition self lastst);
                        LERemaining := 0; LEEarned := 0 |}]
               else []) Hall) as (rows & Hrows & Hlenr).
  { simpl. rewrite Hlastp.
    replace (numRounds self + 1 <? 19) with (numRounds self <? 18)
      by (destruct (Z.ltb_spec (numRounds self) 18), (Z.ltb_spec (numRounds self + 1) 19);
          try reflexivity; lia).
    reflexivity. }
  exists outs, (Transition self lastst), σ2, rows.
  split; [exact HS|]. split; [exact Hmap|]. split; [simpl; lia|].
  split; [exact Hrows|]. rewrite Hlenr, <- Hmap, length_map.
  destruct (numRounds self <? 18); reflexivity.
Qed.

(** A small solver object: two rounds, a loss of one unit of resource
    a round, a harvest of a twentieth of the resource. *)
Definition solver_two_rounds : HDP.t :=
  {| start := mkDPState 0 60 0;
     numRounds := 2;
     strategies :=
       {| regenStrat := fun investment => investment / 2;
          enjoymentStrat := fun investment currentHealth =>
            inject_Z (investment * currentHealth);
          degenStrat := fun currentHealth _ => currentHealth - 1;
          harvestStrat := fun currentHealth => currentHealth / 20 |} |}.

Lemma main_writes_state_after_last_round_witness :
  exists path output st σ2 rows,
    (forall v, v ∈ path -> exists st, v = PState st) /\
    main_output solver_two_rounds (mkDPState 0 60 0) no_caches
    = Some (Ok (output ++ [Triple st 0 0]), σ2) /\
    map item0 output = path /\
    period st = numRounds solver_two_rounds + 1 /\
    main_rows (output ++ [Triple st 0 0]) = Ok rows /\
    length rows = (length path + 1)%nat.
Proof.
  assert (HF : exists σ1,
             FindStrat solver_two_rounds (mkDPState 0 60 0) no_caches
             = Some (Ok [PState (mkDPState 1 59 0); PState (mkDPState 2 58 0)], σ1)).
  { eexists. vm_compute. reflexivity. }
  destruct HF as [σ1 HF].
  assert (Hst : forall v, v ∈ [PState (mkDPState 1 59 0); PState (mkDPState 2 58 0)] ->
                  exists st, v = PState st).
  { intros v Hv. apply elem_of_cons in Hv as [-> | Hv]; [eexists; reflexivity|].
    apply elem_of_cons in Hv as [-> | Hv]; [eexists; reflexivity | inversion Hv]. }
  destruct (main_writes_state_after_last_round solver_two_rounds (mkDPState 0 60 0)
              no_caches σ1 _ (det_caches_ok_empty _) eq_refl ltac:(simpl; lia) HF Hst)
    as (output & st & σ2 & rows & H1 & H2 & H3 & H4 & H5).
  exists [PState (mkDPState 1 59 0); PState (mkDPState 2 58 0)], output, st, σ2, rows.
  repeat split; assumption.
Defined.

(** ** The shipped configuration of HealthcareDP_NewDegen.py *)

(** X28.  [main] of HealthcareDP_NewDegen.py builds its solver with
    [RegenerationStrategy(d=10, k=50)] and [LifeEnjoymentStrategy(j=50)].
    With these constants neither method raises, on any investment and
    any resource, and the gain is not negative. *)
Theorem shipped_banked_strategies_never_raise (investment health : Z) :
  exists gain enjoy,
    NewDegen.RegenerationStrategy.HealthRegained
      {| NewDegen.RegenerationStrategy.d := 10;
         NewDegen.RegenerationStrategy.k := 50 |} investment health = Ok gain /\
    0 <= gain /\
    NewDegen.LifeEnjoymentStrategy.LifeEnjoyment
      {| NewDegen.LifeEnjoymentStrategy.j := 50 |} investment health = Ok enjoy.
Proof.
  unfold NewDegen.RegenerationStrategy.HealthRegained,
    NewDegen.LifeEnjoymentStrategy.LifeEnjoyment, NewDegen.py_div.
  destruct (investment <=? 0) eqn:Ei.
  { exists 0, 0%Q. repeat split; try reflexivity; lia. }
  apply Z.leb_gt, inject_Z_pos in Ei. cbn [NewDegen.RegenerationStrategy.k
    NewDegen.RegenerationStrategy.d NewDegen.LifeEnjoymentStrategy.j].
  destruct (Qeq_bool (inject_Z investment + 50) 0) eqn:E;
    [apply Qeq_bool_iff in E; exfalso; lra|].
  simpl. eexists _, _. repeat split; try reflexivity; lia.
Qed.
